(** * Provisioning orchestration: progress tracker and parameter prompter

    A shallow embedding of
    [cli/azd/pkg/infra/provisioning_progress_display.go] (the deployment
    progress tracker) and of the parameter prompter exercised by
    [cli/azd/pkg/infra/provisioning/bicep/prompt_test.go], together with the
    properties the specification states about them. *)

From Stdlib Require Import ZArith String Ascii List Lia.
From Stdlib Require Import Sorting.Sorted Sorting.Permutation DecimalString.
From stdpp Require Import base option list gmap strings sorting.

Local Set Warnings "-register-all,-clear-no-such-hyp".
Local Open Scope string_scope.
Local Open Scope Z_scope.

(** ** Go values shared by both components *)

(** A Go [error] is represented by its message. *)
Definition error := string.

(** A Go result pair [(v, err)]: exactly one of the two is meaningful. *)
Inductive result (A : Type) : Type :=
| Ok (v : A)
| Err (e : error).
Arguments Ok {A} v.
Arguments Err {A} e.

(** The line feed character, written ["\n"] in Go. *)
Definition LF : string := String (ascii_of_nat 10) EmptyString.

(** [strings.Contains s substr]. *)
Fixpoint Contains (s substr : string) : bool :=
  if String.prefix substr s then true
  else match s with
       | EmptyString => false
       | String _ rest => Contains rest substr
       end.

(** [strings.Join elems sep]. *)
Fixpoint Join (elems : list string) (sep : string) : string :=
  match elems with
  | [] => ""
  | [e] => e
  | e :: rest => e ++ sep ++ Join rest sep
  end.

(** [strconv.ParseBool]: the twelve spellings Go accepts. *)
Definition ParseBool (str : string) : result bool :=
  if decide (str = "1") then Ok true
  else if decide (str = "t") then Ok true
  else if decide (str = "T") then Ok true
  else if decide (str = "true") then Ok true
  else if decide (str = "TRUE") then Ok true
  else if decide (str = "True") then Ok true
  else if decide (str = "0") then Ok false
  else if decide (str = "f") then Ok false
  else if decide (str = "F") then Ok false
  else if decide (str = "false") then Ok false
  else if decide (str = "FALSE") then Ok false
  else if decide (str = "False") then Ok false
  else Err "strconv.ParseBool: invalid syntax".

(** [fmt.Sprintf format arg] for a format that carries one [%s] verb: the
    first [%s] is replaced by the argument, everything else is copied. *)
Fixpoint Sprintf (format arg : string) : string :=
  match format with
  | EmptyString => EmptyString
  | String c rest =>
      match rest with
      | String c' rest' =>
          if (Ascii.eqb c "%" && Ascii.eqb c' "s")%bool then arg ++ rest'
          else String c (Sprintf rest arg)
      | EmptyString => String c EmptyString
      end
  end.

(** ** [sort.Slice]

    [sort.Slice] belongs to the Go library.  Its documented contract is
    that the slice is rearranged in place (so the result is a permutation
    of the input) into an order in which no element is [less] than an
    element before it, provided [less] is a strict weak ordering; the
    documentation adds that the sort is not guaranteed to be stable.  The
    tracker is verified against this contract. *)

Record StrictWeak {A : Type} (less : A -> A -> bool) : Prop := {
  less_irrefl : forall a, less a a = false;
  less_trans : forall a b c, less a b = true -> less b c = true -> less a c = true;
  less_incomp : forall a b c, less a b = false -> less b c = false -> less a c = false
}.

(** The sort the tracker calls, as a function on the slice. *)
Class SliceSorter := {
  sort_Slice : forall {A : Type}, (A -> A -> bool) -> list A -> list A
}.

(** The documented contract of [sort.Slice]. *)
Class SliceContract (sorter : SliceSorter) : Prop := {
  sort_Slice_perm : forall A (less : A -> A -> bool) (x : list A),
      Permutation x (sort_Slice less x);
  sort_Slice_sorted : forall A (less : A -> A -> bool) (x : list A),
      StrictWeak less ->
      StronglySorted (fun a b => less b a = false) (sort_Slice less x)
}.

(** Insertion sort, a sort that meets the contract: every element in turn
    is swapped leftwards while it is [less] than its left neighbour.  The
    sorted prefix is kept in reverse, so that the left neighbour is the
    head. *)
Fixpoint siftLeft {A : Type} (less : A -> A -> bool) (x : A) (revPrefix : list A) : list A :=
  match revPrefix with
  | [] => [x]
  | y :: r => if less x y then y :: siftLeft less x r else x :: y :: r
  end.

Definition insertionSort {A : Type} (less : A -> A -> bool) (data : list A) : list A :=
  rev (fold_left (fun revPrefix x => siftLeft less x revPrefix) data []).

(** The sorter that runs insertion sort. *)
#[local] Instance insertionSorter : SliceSorter := {|
  sort_Slice := @insertionSort
|}.

(** ** [sort.Slice] as the Go library implements it

    Since Go 1.19 [sort.Slice] runs the pattern-defeating quicksort of
    [sort/zsortfunc.go] on the slice, which it reaches through
    [data.Less(i, j)] and [data.Swap(i, j)] only.  The library is not
    among the files of the repository; its functions are transcribed here
    to run the tracker on the sort it really calls.  Ranges [data[a:b]] are
    given by their bounds, and every loop whose length is not fixed by a
    counter runs on a number of rounds that bounds it. *)

Section GoSort.

Context {A : Type} (less : A -> A -> bool).

Local Open Scope nat_scope.

(** [data.Less(i, j)]: the closure handed to [sort.Slice] compares the
    elements now at [i] and [j].  An index out of range panics in Go; the
    sort produces none. *)
Definition data_Less (data : list A) (i j : nat) : bool :=
  match data !! i, data !! j with
  | Some x, Some y => less x y
  | _, _ => false
  end.

(** [data.Swap(i, j)]. *)
Definition data_Swap (data : list A) (i j : nat) : list A :=
  match data !! i, data !! j with
  | Some x, Some y => <[j := x]> (<[i := y]> data)
  | _, _ => data
  end.

(** [for j := i; j > a && data.Less(j, j-1); j-- { data.Swap(j, j-1) }] *)
Fixpoint insertionSort_shift (a j : nat) (data : list A) : list A :=
  match j with
  | S j' =>
      if (a <? j) && data_Less data j j'
      then insertionSort_shift a j' (data_Swap data j j')
      else data
  | O => data
  end.

(** [insertionSort_func]: [for i := a + 1; i < b; i++]. *)
Definition insertionSort_func (data : list A) (a b : nat) : list A :=
  fold_left (fun data i => insertionSort_shift a i data)
    (seq (a + 1) (b - (a + 1))) data.

(** [siftDown_func]; the root at least doubles in every round. *)
Fixpoint siftDown_func (rounds : nat) (data : list A) (root hi first : nat)
    : list A :=
  match rounds with
  | O => data
  | S rounds' =>
      let child := 2 * root + 1 in
      if hi <=? child then data
      else
        let child :=
          if (child + 1 <? hi) && data_Less data (first + child) (first + child + 1)
          then child + 1 else child in
        if negb (data_Less data (first + root) (first + child)) then data
        else siftDown_func rounds' (data_Swap data (first + root) (first + child))
               child hi first
  end.

(** [heapSort_func]: build the heap, [for i := (hi - 1) / 2; i >= 0; i--],
    then pop the elements, [for i := hi - 1; i >= 0; i--]. *)
Definition heapSort_func (data : list A) (a b : nat) : list A :=
  let first := a in
  let lo := 0 in
  let hi := b - a in
  let data :=
    fold_left (fun data i => siftDown_func hi data i hi first)
      (rev (seq 0 ((hi - 1) / 2 + 1))) data in
  fold_left (fun data i => siftDown_func hi (data_Swap data first (first + i)) lo i first)
    (rev (seq 0 hi)) data.

(** [xorshift.Next], on [uint64]. *)
Definition xorshift_Next (r : Z) : Z :=
  let r := Z.lxor r (Z.shiftl r 13 mod 2 ^ 64)%Z in
  let r := Z.lxor r (Z.shiftr r 7) in
  Z.lxor r (Z.shiftl r 17 mod 2 ^ 64)%Z.

(** [bits.Len]. *)
Definition bits_Len (x : nat) : nat :=
  match x with
  | O => 0
  | _ => S (Nat.log2 x)
  end.

Definition nextPowerOfTwo (length : nat) : Z := (2 ^ Z.of_nat (bits_Len length))%Z.

(** [breakPatterns_func]: three swaps around the middle of the range. *)
Definition breakPatterns_func (data : list A) (a b : nat) : list A :=
  let length := b - a in
  if 8 <=? length then
    let modulus := nextPowerOfTwo length in
    let idx := a + (length / 4) * 2 - 1 in
    snd (fold_left
           (fun (state : Z * list A) i =>
              let random := xorshift_Next (fst state) in
              let other := Z.to_nat (Z.land random (modulus - 1)) in
              let other := if length <=? other then other - length else other in
              (random, data_Swap (snd state) (idx - 1 + i) (a + other)))
           (seq 0 3) (Z.of_nat length, data))
  else data.

Inductive sortedHint := unknownHint | increasingHint | decreasingHint.

(** [order2_func], [median_func] and [medianAdjacent_func]; the count of
    swaps is threaded through. *)
Definition order2_func (data : list A) (a b swaps : nat) : nat * nat * nat :=
  if data_Less data b a then (b, a, S swaps) else (a, b, swaps).

Definition median_func (data : list A) (a b c swaps : nat) : nat * nat :=
  let '(a, b, swaps) := order2_func data a b swaps in
  let '(b, c, swaps) := order2_func data b c swaps in
  let '(a, b, swaps) := order2_func data a b swaps in
  (b, swaps).

Definition medianAdjacent_func (data : list A) (a swaps : nat) : nat * nat :=
  median_func data (a - 1) a (a + 1) swaps.

(** [choosePivot_func]: a static pivot below 8 elements, the median of
    three below 50, Tukey's ninther from there on. *)
Definition choosePivot_func (data : list A) (a b : nat) : nat * sortedHint :=
  let shortestNinther := 50 in
  let maxSwaps := 4 * 3 in
  let l := b - a in
  let swaps := 0 in
  let i := a + l / 4 * 1 in
  let j := a + l / 4 * 2 in
  let k := a + l / 4 * 3 in
  let '(j, swaps) :=
    if 8 <=? l then
      let '(i, j, k, swaps) :=
        if shortestNinther <=? l then
          let '(i, swaps) := medianAdjacent_func data i swaps in
          let '(j, swaps) := medianAdjacent_func data j swaps in
          let '(k, swaps) := medianAdjacent_func data k swaps in
          (i, j, k, swaps)
        else (i, j, k, swaps) in
      median_func data i j k swaps
    else (j, swaps) in
  if swaps =? 0 then (j, increasingHint)
  else if swaps =? maxSwaps then (j, decreasingHint)
  else (j, unknownHint).

(** [reverseRange_func]: [for i < j { data.Swap(i, j); i++; j-- }]. *)
Fixpoint reverseRange_loop (rounds : nat) (data : list A) (i j : nat) : list A :=
  match rounds with
  | O => data
  | S rounds' =>
      if i <? j then reverseRange_loop rounds' (data_Swap data i j) (i + 1) (j - 1)
      else data
  end.

Definition reverseRange_func (data : list A) (a b : nat) : list A :=
  reverseRange_loop (b - a) data a (b - 1).

(** The loops of [partialInsertionSort_func]:
    [for i < b && !data.Less(i, i-1) { i++ }], *)
Fixpoint partialInsertionSort_skip (rounds : nat) (data : list A) (i b : nat) : nat :=
  match rounds with
  | O => i
  | S rounds' =>
      if (i <? b) && negb (data_Less data i (i - 1))
      then partialInsertionSort_skip rounds' data (i + 1) b
      else i
  end.

(** [for j := i - 1; j >= 1; j-- { if !data.Less(j, j-1) { break }; data.Swap(j, j-1) }] *)
Fixpoint partialInsertionSort_left (j : nat) (data : list A) : list A :=
  match j with
  | S j' =>
      if negb (data_Less data j j') then data
      else partialInsertionSort_left j' (data_Swap data j j')
  | O => data
  end.

(** and [for j := i + 1; j < b; j++ { if !data.Less(j, j-1) { break }; data.Swap(j, j-1) }]. *)
Fixpoint partialInsertionSort_right (rounds : nat) (data : list A) (j b : nat)
    : list A :=
  match rounds with
  | O => data
  | S rounds' =>
      if j <? b then
        if negb (data_Less data j (j - 1)) then data
        else partialInsertionSort_right rounds' (data_Swap data j (j - 1)) (j + 1) b
      else data
  end.

Fixpoint partialInsertionSort_steps (steps : nat) (data : list A) (a b i : nat)
    : list A * bool :=
  let shortestShifting := 50 in
  match steps with
  | O => (data, false)
  | S steps' =>
      let i := partialInsertionSort_skip b data i b in
      if i =? b then (data, true)
      else if b - a <? shortestShifting then (data, false)
      else
        let data := data_Swap data i (i - 1) in
        let data :=
          if 2 <=? i - a then partialInsertionSort_left (i - 1) data else data in
        let data :=
          if 2 <=? b - i then partialInsertionSort_right b data (i + 1) b else data in
        partialInsertionSort_steps steps' data a b i
  end.

(** [partialInsertionSort_func]: at most [maxSteps = 5] pairs out of order
    are shifted; the result says whether the range is sorted. *)
Definition partialInsertionSort_func (data : list A) (a b : nat) : list A * bool :=
  partialInsertionSort_steps 5 data a b (a + 1).

(** The two scans of the partitions: [for i <= j && test(i) { i++ }] and
    [for i <= j && test(j) { j-- }]. *)
Fixpoint scanUp (rounds : nat) (test : nat -> bool) (i j : nat) : nat :=
  match rounds with
  | O => i
  | S rounds' => if (i <=? j) && test i then scanUp rounds' test (i + 1) j else i
  end.

Fixpoint scanDown (rounds : nat) (test : nat -> bool) (i j : nat) : nat :=
  match rounds with
  | O => j
  | S rounds' => if (i <=? j) && test j then scanDown rounds' test i (j - 1) else j
  end.

(** The [for] loop of [partitionEqual_func]. *)
Fixpoint partitionEqual_loop (rounds : nat) (data : list A) (a i j : nat)
    : list A * nat :=
  match rounds with
  | O => (data, i)
  | S rounds' =>
      let i := scanUp (S j) (fun i => negb (data_Less data a i)) i j in
      let j := scanDown (S j) (fun j => data_Less data a j) i j in
      if j <? i then (data, i)
      else partitionEqual_loop rounds' (data_Swap data i j) a (i + 1) (j - 1)
  end.

(** [partitionEqual_func]: the elements equal to the pivot go left. *)
Definition partitionEqual_func (data : list A) (a b pivot : nat) : list A * nat :=
  let data := data_Swap data a pivot in
  partitionEqual_loop b data a (a + 1) (b - 1).

(** The final [for] loop of [partition_func]. *)
Fixpoint partition_loop (rounds : nat) (data : list A) (a i j : nat)
    : list A * nat :=
  match rounds with
  | O => (data, j)
  | S rounds' =>
      let i := scanUp (S j) (fun i => data_Less data i a) i j in
      let j := scanDown (S j) (fun j => negb (data_Less data j a)) i j in
      if j <? i then (data, j)
      else partition_loop rounds' (data_Swap data i j) a (i + 1) (j - 1)
  end.

(** [partition_func]: the pivot is put first, the elements less than it
    are gathered on the left, and the pivot is put between the two
    parts.  The result is the slice, the new place of the pivot, and
    whether the range was partitioned already. *)
Definition partition_func (data : list A) (a b pivot : nat)
    : list A * nat * bool :=
  let data := data_Swap data a pivot in
  let i := a + 1 in
  let j := b - 1 in
  let i := scanUp (S j) (fun i => data_Less data i a) i j in
  let j := scanDown (S j) (fun j => negb (data_Less data j a)) i j in
  if j <? i then (data_Swap data j a, j, true)
  else
    let data := data_Swap data i j in
    let '(data, j) := partition_loop b data a (i + 1) (j - 1) in
    (data_Swap data j a, j, false).

(** [pdqsort_func].  The two flags are the local variables
    [wasBalanced] and [wasPartitioned]; a recursive call starts with both
    set, the next round of the loop keeps them.  Every round shortens the
    range. *)
Fixpoint pdqsort_func (rounds : nat) (data : list A) (a b limit : nat)
    (wasBalanced wasPartitioned : bool) : list A :=
  let maxInsertion := 12 in
  match rounds with
  | O => data
  | S rounds' =>
      let length := b - a in
      if length <=? maxInsertion then insertionSort_func data a b
      else if limit =? 0 then heapSort_func data a b
      else
        let '(data, limit) :=
          if negb wasBalanced then (breakPatterns_func data a b, limit - 1)
          else (data, limit) in
        let '(pivot, hint) := choosePivot_func data a b in
        let '(data, pivot, hint) :=
          match hint with
          | decreasingHint =>
              (reverseRange_func data a b, (b - 1) - (pivot - a), increasingHint)
          | _ => (data, pivot, hint)
          end in
        let '(data, sorted) :=
          match hint with
          | increasingHint =>
              if wasBalanced && wasPartitioned
              then partialInsertionSort_func data a b
              else (data, false)
          | _ => (data, false)
          end in
        if sorted then data
        else if (0 <? a) && negb (data_Less data (a - 1) pivot) then
          let '(data, mid) := partitionEqual_func data a b pivot in
          pdqsort_func rounds' data mid b limit wasBalanced wasPartitioned
        else
          let '(data, mid, alreadyPartitioned) := partition_func data a b pivot in
          let wasPartitioned := alreadyPartitioned in
          let leftLen := mid - a in
          let rightLen := b - mid in
          let balanceThreshold := length / 8 in
          if leftLen <? rightLen then
            let wasBalanced := balanceThreshold <=? leftLen in
            let data := pdqsort_func rounds' data a mid limit true true in
            pdqsort_func rounds' data (mid + 1) b limit wasBalanced wasPartitioned
          else
            let wasBalanced := balanceThreshold <=? rightLen in
            let data := pdqsort_func rounds' data (mid + 1) b limit true true in
            pdqsort_func rounds' data a mid limit wasBalanced wasPartitioned
  end.

(** [sort.Slice(x, less)]. *)
Definition Slice (x : list A) : list A :=
  let length := List.length x in
  let limit := bits_Len length in
  pdqsort_func (S length) x 0 length limit true true.

End GoSort.

(** The sorter of the Go library. *)
Definition goSorter : SliceSorter := {|
  sort_Slice := @Slice
|}.

(** ** The progress tracker: data *)

(** [armresources.TargetResource]: the fields the tracker reads. *)
Record TargetResource := {
  ID : string;
  ResourceName : string;
  ResourceType : string
}.

(** [armresources.DeploymentOperation].  [Properties_TargetResource] is the
    one pointer the tracker tests against [nil]; the others are
    dereferenced unguarded, so they are modelled as always present.  A
    timestamp is an instant, in nanoseconds. *)
Record DeploymentOperation := {
  Properties_TargetResource : option TargetResource;
  Properties_ProvisioningState : string;
  Properties_Timestamp : Z;
  Properties_Duration : string
}.

Definition ProvisioningStateSucceeded : string := "Succeeded".
Definition ProvisioningStateRunning : string := "Running".
Definition ProvisioningStateFailed : string := "Failed".

(** The fields of [ProvisioningProgressDisplay] that change over time. *)
Record ProvisioningProgressDisplay := {
  deploymentStarted : bool;
  displayedResources : gmap string bool
}.

Definition NewProvisioningProgressDisplay : ProvisioningProgressDisplay :=
  {| deploymentStarted := false; displayedResources := ∅ |}.

(** Reading a Go [map[string]bool]: a missing key reads as [false]. *)
Definition mapIndex (m : gmap string bool) (key : string) : bool :=
  default false (m !! key).

(** What the tracker shows: the items of [ux] it builds, and the calls it
    makes on the console and on [log]. *)
Inductive UxItem :=
| MultilineMessage (Lines : list string)
| DisplayedResource (Type_ Name State : string) (Duration : Z).

Inductive Event :=
| EnsureBlankLine
| MessageUxItem (item : UxItem)
| LogPrintf (line : string)
| ShowSpinner (title : string).

(** What one call observes of the world outside the tracker: the answers
    of the deployment handle, of the resource manager and of the console,
    and the value of the environment variable. *)
Record Remote := {
  Deployment_Get : result unit;
  Deployment_DeploymentUrl : result string;
  Deployment_SubscriptionId : string;
  Getenv_AZD_DEMO_MODE : string;
  GetDeploymentResourceOperations : result (list DeploymentOperation);
  (** subscription id, resource id, resource type *)
  rm_GetResourceTypeDisplayName : string -> string -> string -> result string;
  IsSpinnerInteractive : bool
}.

(** The three buckets filled by the classification loop. *)
Record Buckets := {
  newlyDeployedResources : list DeploymentOperation;
  newlyFailedResources : list DeploymentOperation;
  runningDeployments : list DeploymentOperation
}.

Definition noBuckets : Buckets :=
  {| newlyDeployedResources := []; newlyFailedResources := []; runningDeployments := [] |}.

(** The body of [for i := range operations]. *)
Definition classifyOne (displayed : gmap string bool) (b : Buckets)
    (op : DeploymentOperation) : Buckets :=
  match Properties_TargetResource op with
  | Some target =>
      let resourceId := ResourceName target in
      if negb (mapIndex displayed resourceId) then
        if decide (Properties_ProvisioningState op = ProvisioningStateSucceeded) then
          {| newlyDeployedResources := newlyDeployedResources b ++ [op];
             newlyFailedResources := newlyFailedResources b;
             runningDeployments := runningDeployments b |}
        else if decide (Properties_ProvisioningState op = ProvisioningStateRunning) then
          {| newlyDeployedResources := newlyDeployedResources b;
             newlyFailedResources := newlyFailedResources b;
             runningDeployments := runningDeployments b ++ [op] |}
        else if decide (Properties_ProvisioningState op = ProvisioningStateFailed) then
          {| newlyDeployedResources := newlyDeployedResources b;
             newlyFailedResources := newlyFailedResources b ++ [op];
             runningDeployments := runningDeployments b |}
        else b
      else b
  | None => b
  end.

Definition classify (displayed : gmap string bool)
    (operations : list DeploymentOperation) : Buckets :=
  fold_left (classifyOne displayed) operations noBuckets.

(** The comparison handed to [sort.Slice]: [time.Time.Before]. *)
Definition timestampBefore (a b : DeploymentOperation) : bool :=
  Properties_Timestamp a <? Properties_Timestamp b.

(** The fields a processed operation is known to have: operations reach
    [logNewlyCreatedResources] only with a target resource. *)
Definition targetOf (op : DeploymentOperation) : TargetResource :=
  default {| ID := ""; ResourceName := ""; ResourceType := "" |}
          (Properties_TargetResource op).

(** [time.Duration.Truncate(time.Millisecond)], on nanoseconds. *)
Definition TruncateMillisecond (d : Z) : Z := d - Z.rem d 1000000.

(** Functions the tracker calls that are declared outside the files at
    hand: the static translation table [azapi.GetResourceTypeDisplayName],
    [convert.ParseDuration] (in nanoseconds), the rendering
    [Local().Format("2006-01-02 15:04:05")] of a timestamp, and the
    terminal escape sequences [output.WithLinkFormat] puts around the text
    it colours. *)
Class Externals := {
  azapi_GetResourceTypeDisplayName : string -> string;
  convert_ParseDuration : string -> result Z;
  formatLocal : Z -> string;
  linkOn : string;
  linkOff : string
}.

(** ** The progress tracker: vocabulary for the properties *)

(** An operation passes the two guards of the loop: it has a target, whose
    name is not in the set. *)
Definition isNew (displayed : gmap string bool) (op : DeploymentOperation) : bool :=
  match Properties_TargetResource op with
  | Some target => negb (mapIndex displayed (ResourceName target))
  | None => false
  end.

Definition inState (state : string) (op : DeploymentOperation) : bool :=
  bool_decide (Properties_ProvisioningState op = state).

Definition newIn (displayed : gmap string bool) (state : string)
    (op : DeploymentOperation) : bool :=
  isNew displayed op && inState state op.

(** The resource names shown as [DisplayedResource] items. *)
Definition uxResourceNames (evs : list Event) : list string :=
  flat_map (fun e => match e with
                     | MessageUxItem (DisplayedResource _ name _ _) => [name]
                     | _ => []
                     end) evs.

(** The events that report on a resource: its row and its log line. *)
Definition aboutResource (e : Event) : bool :=
  match e with
  | MessageUxItem (DisplayedResource _ _ _ _) => true
  | LogPrintf _ => true
  | _ => false
  end.

(** [a] occurs before [b] in [l]. *)
Definition precedes {X : Type} (a b : X) (l : list X) : Prop :=
  exists l1 l2 l3, l = (l1 ++ a :: l2 ++ b :: l3)%list.

(** The same world, with another answer to the query for operations. *)
Definition withOperations (r : Remote) (operations : list DeploymentOperation)
    : Remote :=
  {| Deployment_Get := Deployment_Get r;
     Deployment_DeploymentUrl := Deployment_DeploymentUrl r;
     Deployment_SubscriptionId := Deployment_SubscriptionId r;
     Getenv_AZD_DEMO_MODE := Getenv_AZD_DEMO_MODE r;
     GetDeploymentResourceOperations := Ok operations;
     rm_GetResourceTypeDisplayName := rm_GetResourceTypeDisplayName r;
     IsSpinnerInteractive := IsSpinnerInteractive r |}.

(** The test [err == nil && v] on [AZD_DEMO_MODE]. *)
Definition demoMode (r : Remote) : bool :=
  match ParseBool (Getenv_AZD_DEMO_MODE r) with
  | Ok true => true
  | _ => false
  end.

(** No percent sign occurs in the string. *)
Fixpoint noPercent (s : string) : bool :=
  match s with
  | EmptyString => true
  | String c rest => negb (Ascii.eqb c "%") && noPercent rest
  end.

(** The key under which an operation is recorded in [displayedResources]. *)
Definition nameOf (op : DeploymentOperation) : string := ResourceName (targetOf op).

Section Tracker.

Context {ext : Externals} {sorter : SliceSorter}.

Definition WithLinkFormat (text : string) : string := linkOn ++ text ++ linkOff.

(** Dynamic lookup of the display name, static table on failure. *)
Definition resolveTypeDisplayName (r : Remote) (resource : DeploymentOperation) : string :=
  let resourceTypeName := ResourceType (targetOf resource) in
  match rm_GetResourceTypeDisplayName r (Deployment_SubscriptionId r)
          (ID (targetOf resource)) resourceTypeName with
  | Ok resourceTypeDisplayName => resourceTypeDisplayName
  | Err _ => azapi_GetResourceTypeDisplayName resourceTypeName
  end.

(** The body of [for _, resource := range resources]: the events it
    produces, and the set after it. *)
Definition logResource (r : Remote) (displayed : gmap string bool)
    (resource : DeploymentOperation) : list Event * gmap string bool :=
  let resourceTypeName := ResourceType (targetOf resource) in
  let resourceTypeDisplayName := resolveTypeDisplayName r resource in
  let '(shown, resourceTypeName) :=
    if negb (String.eqb resourceTypeDisplayName "") then
      let duration :=
        match convert_ParseDuration (Properties_Duration resource) with
        | Ok d => d
        | Err _ => 0
        end in
      ([MessageUxItem
          (DisplayedResource resourceTypeDisplayName
             (ResourceName (targetOf resource))
             (Properties_ProvisioningState resource)
             (TruncateMillisecond duration))],
       resourceTypeDisplayName)
    else ([], resourceTypeName) in
  ((shown ++
    [LogPrintf (formatLocal (Properties_Timestamp resource) ++ " - "
                ++ Properties_ProvisioningState resource ++ " "
                ++ resourceTypeName ++ ": "
                ++ ResourceName (targetOf resource))])%list,
   <[ResourceName (targetOf resource) := true]> displayed).

Fixpoint logResources (r : Remote) (displayed : gmap string bool)
    (resources : list DeploymentOperation) : list Event * gmap string bool :=
  match resources with
  | [] => ([], displayed)
  | resource :: rest =>
      let '(ev, displayed') := logResource r displayed resource in
      let '(evs, displayed'') := logResources r displayed' rest in
      ((ev ++ evs)%list, displayed'')
  end.

(** The second loop: display names of the running resources. *)
Fixpoint inProgressNames (r : Remote) (inProgressResources : list DeploymentOperation)
    : list string :=
  match inProgressResources with
  | [] => []
  | inProgResource :: rest =>
      let resourceTypeDisplayName := resolveTypeDisplayName r inProgResource in
      if negb (String.eqb resourceTypeDisplayName "")
      then resourceTypeDisplayName :: inProgressNames r rest
      else inProgressNames r rest
  end.

Definition spinner (r : Remote) (inProgress : list string) : list Event :=
  if negb (IsSpinnerInteractive r) then []
  else if (0 <? Z.of_nat (length inProgress)) then
    [ShowSpinner ("Creating/Updating resources (" ++ Join inProgress ", " ++ ")")]
  else [ShowSpinner "Creating/Updating resources"].

Definition logNewlyCreatedResources (r : Remote) (displayed : gmap string bool)
    (resources inProgressResources : list DeploymentOperation)
    : list Event * gmap string bool :=
  let '(evs, displayed') := logResources r displayed resources in
  ((evs ++ spinner r (inProgressNames r inProgressResources))%list, displayed').

(** The announcement of the first call that reaches the deployment. *)
Definition announcementLines (r : Remote) (deploymentUrl : string) : list string :=
  let deploymentLink := Sprintf (WithLinkFormat ("%s" ++ LF)) deploymentUrl in
  let lines :=
    [ "You can view detailed progress in the Azure Portal:"; deploymentLink ] in
  match ParseBool (Getenv_AZD_DEMO_MODE r) with
  | Ok true => [ "You can view detailed progress in the Azure Portal."; LF ]
  | _ => lines
  end.

(** The part of [ReportProgress] after the announcement. *)
Definition reportOperations (r : Remote) (display : ProvisioningProgressDisplay)
    : ProvisioningProgressDisplay * list Event * option error :=
  match GetDeploymentResourceOperations r with
  | Err err => (display, [], Some err)
  | Ok operations =>
      let b := classify (displayedResources display) operations in
      let sorted := sort_Slice timestampBefore (newlyDeployedResources b) in
      let displayedResources_ := (sorted ++ newlyFailedResources b)%list in
      let '(evs, displayed') :=
        logNewlyCreatedResources r (displayedResources display)
          displayedResources_ (runningDeployments b) in
      ({| deploymentStarted := deploymentStarted display;
          displayedResources := displayed' |}, evs, None)
  end.

(** [ReportProgress]: the tracker after the call, what was shown, and
    the returned error ([None] is Go's [nil]). *)
Definition ReportProgress (r : Remote) (display : ProvisioningProgressDisplay)
    : ProvisioningProgressDisplay * list Event * option error :=
  if negb (deploymentStarted display) then
    match Deployment_Get r with
    | Err err =>
        (display, [LogPrintf ("error while reporting progress: " ++ err)], None)
    | Ok _ =>
        let display := {| deploymentStarted := true;
                          displayedResources := displayedResources display |} in
        match Deployment_DeploymentUrl r with
        | Err err => (display, [], Some err)
        | Ok deploymentUrl =>
            let announce :=
              [EnsureBlankLine;
               MessageUxItem (MultilineMessage (announcementLines r deploymentUrl))] in
            let '(display', evs, ret) := reportOperations r display in
            (display', (announce ++ evs)%list, ret)
        end
    end
  else reportOperations r display.

(** *** What one call, and a run of calls, leaves to observe *)

Local Open Scope list_scope.

(** The resource has a display name, so a row is shown for it. *)
Definition hasDisplayName (r : Remote) (op : DeploymentOperation) : bool :=
  negb (String.eqb (resolveTypeDisplayName r op) "").

(** The operation is one for which a call on a tracker with this set shows
    a row: it passes the two guards of the loop, it has succeeded or
    failed, and its type has a display name. *)
Definition newlyShown (r : Remote) (displayed : gmap string bool)
    (op : DeploymentOperation) : bool :=
  (newIn displayed ProvisioningStateSucceeded op
   || newIn displayed ProvisioningStateFailed op)
  && hasDisplayName r op.

(** The row and the log line of one resource. *)
Definition resourceEvents (r : Remote) (op : DeploymentOperation) : list Event :=
  fst (logResource r ∅ op).

Definition stateAfter (r : Remote) (display : ProvisioningProgressDisplay) :=
  fst (fst (ReportProgress r display)).
Definition eventsOf (r : Remote) (display : ProvisioningProgressDisplay) :=
  snd (fst (ReportProgress r display)).
Definition returned (r : Remote) (display : ProvisioningProgressDisplay) :=
  snd (ReportProgress r display).

(** The call gets as far as the query for the operations. *)
Definition reachesQuery (r : Remote) (display : ProvisioningProgressDisplay) : bool :=
  if deploymentStarted display then true
  else match Deployment_Get r, Deployment_DeploymentUrl r with
       | Ok _, Ok _ => true
       | _, _ => false
       end.

(** The resources the call hands to [logNewlyCreatedResources]. *)
Definition processedBy (r : Remote) (displayed : gmap string bool)
    : list DeploymentOperation :=
  match GetDeploymentResourceOperations r with
  | Ok operations =>
      sort_Slice timestampBefore
        (List.filter (newIn displayed ProvisioningStateSucceeded) operations)
      ++ List.filter (newIn displayed ProvisioningStateFailed) operations
  | Err _ => []
  end.

Definition tickResources (r : Remote) (display : ProvisioningProgressDisplay)
    : list DeploymentOperation :=
  if reachesQuery r display then processedBy r (displayedResources display) else [].

(** The tracker after a run of calls, one per observed world. *)
Definition runTicks (worlds : list Remote) (display : ProvisioningProgressDisplay)
    : ProvisioningProgressDisplay :=
  fold_left (fun d r => stateAfter r d) worlds display.

(** *** More to observe: rows, log lines, spinner titles, announcements *)

(** The rows of resources among the events. *)
Definition uxRows (evs : list Event) : list UxItem :=
  flat_map (fun e => match e with
                     | MessageUxItem (DisplayedResource type name state duration) =>
                         [DisplayedResource type name state duration]
                     | _ => []
                     end) evs.

(** The lines written with [log.Printf]. *)
Definition logLines (evs : list Event) : list string :=
  flat_map (fun e => match e with LogPrintf line => [line] | _ => [] end) evs.

(** The titles handed to [ShowSpinner]. *)
Definition spinnerTitles (evs : list Event) : list string :=
  flat_map (fun e => match e with ShowSpinner title => [title] | _ => [] end) evs.

(** The multi-line messages shown. *)
Definition announcements (evs : list Event) : list (list string) :=
  flat_map (fun e => match e with
                     | MessageUxItem (MultilineMessage lines) => [lines]
                     | _ => []
                     end) evs.

Definition hasTarget (op : DeploymentOperation) : bool :=
  match Properties_TargetResource op with
  | Some _ => true
  | None => false
  end.

(** The row [logNewlyCreatedResources] builds for a resource that has a
    display name. *)
Definition rowOf (r : Remote) (op : DeploymentOperation) : UxItem :=
  DisplayedResource (resolveTypeDisplayName r op) (nameOf op)
    (Properties_ProvisioningState op)
    (TruncateMillisecond
       match convert_ParseDuration (Properties_Duration op) with
       | Ok d => d
       | Err _ => 0
       end).

(** The log line of a resource: its display name when there is one, its
    resource type otherwise. *)
Definition logLineOf (r : Remote) (op : DeploymentOperation) : string :=
  (formatLocal (Properties_Timestamp op) ++ " - "
   ++ Properties_ProvisioningState op ++ " "
   ++ (if hasDisplayName r op then resolveTypeDisplayName r op
       else ResourceType (targetOf op))
   ++ ": " ++ nameOf op)%string.

(** The display names of the new running operations of the query, in the
    order of the query, the empty ones left out. *)
Definition runningNames (r : Remote) (displayed : gmap string bool) : list string :=
  match GetDeploymentResourceOperations r with
  | Ok operations =>
      List.filter (fun name => negb (String.eqb name ""))
        (map (resolveTypeDisplayName r)
           (List.filter (newIn displayed ProvisioningStateRunning) operations))
  | Err _ => []
  end.

Definition spinnerTitle (names : list string) : string :=
  match names with
  | [] => "Creating/Updating resources"
  | _ => ("Creating/Updating resources (" ++ Join names ", " ++ ")")%string
  end.

(** What a run of calls shows, one call per observed world. *)
Fixpoint runEvents (worlds : list Remote) (display : ProvisioningProgressDisplay)
    : list Event :=
  match worlds with
  | [] => []
  | r :: rest => eventsOf r display ++ runEvents rest (stateAfter r display)
  end.

(** The announcement a call makes, if any. *)
Definition announcementOf (r : Remote) (display : ProvisioningProgressDisplay)
    : list (list string) :=
  if deploymentStarted display then []
  else match Deployment_Get r, Deployment_DeploymentUrl r with
       | Ok _, Ok deploymentUrl => [announcementLines r deploymentUrl]
       | _, _ => []
       end.

(** Two worlds that differ at most in the deployment handle and in the
    environment. *)
Definition sameProgress (r r' : Remote) : Prop :=
  GetDeploymentResourceOperations r = GetDeploymentResourceOperations r'
  /\ Deployment_SubscriptionId r = Deployment_SubscriptionId r'
  /\ IsSpinnerInteractive r = IsSpinnerInteractive r'
  /\ forall subscription id type,
       rm_GetResourceTypeDisplayName r subscription id type
       = rm_GetResourceTypeDisplayName r' subscription id type.

(** Every key of the set is recorded as [true]. *)
Definition onlyTrue (m : gmap string bool) : Prop :=
  forall key value, m !! key = Some value -> value = true.

(** A row as [logNewlyCreatedResources] may show it: its type is not
    empty and its duration is a whole number of milliseconds. *)
Definition wellFormedRow (item : UxItem) : Prop :=
  match item with
  | DisplayedResource type _ _ duration => type <> "" /\ Z.rem duration 1000000 = 0
  | MultilineMessage _ => False
  end.

(** What the part of a call after the announcement shows. *)
Definition reportEvents (r : Remote) (displayed : gmap string bool) : list Event :=
  match GetDeploymentResourceOperations r with
  | Ok _ =>
      flat_map (resourceEvents r) (processedBy r displayed)
      ++ spinner r (runningNames r displayed)
  | Err _ => []
  end.

End Tracker.

Local Open Scope list_scope.

(** ** Concrete worlds *)

(** A static translation table with two entries, a duration parser that
    knows one rendering, and a clock rendering, to run the tracker on
    concrete operations; links are not coloured. *)
Definition sampleTable (resourceType : string) : string :=
  if decide (resourceType = "Microsoft.Web/sites") then "App Service"
  else if decide (resourceType = "Microsoft.Web/serverFarms") then "App Service plan"
  else "".

Definition sampleParseDuration (s : string) : result Z :=
  if decide (s = "PT1.5S") then Ok 1500000000 else Err "invalid duration".

Definition sampleFormatLocal (t : Z) : string :=
  if decide (t = 1) then "2024-05-01 10:00:01"
  else if decide (t = 2) then "2024-05-01 10:00:02"
  else "2024-05-01 10:00:03".

Definition sampleExternals : Externals :=
  {| azapi_GetResourceTypeDisplayName := sampleTable;
     convert_ParseDuration := sampleParseDuration;
     formatLocal := sampleFormatLocal;
     linkOn := "";
     linkOff := "" |}.

Definition sampleOperation (name type state : string) (timestamp : Z)
    : DeploymentOperation :=
  {| Properties_TargetResource :=
       Some {| ID := "/subscriptions/s/" ++ type ++ "/" ++ name;
               ResourceName := name; ResourceType := type |};
     Properties_ProvisioningState := state;
     Properties_Timestamp := timestamp;
     Properties_Duration := "PT1.5S" |}.

(** A world in which the deployment answers, the dynamic lookup of display
    names fails, and the query returns the given operations. *)
Definition sampleWorld (operations : result (list DeploymentOperation)) : Remote :=
  {| Deployment_Get := Ok tt;
     Deployment_DeploymentUrl := Ok "https://portal.azure.com/d1";
     Deployment_SubscriptionId := "s";
     Getenv_AZD_DEMO_MODE := "";
     GetDeploymentResourceOperations := operations;
     rm_GetResourceTypeDisplayName := fun _ _ _ => Err "lookup failed";
     IsSpinnerInteractive := true |}.

Definition sampleTick {sorter : SliceSorter} :=
  ReportProgress (ext := sampleExternals).

(** A web site and its plan, both named [app], both done. *)
Definition siteAndPlan : list DeploymentOperation :=
  [ sampleOperation "app" "Microsoft.Web/serverFarms" "Succeeded" 1;
    sampleOperation "app" "Microsoft.Web/sites" "Succeeded" 2 ].

(** A web site that is done and a plan that failed. *)
Definition siteAndFailedPlan : list DeploymentOperation :=
  [ sampleOperation "web" "Microsoft.Web/sites" "Succeeded" 2;
    sampleOperation "plan" "Microsoft.Web/serverFarms" "Failed" 1 ].

Definition sampleEvents {sorter : SliceSorter} :=
  eventsOf (ext := sampleExternals).
Definition sampleStateAfter {sorter : SliceSorter} :=
  stateAfter (ext := sampleExternals).

(** Two resources that succeeded at the same instant. *)
Definition sameInstant : list DeploymentOperation :=
  [ sampleOperation "plan" "Microsoft.Web/serverFarms" "Succeeded" 1;
    sampleOperation "web" "Microsoft.Web/sites" "Succeeded" 1 ].

(** A web site that succeeded at the given instant. *)
Definition succeededSite (name : string) (timestamp : Z) : DeploymentOperation :=
  sampleOperation name "Microsoft.Web/sites" "Succeeded" timestamp.

(** Thirteen web sites that succeeded: the last one of the query at
    instant 1, the twelve before it at instant 2. *)
Definition thirteenSites : list DeploymentOperation :=
  [ succeededSite "site00" 2; succeededSite "site01" 2; succeededSite "site02" 2;
    succeededSite "site03" 2; succeededSite "site04" 2; succeededSite "site05" 2;
    succeededSite "site06" 2; succeededSite "site07" 2; succeededSite "site08" 2;
    succeededSite "site09" 2; succeededSite "site10" 2; succeededSite "site11" 2;
    succeededSite "site12" 1 ].

(** A tracker that has announced the deployment already. *)
Definition startedDisplay : ProvisioningProgressDisplay :=
  {| deploymentStarted := true; displayedResources := ∅ |}.

(** The sample world with [AZD_DEMO_MODE] set. *)
Definition sampleDemoWorld (value : string) : Remote :=
  {| Deployment_Get := Ok tt;
     Deployment_DeploymentUrl := Ok "https://portal.azure.com/d1";
     Deployment_SubscriptionId := "s";
     Getenv_AZD_DEMO_MODE := value;
     GetDeploymentResourceOperations := Ok [];
     rm_GetResourceTypeDisplayName := fun _ _ _ => Err "lookup failed";
     IsSpinnerInteractive := false |}.

(** A world in which the deployment answers but has no portal link. *)
Definition sampleNoUrlWorld : Remote :=
  {| Deployment_Get := Ok tt;
     Deployment_DeploymentUrl := Err "no portal link";
     Deployment_SubscriptionId := "s";
     Getenv_AZD_DEMO_MODE := "";
     GetDeploymentResourceOperations := Ok siteAndFailedPlan;
     rm_GetResourceTypeDisplayName := fun _ _ _ => Err "lookup failed";
     IsSpinnerInteractive := true |}.

(** A world in which the deployment answers but has no portal link, and
    demo mode is on. *)
Definition sampleNoUrlDemoWorld : Remote :=
  {| Deployment_Get := Ok tt;
     Deployment_DeploymentUrl := Err "no portal link";
     Deployment_SubscriptionId := "s";
     Getenv_AZD_DEMO_MODE := "1";
     GetDeploymentResourceOperations := Ok [];
     rm_GetResourceTypeDisplayName := fun _ _ _ => Err "lookup failed";
     IsSpinnerInteractive := false |}.

(** The sample world, with a deployment that does not answer and demo
    mode on. *)
Definition sampleUnreachableWorld (operations : list DeploymentOperation) : Remote :=
  {| Deployment_Get := Err "deployment not found";
     Deployment_DeploymentUrl := Err "no portal link";
     Deployment_SubscriptionId := "s";
     Getenv_AZD_DEMO_MODE := "1";
     GetDeploymentResourceOperations := Ok operations;
     rm_GetResourceTypeDisplayName := fun _ _ _ => Err "lookup failed";
     IsSpinnerInteractive := true |}.

(** An operation without a target resource, as a nested deployment has it. *)
Definition sampleNestedDeployment : DeploymentOperation :=
  {| Properties_TargetResource := None;
     Properties_ProvisioningState := "Succeeded";
     Properties_Timestamp := 1;
     Properties_Duration := "PT1.5S" |}.

(** ** The parameter prompter *)

Module Prompter.

(** A JSON value, as found in [allowedValues] and in the [azd] metadata,
    and as returned by the prompter.  Numbers are integers here. *)
Inductive Json :=
| JNull
| JBool (b : bool)
| JNumber (n : Z)
| JString (s : string)
| JArray (items : list Json)
| JObject (fields : list (string * Json)).

Fixpoint Json_eqb (a b : Json) {struct a} : bool :=
  match a, b with
  | JNull, JNull => true
  | JBool x, JBool y => Bool.eqb x y
  | JNumber x, JNumber y => x =? y
  | JString x, JString y => String.eqb x y
  | JArray xs, JArray ys =>
      (fix items (xs ys : list Json) : bool :=
         match xs, ys with
         | [], [] => true
         | x :: xs', y :: ys' => Json_eqb x y && items xs' ys'
         | _, _ => false
         end) xs ys
  | JObject xs, JObject ys =>
      (fix fields (xs ys : list (string * Json)) : bool :=
         match xs, ys with
         | [], [] => true
         | (k, x) :: xs', (k', y) :: ys' =>
             String.eqb k k' && Json_eqb x y && fields xs' ys'
         | _, _ => false
         end) xs ys
  | _, _ => false
  end.

(** The [type] of a parameter, as in the test cases: ["string"],
    ["secureString"], ["int"], ["bool"], ["array"], ["object"],
    ["secureObject"]. *)
Inductive ParameterType :=
| ParamString | ParamSecureString | ParamInt | ParamBool
| ParamArray | ParamObject | ParamSecureObject.

(** The [azd] entry of [Metadata]. *)
Record AzdMetadata := {
  azd_default : option Json;
  azd_type : option string
}.

(** [azure.ArmTemplateParameterDefinition], the fields set by the tests. *)
Record ArmTemplateParameterDefinition := {
  Type_ : ParameterType;
  AllowedValues : option (list Json);
  MinValue : option Z;
  MaxValue : option Z;
  MinLength : option Z;
  MaxLength : option Z;
  Metadata_azd : option AzdMetadata
}.

(** The mock console of the tests: the answers it will give to [Prompt]
    and to [Select], in order. *)
Record Console := {
  promptAnswers : list string;
  selectAnswers : list nat
}.

(** What the prompter does on the console. *)
Inductive Interaction :=
| Prompted (message : string) (defaultValue : option Json)
| Selected (message : string) (choices : list Json) (defaultValue : option Json)
| Message (text : string).

(** The lines of [Console.Output()]. *)
Definition Output (trace : list Interaction) : list string :=
  flat_map (fun i => match i with Message text => [text] | _ => [] end) trace.

(** How many times the console asked for input. *)
Definition interactions (trace : list Interaction) : nat :=
  length (List.filter (fun i => match i with Message _ => false | _ => true end) trace).

(** Some line of the output contains the text, as the tests check it. *)
Definition outputContains (trace : list Interaction) (msg : string) : bool :=
  existsb (fun line => Contains line msg) (Output trace).

(** Decimal rendering of an integer, [%d]. *)
Definition formatInt (n : Z) : string :=
  DecimalString.NilZero.string_of_int (Z.to_int n).

Definition digitValue (c : ascii) : option Z :=
  let n := Z.of_nat (nat_of_ascii c) in
  if (48 <=? n) && (n <=? 57) then Some (n - 48) else None.

Fixpoint parseDigits (s : string) (acc : Z) : option Z :=
  match s with
  | EmptyString => Some acc
  | String c rest =>
      match digitValue c with
      | Some d => parseDigits rest (10 * acc + d)
      | None => None
      end
  end.

(** Parsing of a signed integer, [strconv.Atoi]: an optional sign, then
    one digit at least, the value within 64 bits. *)
Definition parseInt (s : string) : option Z :=
  let unsigned (digits : string) : option Z :=
    match digits with
    | EmptyString => None
    | _ => parseDigits digits 0
    end in
  let value :=
    match s with
    | String c rest =>
        if Ascii.eqb c "-" then option_map Z.opp (unsigned rest)
        else if Ascii.eqb c "+" then unsigned rest
        else unsigned s
    | EmptyString => None
    end in
  match value with
  | Some v => if (- 2 ^ 63 <=? v) && (v <? 2 ^ 63) then Some v else None
  | None => None
  end.

Definition toLower (c : ascii) : ascii :=
  let n := nat_of_ascii c in
  if (65 <=? n)%nat && (n <=? 90)%nat then ascii_of_nat (n + 32) else c.

Fixpoint ToLower (s : string) : string :=
  match s with
  | EmptyString => EmptyString
  | String c rest => String (toLower c) (ToLower rest)
  end.

Definition memberOf (v : Json) (values : list Json) : bool :=
  existsb (Json_eqb v) values.

(** Modelled from the spec: the default value resolution of section 4.2.1
    ([prompt.go] is not among the files at hand).  The natural type of
    [metadata.azd.default] must match the type of the parameter; for
    [bool] a string that reads [true] or [false] in any case is accepted
    as well; for [int] only a number is. *)
Definition defaultOfType (t : ParameterType) (v : Json) : option Json :=
  match t, v with
  | ParamBool, JBool b => Some (JBool b)
  | ParamBool, JString s =>
      if String.eqb (ToLower s) "true" then Some (JBool true)
      else if String.eqb (ToLower s) "false" then Some (JBool false)
      else None
  | ParamInt, JNumber n => Some (JNumber n)
  | ParamString, JString s => Some (JString s)
  | ParamSecureString, JString s => Some (JString s)
  | ParamArray, JArray items => Some (JArray items)
  | ParamObject, JObject fields => Some (JObject fields)
  | ParamSecureObject, JObject fields => Some (JObject fields)
  | _, _ => None
  end.

(** Modelled from the spec: the effective default of section 4.2.1, which
    must be one of the allowed values when there are any. *)
Definition resolveDefault (definition : ArmTemplateParameterDefinition)
    : result (option Json) :=
  match Metadata_azd definition with
  | Some {| azd_default := Some v |} =>
      match defaultOfType (Type_ definition) v with
      | None => Err "the default value in the metadata does not match the parameter type"
      | Some d =>
          match AllowedValues definition with
          | Some (a :: values) =>
              if memberOf d (a :: values) then Ok (Some d)
              else Err "the default value in the metadata is not an allowed value"
          | _ => Ok (Some d)
          end
      end
  | _ => Ok None
  end.

(** How a free text answer is turned into a value. *)
Inductive TextKind := AsString | AsInt | AsArray | AsObject.

(** Modelled from the spec: the prompt styles of section 4.2.2. *)
Inductive Style :=
| SelectFrom (choices : list Json)
| SelectBool
| FreeText (kind : TextKind).

(** Modelled from the spec: the definition asks for the region picker,
    [metadata.azd.type] being ["location"] (section 4.2.2). *)
Definition isLocation (definition : ArmTemplateParameterDefinition) : bool :=
  match Metadata_azd definition with
  | Some {| azd_type := Some t |} => String.eqb t "location"
  | _ => false
  end.

(** Modelled from the spec: the natural type of the parameter is a string.
    The region picker returns the name of a region, and the value
    returned for a parameter has the natural type of the parameter
    (invariant P1), so the picker is for these parameters. *)
Definition hasStringType (definition : ArmTemplateParameterDefinition) : bool :=
  match Type_ definition with
  | ParamString | ParamSecureString => true
  | _ => false
  end.

Section Prompting.

(** [json.Unmarshal] of the Go library, and the regions of the
    subscription as the location prompter offers them. *)
Variable json_Unmarshal : string -> option Json.
Variable Locations : list string.

(** Modelled from the spec: which style a definition gets (section 4.2.2).
    A location parameter of a string type offers the regions, filtered by
    the allowed values when there are any; allowed values are offered
    as they are; a bool is chosen between [False] and [True]; everything
    else is asked for as free text. *)
Definition promptStyle (definition : ArmTemplateParameterDefinition) : Style :=
  if isLocation definition && hasStringType definition then
    SelectFrom
      (List.filter
         (fun region => match AllowedValues definition with
                        | Some values => memberOf region values
                        | None => true
                        end)
         (map JString Locations))
  else
    match AllowedValues definition with
    | Some (a :: values) => SelectFrom (a :: values)
    | _ =>
        match Type_ definition with
        | ParamBool => SelectBool
        | ParamInt => FreeText AsInt
        | ParamArray => FreeText AsArray
        | ParamObject | ParamSecureObject => FreeText AsObject
        | ParamString | ParamSecureString => FreeText AsString
        end
    end.

(** Modelled from the spec: coercion and validation of one answer, the
    table of section 4.2.3.  The result is the value, or the message for
    the operator; the message is modelled by the part of it the spec
    fixes. *)
Definition validate (definition : ArmTemplateParameterDefinition) (kind : TextKind)
    (answer : string) : Json + string :=
  let bounded (lo hi : option Z) (n : Z) (v : Json) : Json + string :=
    match lo with
    | Some m => if n <? m then inr ("at least '" ++ formatInt m ++ "'")%string
                else match hi with
                     | Some M => if M <? n
                                 then inr ("at most '" ++ formatInt M ++ "'")%string
                                 else inl v
                     | None => inl v
                     end
    | None => match hi with
              | Some M => if M <? n
                          then inr ("at most '" ++ formatInt M ++ "'")%string
                          else inl v
              | None => inl v
              end
    end in
  let allowed (v : Json) : Json + string :=
    match AllowedValues definition with
    | Some values => if memberOf v values then inl v
                     else inr "the value is not one of the allowed values"
    | None => inl v
    end in
  let checked (r : Json + string) : Json + string :=
    match r with
    | inl v => allowed v
    | inr message => inr message
    end in
  match kind with
  | AsString =>
      checked (bounded (MinLength definition) (MaxLength definition)
                 (Z.of_nat (String.length answer)) (JString answer))
  | AsInt =>
      match parseInt answer with
      | Some n =>
          checked (bounded (MinValue definition) (MaxValue definition) n (JNumber n))
      | None => inr ("failed to convert '" ++ answer ++ "' to an integer")%string
      end
  | AsArray =>
      match json_Unmarshal answer with
      | Some (JArray items) => allowed (JArray items)
      | _ => inr "failed to parse value as a JSON array"
      end
  | AsObject =>
      match json_Unmarshal answer with
      | Some (JObject fields) => allowed (JObject fields)
      | _ => inr "failed to parse value as a JSON object"
      end
  end.

(** The message of every prompt; the tests match on its second half. *)
Definition promptMessage (name : string) : string :=
  ("Enter a value for the '" ++ name ++ "' infrastructure parameter:")%string.

(** Modelled from the spec: the retry loop of section 4.2.3.  Every round
    asks once; an answer that fails validation is followed by its message
    and the next round.  When the console has no answer left its error is
    passed on. *)
Fixpoint promptLoop (definition : ArmTemplateParameterDefinition) (kind : TextKind)
    (message : string) (default : option Json) (answers : list string)
    : result Json * list Interaction * list string :=
  match answers with
  | [] => (Err "console: no answer", [Prompted message default], [])
  | answer :: rest =>
      match validate definition kind answer with
      | inl value => (Ok value, [Prompted message default], rest)
      | inr text =>
          let '(res, trace, rest') :=
            promptLoop definition kind message default rest in
          (res, Prompted message default :: Message text :: trace, rest')
      end
  end.

(** Modelled from the spec: one [Select] of section 4.1; the value is the
    choice at the index answered. *)
Definition selectOne (message : string) (choices : list Json) (default : option Json)
    (pick : Json -> Json) (console : Console)
    : result Json * list Interaction * Console :=
  match selectAnswers console with
  | [] => (Err "console: no answer", [Selected message choices default], console)
  | index :: rest =>
      let console' := {| promptAnswers := promptAnswers console;
                         selectAnswers := rest |} in
      match nth_error choices index with
      | Some choice => (Ok (pick choice), [Selected message choices default], console')
      | None => (Err "console: no such choice", [Selected message choices default],
                 console')
      end
  end.

(** Modelled from the spec: [PromptForParameter] of section 4.2
    ([prompt.go] is not among the files at hand; its tests are).  The
    result is the value or the error, what happened on the console, and
    the console afterwards. *)
Definition PromptForParameter (name : string)
    (definition : ArmTemplateParameterDefinition) (console : Console)
    : result Json * list Interaction * Console :=
  match AllowedValues definition with
  | Some [] => (Err "the parameter has no allowed values", [], console)
  | _ =>
      match resolveDefault definition with
      | Err e => (Err e, [], console)
      | Ok default =>
          let message := promptMessage name in
          match promptStyle definition with
          | SelectFrom choices =>
              selectOne message choices default (fun choice => choice) console
          | SelectBool =>
              selectOne message [JString "False"; JString "True"]
                (match default with
                 | Some (JBool true) => Some (JString "True")
                 | Some (JBool false) => Some (JString "False")
                 | _ => None
                 end)
                (fun choice => JBool (Json_eqb choice (JString "True"))) console
          | FreeText kind =>
              let '(res, trace, rest) :=
                promptLoop definition kind message default (promptAnswers console) in
              (res, trace, {| promptAnswers := rest;
                              selectAnswers := selectAnswers console |})
          end
      end
  end.

End Prompting.

(** A definition with the type only, as the tests build it. *)
Definition ofType (t : ParameterType) : ArmTemplateParameterDefinition :=
  {| Type_ := t; AllowedValues := None; MinValue := None; MaxValue := None;
     MinLength := None; MaxLength := None; Metadata_azd := None |}.

(** The console of [TestPromptForParameterValidation]. *)
Definition answering (answers : list string) : Console :=
  {| promptAnswers := answers; selectAnswers := [] |}.

(** The [rangeValue] case of the tests. *)
Definition rangeValue : ArmTemplateParameterDefinition :=
  {| Type_ := ParamInt; AllowedValues := None;
     MinValue := Some 1; MaxValue := Some 10;
     MinLength := None; MaxLength := None; Metadata_azd := None |}.

(** An [int] parameter with the given default in its metadata. *)
Definition intWithDefault (v : Json) : ArmTemplateParameterDefinition :=
  {| Type_ := ParamInt; AllowedValues := None;
     MinValue := None; MaxValue := None;
     MinLength := None; MaxLength := None;
     Metadata_azd := Some {| azd_default := Some v; azd_type := None |} |}.

(** A JSON reader that knows the two smallest documents. *)
Definition sampleUnmarshal (s : string) : option Json :=
  if String.eqb s "[]" then Some (JArray [])
  else if String.eqb s "{}" then Some (JObject [])
  else None.

Definition samplePrompt :=
  PromptForParameter sampleUnmarshal ["eastus"; "eastus2"; "westus"].

(** The answers to [rangeValue] that are out of range. *)
Definition outOfRange (answer : string) : Prop :=
  exists n, parseInt answer = Some n /\ (n < 1 \/ 10 < n).

(** The definition of [TestPromptForParameterEmptyAllowedValuesError]. *)
Definition emptyAllowedValues : ArmTemplateParameterDefinition :=
  {| Type_ := ParamString; AllowedValues := Some [];
     MinValue := None; MaxValue := None;
     MinLength := None; MaxLength := None; Metadata_azd := None |}.

(** The value has the type its kind of free text gives, and keeps the
    bounds of the definition. *)
Definition withinBounds (definition : ArmTemplateParameterDefinition)
    (kind : TextKind) (v : Json) : Prop :=
  match kind, v with
  | AsInt, JNumber n =>
      (forall lo, MinValue definition = Some lo -> lo <= n)
      /\ (forall hi, MaxValue definition = Some hi -> n <= hi)
  | AsString, JString s =>
      (forall lo, MinLength definition = Some lo -> lo <= Z.of_nat (String.length s))
      /\ (forall hi, MaxLength definition = Some hi -> Z.of_nat (String.length s) <= hi)
  | AsArray, JArray _ => True
  | AsObject, JObject _ => True
  | _, _ => False
  end.

(** The three regions of [TestPromptForParametersLocation]. *)
Definition sampleLocations : list string := ["eastus"; "eastus2"; "westus"].

(** A location parameter, with or without allowed values. *)
Definition locationParameter (allowed : option (list Json))
    : ArmTemplateParameterDefinition :=
  {| Type_ := ParamString; AllowedValues := allowed;
     MinValue := None; MaxValue := None;
     MinLength := None; MaxLength := None;
     Metadata_azd := Some {| azd_default := None; azd_type := Some "location" |} |}.

(** A console that answers the next [Select] with the index. *)
Definition selecting (index : nat) : Console :=
  {| promptAnswers := []; selectAnswers := [index] |}.

(** The definition of [TestPromptForParameterOverrideDefault], with the
    default as a parameter. *)
Definition threeChoices (default : string) : ArmTemplateParameterDefinition :=
  {| Type_ := ParamString;
     AllowedValues := Some [JString "three"; JString "good"; JString "choices"];
     MinValue := None; MaxValue := None;
     MinLength := None; MaxLength := None;
     Metadata_azd := Some {| azd_default := Some (JString default);
                             azd_type := None |} |}.

(** A [bool] parameter with the given default in its metadata. *)
Definition boolWithDefault (v : Json) : ArmTemplateParameterDefinition :=
  {| Type_ := ParamBool; AllowedValues := None;
     MinValue := None; MaxValue := None;
     MinLength := None; MaxLength := None;
     Metadata_azd := Some {| azd_default := Some v; azd_type := None |} |}.

End Prompter.

(** * Properties *)

(** ** Insertion sort meets the contract of [sort.Slice] *)

Section InsertionSort.
Context {A : Type} (less : A -> A -> bool).

Lemma siftLeft_perm x revPrefix :
  Permutation (x :: revPrefix) (siftLeft less x revPrefix).
Proof.
  induction revPrefix as [|y r IH]; simpl; [reflexivity|].
  destruct (less x y); [|reflexivity].
  rewrite perm_swap. now apply perm_skip.
Qed.

Lemma fold_siftLeft_perm data acc :
  Permutation (acc ++ data)
    (fold_left (fun revPrefix x => siftLeft less x revPrefix) data acc).
Proof.
  revert acc. induction data as [|x d IH]; intros acc; simpl.
  - now rewrite app_nil_r.
  - rewrite <- IH. rewrite <- siftLeft_perm.
    symmetry. apply Permutation_middle.
Qed.

Lemma insertionSort_perm data : Permutation data (insertionSort less data).
Proof.
  unfold insertionSort. rewrite <- Permutation_rev.
  exact (fold_siftLeft_perm data []).
Qed.

Hypothesis Hless : StrictWeak less.

Lemma less_asym a b : less a b = true -> less b a = false.
Proof.
  intros Hab. destruct (less b a) eqn:Hba; [|reflexivity].
  pose proof (less_trans _ Hless _ _ _ Hab Hba) as Haa.
  rewrite (less_irrefl _ Hless) in Haa. discriminate.
Qed.

Lemma siftLeft_sorted x revPrefix :
  StronglySorted (fun a b => less a b = false) revPrefix ->
  StronglySorted (fun a b => less a b = false) (siftLeft less x revPrefix).
Proof.
  induction 1 as [|y r Hr IH Hy]; simpl.
  - repeat constructor.
  - destruct (less x y) eqn:Hxy.
    + constructor; [exact IH|].
      rewrite <- (siftLeft_perm x r). constructor; [|exact Hy].
      now apply less_asym.
    + constructor; [now constructor|].
      constructor; [exact Hxy|].
      eapply Forall_impl; [exact Hy|].
      intros z Hyz. exact (less_incomp _ Hless _ _ _ Hxy Hyz).
Qed.

Lemma fold_siftLeft_sorted data acc :
  StronglySorted (fun a b => less a b = false) acc ->
  StronglySorted (fun a b => less a b = false)
    (fold_left (fun revPrefix x => siftLeft less x revPrefix) data acc).
Proof.
  revert acc. induction data as [|x d IH]; intros acc Hacc; simpl; [exact Hacc|].
  apply IH. now apply siftLeft_sorted.
Qed.

Lemma StronglySorted_rev_flip (R : A -> A -> Prop) l :
  StronglySorted R l -> StronglySorted (fun a b => R b a) (rev l).
Proof.
  induction 1 as [|y r Hr IH Hy]; simpl; [constructor|].
  apply StronglySorted_app_2; [|exact IH|repeat constructor].
  intros x1 x2 H1 H2. apply list_elem_of_In in H1. apply in_rev in H1.
  apply list_elem_of_In in H2. destruct H2 as [<-|[]].
  rewrite Forall_forall in Hy. apply Hy. now apply list_elem_of_In.
Qed.

Lemma insertionSort_sorted data :
  StronglySorted (fun a b => less b a = false) (insertionSort less data).
Proof.
  unfold insertionSort.
  apply (StronglySorted_rev_flip (fun a b => less a b = false)).
  apply fold_siftLeft_sorted. constructor.
Qed.

End InsertionSort.

(** ** Insertion sort keeps ties in order *)

Lemma precedes_skip {X} (a b x : X) l : precedes a b l -> precedes a b (x :: l).
Proof. intros (l1 & l2 & l3 & ->). now exists (x :: l1), l2, l3. Qed.

Lemma precedes_head {X} (a b : X) l : In b l -> precedes a b (a :: l).
Proof. intros H. apply in_split in H as (l2 & l3 & ->). now exists [], l2, l3. Qed.

Lemma precedes_inv {X} (a b x : X) l :
  precedes a b (x :: l) -> (x = a /\ In b l) \/ precedes a b l.
Proof.
  intros (l1 & l2 & l3 & E). destruct l1 as [|y l1]; simpl in E.
  - injection E as -> ->. left. split; [reflexivity|].
    apply in_or_app. right. now left.
  - injection E as -> ->. right. now exists l1, l2, l3.
Qed.

Lemma precedes_rev {X} (a b : X) l : precedes a b l -> precedes b a (rev l).
Proof.
  intros (l1 & l2 & l3 & ->). exists (rev l3), (rev l2), (rev l1).
  rewrite rev_app_distr. simpl. rewrite rev_app_distr. simpl.
  now rewrite <- !app_assoc.
Qed.

Lemma precedes_app_l {X} (a b : X) l l' : precedes a b l -> precedes a b (l ++ l').
Proof.
  intros (l1 & l2 & l3 & ->). exists l1, l2, (l3 ++ l').
  rewrite <- !app_assoc. simpl. now rewrite <- !app_assoc.
Qed.

Lemma precedes_map {X Y} (f : X -> Y) (a b : X) l :
  precedes a b l -> precedes (f a) (f b) (map f l).
Proof.
  intros (l1 & l2 & l3 & ->). exists (map f l1), (map f l2), (map f l3).
  rewrite map_app. simpl. now rewrite map_app.
Qed.

Lemma precedes_filter {X} (f : X -> bool) (a b : X) l :
  f a = true -> f b = true -> precedes a b l -> precedes a b (List.filter f l).
Proof.
  intros Ha Hb (l1 & l2 & l3 & ->).
  exists (List.filter f l1), (List.filter f l2), (List.filter f l3).
  rewrite List.filter_app. simpl. rewrite Ha, List.filter_app. simpl. now rewrite Hb.
Qed.

(** In a list without repetitions two elements occur in one order only. *)
Lemma precedes_asym {X} (a b : X) l :
  NoDup l -> precedes a b l -> ~ precedes b a l.
Proof.
  intros Hnd (l1 & l2 & l3 & E) (m1 & m2 & m3 & E').
  assert (l !! length l1 = Some a) as Ha.
  { rewrite E. now apply list_lookup_middle. }
  assert (l !! (length l1 + S (length l2))%nat = Some b) as Hb.
  { rewrite E. change (l1 ++ a :: l2 ++ b :: l3) with (l1 ++ (a :: l2) ++ b :: l3).
    rewrite app_assoc. apply list_lookup_middle.
    rewrite length_app. reflexivity. }
  assert (l !! length m1 = Some b) as Hb'.
  { rewrite E'. now apply list_lookup_middle. }
  assert (l !! (length m1 + S (length m2))%nat = Some a) as Ha'.
  { rewrite E'. change (m1 ++ b :: m2 ++ a :: m3) with (m1 ++ (b :: m2) ++ a :: m3).
    rewrite app_assoc. apply list_lookup_middle.
    rewrite length_app. reflexivity. }
  pose proof (NoDup_lookup _ _ _ _ Hnd Ha Ha').
  pose proof (NoDup_lookup _ _ _ _ Hnd Hb Hb'). lia.
Qed.

Section InsertionSortStable.
Context {A : Type} (less : A -> A -> bool).

Lemma siftLeft_keeps u v x revPrefix :
  precedes u v revPrefix -> precedes u v (siftLeft less x revPrefix).
Proof.
  induction revPrefix as [|y r IH]; simpl; intros H.
  - destruct H as ([|? ?] & ? & ? & ?); discriminate.
  - destruct (less x y); [|now apply precedes_skip].
    apply precedes_inv in H as [[-> Hv]|H].
    + apply precedes_head.
      eapply Permutation_in; [apply siftLeft_perm|]. now right.
    + apply precedes_skip. now apply IH.
Qed.

Lemma siftLeft_new x y revPrefix :
  In y revPrefix -> less x y = false -> precedes x y (siftLeft less x revPrefix).
Proof.
  induction revPrefix as [|z r IH]; simpl; intros Hin Hxy; [contradiction|].
  destruct (less x z) eqn:Hxz; [|now apply precedes_head].
  apply precedes_skip. apply IH; [|exact Hxy].
  destruct Hin as [->|Hin]; [congruence|exact Hin].
Qed.

Lemma fold_siftLeft_stable data :
  forall acc,
    (forall u v, precedes u v acc ->
       precedes u v (fold_left (fun revPrefix x => siftLeft less x revPrefix) data acc))
    /\ (forall x y, In y acc -> In x data -> less x y = false ->
          precedes x y (fold_left (fun revPrefix x => siftLeft less x revPrefix) data acc))
    /\ (forall a b, precedes a b data -> less b a = false ->
          precedes b a (fold_left (fun revPrefix x => siftLeft less x revPrefix) data acc)).
Proof.
  induction data as [|x data IH]; intros acc; simpl.
  - split; [trivial|]. split; [contradiction|].
    intros a b ([|? ?] & ? & ? & ?); discriminate.
  - destruct (IH (siftLeft less x acc)) as (IH1 & IH2 & IH3).
    split; [|split].
    + intros u v H. apply IH1. now apply siftLeft_keeps.
    + intros x' y Hy [<-|Hx'] Hless.
      * apply IH1. now apply siftLeft_new.
      * apply IH2; [|exact Hx'|exact Hless].
        eapply Permutation_in; [apply siftLeft_perm|]. now right.
    + intros a b H Hless. apply precedes_inv in H as [[-> Hb]|H].
      * apply IH2; [|exact Hb|exact Hless].
        eapply Permutation_in; [apply siftLeft_perm|]. now left.
      * now apply IH3.
Qed.

(** Two elements neither of which is [less] than the other keep their
    order. *)
Lemma insertionSort_stable data a b :
  precedes a b data -> less b a = false -> precedes a b (insertionSort less data).
Proof.
  intros H Hless. unfold insertionSort.
  apply precedes_rev. now apply (fold_siftLeft_stable data []).
Qed.

(** *** The insertion sort of the Go library is this insertion sort *)

Lemma siftLeft_length x revPrefix :
  length (siftLeft less x revPrefix) = S (length revPrefix).
Proof.
  induction revPrefix as [|y r IH]; simpl; [reflexivity|].
  destruct (less x y); simpl; [now rewrite IH|reflexivity].
Qed.

Lemma lookup_adjacent (l1 : list A) (y x : A) (rest : list A) :
  (l1 ++ y :: x :: rest) !! length l1 = Some y
  /\ (l1 ++ y :: x :: rest) !! S (length l1) = Some x.
Proof.
  split; [now apply list_lookup_middle|].
  rewrite lookup_app_r by lia.
  replace (S (length l1) - length l1)%nat with 1%nat by lia. reflexivity.
Qed.

Lemma data_Less_adjacent (l1 : list A) (y x : A) (rest : list A) :
  data_Less less (l1 ++ y :: x :: rest) (S (length l1)) (length l1) = less x y.
Proof.
  unfold data_Less. destruct (lookup_adjacent l1 y x rest) as [-> ->]. reflexivity.
Qed.

Lemma data_Swap_adjacent (l1 : list A) (y x : A) (rest : list A) :
  data_Swap (l1 ++ y :: x :: rest) (S (length l1)) (length l1)
  = l1 ++ x :: y :: rest.
Proof.
  unfold data_Swap. destruct (lookup_adjacent l1 y x rest) as [-> ->].
  rewrite (insert_app_r_alt l1 _ (S (length l1))) by lia.
  replace (S (length l1) - length l1)%nat with 1%nat by lia. simpl.
  rewrite (insert_app_r_alt l1 _ (length l1)) by lia.
  rewrite Nat.sub_diag. reflexivity.
Qed.

Lemma insertionSort_shift_siftLeft revPrefix x rest :
  insertionSort_shift less 0 (length revPrefix) (rev revPrefix ++ x :: rest)
  = rev (siftLeft less x revPrefix) ++ rest.
Proof.
  revert rest. induction revPrefix as [|y r IH]; intros rest; [reflexivity|].
  cbn [length insertionSort_shift rev siftLeft].
  rewrite <- app_assoc. cbn [app].
  replace (length r) with (length (rev r)) by apply length_rev.
  rewrite data_Less_adjacent, data_Swap_adjacent. rewrite length_rev.
  change (0 <? S (length r))%nat with true. cbn [andb].
  destruct (less x y).
  - rewrite IH. cbn [rev]. now rewrite <- app_assoc.
  - cbn [rev]. now rewrite <- !app_assoc.
Qed.

Lemma fold_insertionSort_shift rest :
  forall revPrefix,
    fold_left (fun data i => insertionSort_shift less 0 i data)
      (seq (length revPrefix) (length rest)) (rev revPrefix ++ rest)
    = rev (fold_left (fun revPrefix x => siftLeft less x revPrefix) rest revPrefix).
Proof.
  induction rest as [|x rest IH]; intros revPrefix; simpl.
  - apply app_nil_r.
  - rewrite insertionSort_shift_siftLeft.
    rewrite <- (siftLeft_length x revPrefix). apply IH.
Qed.

Lemma insertionSort_func_insertionSort data :
  insertionSort_func less data 0 (length data) = insertionSort less data.
Proof.
  unfold insertionSort_func, insertionSort. destruct data as [|x rest].
  - reflexivity.
  - cbn [length plus]. replace (S (length rest) - 1)%nat with (length rest) by lia.
    exact (fold_insertionSort_shift rest [x]).
Qed.

(** Up to [maxInsertion = 12] elements [sort.Slice] is the insertion
    sort. *)
Lemma Slice_short data :
  (length data <= 12)%nat -> Slice less data = insertionSort less data.
Proof.
  intros H. unfold Slice. cbn [pdqsort_func].
  rewrite Nat.sub_0_r.
  destruct (length data <=? 12)%nat eqn:E.
  - apply insertionSort_func_insertionSort.
  - apply Nat.leb_gt in E. lia.
Qed.

End InsertionSortStable.

(** Insertion sort meets the contract. *)
#[local] Instance insertionSorter_contract : SliceContract insertionSorter.
Proof.
  split.
  - intros A less x. apply insertionSort_perm.
  - intros A less x H. now apply insertionSort_sorted.
Qed.

Lemma timestampBefore_StrictWeak : StrictWeak timestampBefore.
Proof.
  unfold timestampBefore. split; intros.
  - apply Z.ltb_irrefl.
  - apply Z.ltb_lt. apply Z.ltb_lt in H, H0. lia.
  - apply Z.ltb_ge. apply Z.ltb_ge in H, H0. lia.
Qed.

(** ** The classification loop as three filters *)

Lemma classify_from displayed operations b :
  fold_left (classifyOne displayed) operations b =
  {| newlyDeployedResources :=
       newlyDeployedResources b
       ++ List.filter (newIn displayed ProvisioningStateSucceeded) operations;
     newlyFailedResources :=
       newlyFailedResources b
       ++ List.filter (newIn displayed ProvisioningStateFailed) operations;
     runningDeployments :=
       runningDeployments b
       ++ List.filter (newIn displayed ProvisioningStateRunning) operations |}.
Proof.
  revert b. induction operations as [|op ops IH]; intros b; simpl.
  - destruct b; simpl. now rewrite !app_nil_r.
  - rewrite IH. clear IH.
    unfold classifyOne, newIn, isNew, inState.
    destruct (Properties_TargetResource op) as [target|]; simpl;
      [|reflexivity].
    destruct (mapIndex displayed (ResourceName target)); simpl; [reflexivity|].
    unfold ProvisioningStateSucceeded, ProvisioningStateRunning,
      ProvisioningStateFailed.
    repeat case_decide; repeat case_bool_decide; simpl;
      try congruence; rewrite <- ?app_assoc; reflexivity.
Qed.

Lemma classify_filters displayed operations :
  classify displayed operations =
  {| newlyDeployedResources :=
       List.filter (newIn displayed ProvisioningStateSucceeded) operations;
     newlyFailedResources :=
       List.filter (newIn displayed ProvisioningStateFailed) operations;
     runningDeployments :=
       List.filter (newIn displayed ProvisioningStateRunning) operations |}.
Proof. unfold classify. now rewrite classify_from. Qed.

Lemma newIn_name displayed state op :
  newIn displayed state op = true ->
  exists target, Properties_TargetResource op = Some target
                 /\ mapIndex displayed (ResourceName target) = false
                 /\ Properties_ProvisioningState op = state.
Proof.
  unfold newIn, isNew, inState. intros H.
  apply andb_true_iff in H as [H1 H2].
  destruct (Properties_TargetResource op) as [target|]; [|discriminate].
  exists target. split; [reflexivity|]. split.
  - now apply negb_true_iff in H1.
  - now apply bool_decide_eq_true in H2.
Qed.

(** ** One call of the tracker *)

Section TrackerProperties.

Context {ext : Externals} {sorter : SliceSorter} {contract : SliceContract sorter}.

Lemma logOne_events r displayed op :
  fst (logResource r displayed op) = resourceEvents r op.
Proof.
  unfold resourceEvents, logResource.
  destruct (negb (String.eqb (resolveTypeDisplayName r op) "")); reflexivity.
Qed.

Lemma logOne_displayed r displayed op :
  snd (logResource r displayed op) = <[nameOf op := true]> displayed.
Proof.
  unfold logResource.
  destruct (negb (String.eqb (resolveTypeDisplayName r op) "")); reflexivity.
Qed.

Lemma logAll_events r displayed resources :
  fst (logResources r displayed resources) = flat_map (resourceEvents r) resources.
Proof.
  revert displayed. induction resources as [|op rest IH]; intros displayed;
    simpl; [reflexivity|].
  pose proof (logOne_events r displayed op) as He.
  destruct (logResource r displayed op) as [ev displayed'] eqn:E1.
  specialize (IH displayed').
  destruct (logResources r displayed' rest) as [evs displayed''] eqn:E2.
  simpl in *. now subst.
Qed.

Lemma logAll_displayed r displayed resources :
  snd (logResources r displayed resources) =
  fold_left (fun m op => <[nameOf op := true]> m) resources displayed.
Proof.
  revert displayed. induction resources as [|op rest IH]; intros displayed;
    simpl; [reflexivity|].
  pose proof (logOne_displayed r displayed op) as Hd.
  destruct (logResource r displayed op) as [ev displayed'] eqn:E1.
  specialize (IH displayed').
  destruct (logResources r displayed' rest) as [evs displayed''] eqn:E2.
  simpl in *. now subst.
Qed.

Lemma mapIndex_insert (m : gmap string bool) k n :
  mapIndex (<[k := true]> m) n = true <-> mapIndex m n = true \/ n = k.
Proof.
  unfold mapIndex. destruct (decide (k = n)) as [->|Hne].
  - rewrite lookup_insert_eq. simpl. tauto.
  - rewrite lookup_insert_ne by exact Hne. split; [tauto|].
    intros [H|H]; [exact H|congruence].
Qed.

Lemma fold_insert_index resources (m : gmap string bool) n :
  mapIndex (fold_left (fun m op => <[nameOf op := true]> m) resources m) n = true
  <-> mapIndex m n = true \/ In n (map nameOf resources).
Proof.
  revert m. induction resources as [|op rest IH]; intros m; simpl; [tauto|].
  rewrite IH, mapIndex_insert. intuition congruence.
Qed.

Lemma resourceEvents_names r op :
  uxResourceNames (resourceEvents r op) =
  if hasDisplayName r op then [nameOf op] else [].
Proof.
  unfold resourceEvents, logResource, hasDisplayName.
  destruct (negb (String.eqb (resolveTypeDisplayName r op) "")); reflexivity.
Qed.

Lemma uxResourceNames_app evs1 evs2 :
  uxResourceNames (evs1 ++ evs2) = uxResourceNames evs1 ++ uxResourceNames evs2.
Proof. unfold uxResourceNames. apply flat_map_app. Qed.

Lemma flat_map_resourceEvents_names r resources :
  uxResourceNames (flat_map (resourceEvents r) resources) =
  map nameOf (List.filter (hasDisplayName r) resources).
Proof.
  induction resources as [|op rest IH]; simpl; [reflexivity|].
  rewrite uxResourceNames_app, IH, resourceEvents_names.
  destruct (hasDisplayName r op); reflexivity.
Qed.

Lemma spinner_names r names : uxResourceNames (spinner r names) = [].
Proof.
  unfold spinner. destruct (negb (IsSpinnerInteractive r)); [reflexivity|].
  destruct (0 <? Z.of_nat (length names)); reflexivity.
Qed.

Lemma report_unfold r display :
  reportOperations r display =
  match GetDeploymentResourceOperations r with
  | Err err => (display, [], Some err)
  | Ok operations =>
      ({| deploymentStarted := deploymentStarted display;
          displayedResources :=
            fold_left (fun m op => <[nameOf op := true]> m)
              (processedBy r (displayedResources display))
              (displayedResources display) |},
       flat_map (resourceEvents r) (processedBy r (displayedResources display))
       ++ spinner r
            (inProgressNames r
               (List.filter (newIn (displayedResources display)
                               ProvisioningStateRunning) operations)),
       None)
  end.
Proof.
  unfold reportOperations, processedBy, logNewlyCreatedResources.
  destruct (GetDeploymentResourceOperations r) as [operations|err];
    [|reflexivity].
  rewrite classify_filters. simpl.
  match goal with
  | |- context [logResources r ?d ?l] =>
      pose proof (logAll_events r d l) as He;
      pose proof (logAll_displayed r d l) as Hd;
      destruct (logResources r d l) as [evs displayed']
  end.
  simpl in *. now subst.
Qed.

Lemma tick_unfold r display :
  ReportProgress r display =
  if deploymentStarted display then reportOperations r display
  else match Deployment_Get r with
       | Err err =>
           (display, [LogPrintf ("error while reporting progress: " ++ err)%string],
            None)
       | Ok _ =>
           let started := {| deploymentStarted := true;
                             displayedResources := displayedResources display |} in
           match Deployment_DeploymentUrl r with
           | Err err => (started, [], Some err)
           | Ok deploymentUrl =>
               (fst (fst (reportOperations r started)),
                [EnsureBlankLine;
                 MessageUxItem
                   (MultilineMessage
                      (announcementLines r deploymentUrl))]
                ++ snd (fst (reportOperations r started)),
                snd (reportOperations r started))
           end
       end.
Proof.
  unfold ReportProgress.
  destruct (deploymentStarted display); simpl; [reflexivity|].
  destruct (Deployment_Get r); [|reflexivity].
  destruct (Deployment_DeploymentUrl r); [|reflexivity].
  destruct (reportOperations r _) as [[d e] o]. reflexivity.
Qed.

Lemma processedBy_new r displayed op :
  In op (processedBy r displayed) -> isNew displayed op = true.
Proof.
  unfold processedBy.
  destruct (GetDeploymentResourceOperations r) as [operations|err]; [|intros []].
  intros H. apply in_app_or in H as [H|H].
  - eapply Permutation_in in H;
      [|symmetry; apply sort_Slice_perm].
    apply filter_In in H as [_ H]. unfold newIn in H.
    now apply andb_true_iff in H as [H _].
  - apply filter_In in H as [_ H]. unfold newIn in H.
    now apply andb_true_iff in H as [H _].
Qed.

Lemma isNew_index displayed op :
  isNew displayed op = true -> mapIndex displayed (nameOf op) = false.
Proof.
  unfold isNew, nameOf, targetOf.
  destruct (Properties_TargetResource op) as [target|]; [|discriminate].
  simpl. intros H. now apply negb_true_iff in H.
Qed.

Lemma tickResources_new r display op :
  In op (tickResources r display) -> isNew (displayedResources display) op = true.
Proof.
  unfold tickResources. destruct (reachesQuery r display); [|intros []].
  apply processedBy_new.
Qed.

Lemma eventsOf_names r display :
  uxResourceNames (eventsOf r display) =
  map nameOf (List.filter (hasDisplayName r) (tickResources r display)).
Proof.
  unfold eventsOf, tickResources, reachesQuery. rewrite tick_unfold.
  destruct (deploymentStarted display) eqn:Hs.
  - rewrite report_unfold. unfold processedBy.
    destruct (GetDeploymentResourceOperations r); [|reflexivity].
    simpl. rewrite uxResourceNames_app, spinner_names, app_nil_r.
    apply flat_map_resourceEvents_names.
  - destruct (Deployment_Get r); [|reflexivity].
    destruct (Deployment_DeploymentUrl r); [|reflexivity].
    cbv zeta. rewrite report_unfold. unfold processedBy. simpl.
    destruct (GetDeploymentResourceOperations r); [|reflexivity].
    simpl. rewrite uxResourceNames_app, spinner_names, app_nil_r.
    apply flat_map_resourceEvents_names.
Qed.

Lemma stateAfter_displayed r display :
  displayedResources (stateAfter r display) =
  fold_left (fun m op => <[nameOf op := true]> m) (tickResources r display)
    (displayedResources display).
Proof.
  unfold stateAfter, tickResources, reachesQuery. rewrite tick_unfold.
  destruct (deploymentStarted display) eqn:Hs.
  - rewrite report_unfold. unfold processedBy.
    destruct (GetDeploymentResourceOperations r); reflexivity.
  - destruct (Deployment_Get r); [|reflexivity].
    destruct (Deployment_DeploymentUrl r); [|reflexivity].
    cbv zeta. rewrite report_unfold. unfold processedBy. simpl.
    destruct (GetDeploymentResourceOperations r); reflexivity.
Qed.

Lemma stateAfter_index r display n :
  mapIndex (displayedResources (stateAfter r display)) n = true
  <-> mapIndex (displayedResources display) n = true
      \/ In n (map nameOf (tickResources r display)).
Proof. rewrite stateAfter_displayed. apply fold_insert_index. Qed.

(** ** Several calls on one tracker *)

Lemma runTicks_keeps worlds display n :
  mapIndex (displayedResources display) n = true ->
  mapIndex (displayedResources (runTicks worlds display)) n = true.
Proof.
  revert display. induction worlds as [|r rest IH]; intros display H; simpl;
    [exact H|].
  apply IH. apply stateAfter_index. now left.
Qed.

Lemma processed_then_displayed r worlds display n :
  In n (map nameOf (tickResources r display)) ->
  mapIndex (displayedResources (runTicks worlds (stateAfter r display))) n = true.
Proof.
  intros H. apply runTicks_keeps. apply stateAfter_index. now right.
Qed.

Lemma shown_then_processed r display n :
  In n (uxResourceNames (eventsOf r display)) ->
  In n (map nameOf (tickResources r display)).
Proof.
  rewrite eventsOf_names. intros H.
  apply in_map_iff in H as (op & <- & Hop).
  apply filter_In in Hop as [Hop _]. now apply in_map.
Qed.

Lemma displayed_never_processed r display n :
  mapIndex (displayedResources display) n = true ->
  ~ In n (map nameOf (tickResources r display)).
Proof.
  intros Hd H. apply in_map_iff in H as (op & <- & Hop).
  apply tickResources_new, isNew_index in Hop. congruence.
Qed.

Lemma displayed_never_classified displayed operations op :
  mapIndex displayed (nameOf op) = true ->
  let b := classify displayed operations in
  ~ In op (newlyDeployedResources b ++ newlyFailedResources b
           ++ runningDeployments b).
Proof.
  intros Hd b H. subst b. rewrite classify_filters in H. simpl in H.
  assert (newIn displayed ProvisioningStateSucceeded op = true
          \/ newIn displayed ProvisioningStateFailed op = true
          \/ newIn displayed ProvisioningStateRunning op = true) as Hn.
  { rewrite !in_app_iff, !filter_In in H. tauto. }
  assert (isNew displayed op = true) as Hnew.
  { unfold newIn in Hn. rewrite !andb_true_iff in Hn. tauto. }
  apply isNew_index in Hnew. congruence.
Qed.

Lemma tickResources_reached r display operations :
  reachesQuery r display = true ->
  GetDeploymentResourceOperations r = Ok operations ->
  tickResources r display =
  sort_Slice timestampBefore
    (List.filter (newIn (displayedResources display) ProvisioningStateSucceeded)
       operations)
  ++ List.filter (newIn (displayedResources display) ProvisioningStateFailed)
       operations.
Proof.
  intros Hreach Hq. unfold tickResources, processedBy. now rewrite Hreach, Hq.
Qed.

Lemma filter_Permutation {X} (f : X -> bool) l l' :
  Permutation l l' -> Permutation (List.filter f l) (List.filter f l').
Proof.
  induction 1 as [|x l l' _ IH|x y l|l l' l'' _ IH1 _ IH2]; simpl.
  - reflexivity.
  - destruct (f x); [now apply perm_skip|exact IH].
  - destruct (f x), (f y); try reflexivity. apply perm_swap.
  - now rewrite IH1.
Qed.

Lemma newIn_one_state displayed op :
  newIn displayed ProvisioningStateSucceeded op = true ->
  newIn displayed ProvisioningStateFailed op = false.
Proof.
  unfold newIn, inState. intros H. apply andb_true_iff in H as [_ H].
  apply bool_decide_eq_true in H. rewrite H.
  now rewrite andb_false_r.
Qed.

(** The resources a call shows a row for are, up to their order, the
    operations of the query that are newly shown. *)
Lemma shown_resources r displayed operations succeeded :
  Permutation
    (List.filter (newIn displayed ProvisioningStateSucceeded) operations) succeeded ->
  Permutation
    (List.filter (hasDisplayName r)
       (succeeded ++ List.filter (newIn displayed ProvisioningStateFailed) operations))
    (List.filter (newlyShown r displayed) operations).
Proof.
  intros Hperm.
  transitivity
    (List.filter (hasDisplayName r)
       (List.filter (newIn displayed ProvisioningStateSucceeded) operations
        ++ List.filter (newIn displayed ProvisioningStateFailed) operations)).
  { apply filter_Permutation, Permutation_app_tail. now symmetry. }
  clear Hperm succeeded. rewrite List.filter_app.
  induction operations as [|op ops IH]; simpl; [reflexivity|].
  assert (newlyShown r displayed op
          = (newIn displayed ProvisioningStateSucceeded op
             || newIn displayed ProvisioningStateFailed op)
            && hasDisplayName r op) as -> by reflexivity.
  destruct (newIn displayed ProvisioningStateSucceeded op) eqn:HS.
  - rewrite (newIn_one_state _ _ HS). simpl.
    destruct (hasDisplayName r op); simpl; [now apply perm_skip|exact IH].
  - destruct (newIn displayed ProvisioningStateFailed op); simpl; [|exact IH].
    destruct (hasDisplayName r op); simpl; [|exact IH].
    rewrite <- Permutation_middle. now apply perm_skip.
Qed.

Lemma rows_of_call r display operations :
  reachesQuery r display = true ->
  GetDeploymentResourceOperations r = Ok operations ->
  Permutation (uxResourceNames (eventsOf r display))
    (map nameOf (List.filter (newlyShown r (displayedResources display)) operations)).
Proof.
  intros Hreach Hq. rewrite eventsOf_names.
  rewrite (tickResources_reached r display operations Hreach Hq).
  apply Permutation_map. apply shown_resources. apply sort_Slice_perm.
Qed.

(** C1 (as amended).  Take two calls on one tracker, with any calls in
    between.  No resource name shown as a [DisplayedResource] by the
    earlier call is shown by the later call: a name processed by the
    earlier call is in [displayedResources] from then on, so in the later
    call every operation with that name is filtered out of all three
    buckets and no row is shown for it.  The set is read before any name
    of the call is inserted, so within one call a name is shown as often
    as the query has newly succeeded or failed operations with that name
    and a type display name.  Hence no name is shown more than once
    across the two calls exactly when none is within either call, that
    is, when those operations carry pairwise distinct names in each of
    the two queries. *)
Theorem C1_name_shown_at_most_once r1 worlds r2 display :
  let later := runTicks worlds (stateAfter r1 display) in
  let first := uxResourceNames (eventsOf r1 display) in
  let second := uxResourceNames (eventsOf r2 later) in
  (forall n, In n first -> ~ In n second)
  /\ (NoDup (first ++ second) <-> NoDup first /\ NoDup second)
  /\ (forall r d operations,
        reachesQuery r d = true ->
        GetDeploymentResourceOperations r = Ok operations ->
        Permutation (uxResourceNames (eventsOf r d))
          (map nameOf (List.filter (newlyShown r (displayedResources d)) operations))
        /\ (NoDup (uxResourceNames (eventsOf r d)) <->
            NoDup (map nameOf
                     (List.filter (newlyShown r (displayedResources d)) operations))))
  /\ (forall n, In n (map nameOf (tickResources r1 display)) ->
        mapIndex (displayedResources later) n = true
        /\ ~ In n second
        /\ forall operations op,
             nameOf op = n ->
             let b := classify (displayedResources later) operations in
             ~ In op (newlyDeployedResources b ++ newlyFailedResources b
                      ++ runningDeployments b)).
Proof.
  intros later first second.
  assert (forall n, In n (map nameOf (tickResources r1 display)) ->
                    mapIndex (displayedResources later) n = true
                    /\ ~ In n second) as Hcross.
  { intros n Hn. pose proof (processed_then_displayed r1 worlds display n Hn) as Hd.
    split; [exact Hd|]. intros Hin. apply shown_then_processed in Hin.
    exact (displayed_never_processed r2 later n Hd Hin). }
  assert (forall n, In n first -> ~ In n second) as Hdisjoint.
  { intros n Hn. apply shown_then_processed in Hn. now apply Hcross. }
  split; [exact Hdisjoint|]. split; [|split].
  - rewrite NoDup_app. split.
    + intros (H1 & _ & H2). now split.
    + intros [H1 H2]. split; [exact H1|]. split; [|exact H2].
      intros n Hn. rewrite list_elem_of_In in *. now apply Hdisjoint.
  - intros r d operations Hreach Hq.
    pose proof (rows_of_call r d operations Hreach Hq) as Hperm.
    split; [exact Hperm|]. now rewrite Hperm.
  - intros n Hn. destruct (Hcross n Hn) as [Hd Hno].
    split; [exact Hd|]. split; [exact Hno|].
    intros operations op <-. now apply displayed_never_classified.
Qed.

(** ** Order of the rows within one call *)

Lemma resourceEvents_about r op :
  List.filter aboutResource (resourceEvents r op) = resourceEvents r op.
Proof.
  unfold resourceEvents, logResource.
  destruct (negb (String.eqb (resolveTypeDisplayName r op) "")); reflexivity.
Qed.

Lemma flat_map_resourceEvents_about r resources :
  List.filter aboutResource (flat_map (resourceEvents r) resources) =
  flat_map (resourceEvents r) resources.
Proof.
  induction resources as [|op rest IH]; simpl; [reflexivity|].
  now rewrite List.filter_app, resourceEvents_about, IH.
Qed.

Lemma spinner_about r names : List.filter aboutResource (spinner r names) = [].
Proof.
  unfold spinner. destruct (negb (IsSpinnerInteractive r)); [reflexivity|].
  destruct (0 <? Z.of_nat (length names)); reflexivity.
Qed.

Lemma eventsOf_about r display :
  reachesQuery r display = true ->
  List.filter aboutResource (eventsOf r display) =
  flat_map (resourceEvents r) (tickResources r display).
Proof.
  unfold eventsOf, tickResources. intros Hreach. rewrite Hreach.
  unfold reachesQuery in Hreach. rewrite tick_unfold.
  destruct (deploymentStarted display) eqn:Hs.
  - rewrite report_unfold. unfold processedBy.
    destruct (GetDeploymentResourceOperations r); [|reflexivity].
    simpl. rewrite List.filter_app, spinner_about, app_nil_r.
    apply flat_map_resourceEvents_about.
  - destruct (Deployment_Get r); [|discriminate].
    destruct (Deployment_DeploymentUrl r); [|discriminate].
    cbv zeta. rewrite report_unfold. unfold processedBy. simpl.
    destruct (GetDeploymentResourceOperations r); [|reflexivity].
    simpl. rewrite List.filter_app, spinner_about, app_nil_r.
    apply flat_map_resourceEvents_about.
Qed.

Lemma StronglySorted_weaken {X} (R R' : X -> X -> Prop) l :
  (forall a b, R a b -> R' a b) -> StronglySorted R l -> StronglySorted R' l.
Proof.
  intros HR. induction 1 as [|x l Hl IH Hx]; constructor; [exact IH|].
  eapply Forall_impl; [exact Hx|]. intros b. apply HR.
Qed.

Lemma sorted_by_timestamp (l : list DeploymentOperation) :
  StronglySorted (fun a b => Properties_Timestamp a <= Properties_Timestamp b)
    (sort_Slice timestampBefore l).
Proof.
  eapply StronglySorted_weaken;
    [|apply sort_Slice_sorted, timestampBefore_StrictWeak].
  intros a b H. unfold timestampBefore in H. now apply Z.ltb_ge in H.
Qed.

(** C2.  In a call that reaches the query, the resources reported are,
    in this order, all newly succeeded resources in non-decreasing
    order of timestamp and then all newly failed resources in the order
    of the query; the rows and log lines of the call are those of these
    resources, in that order, a row being shown for every resource that
    has a display name. *)
Theorem C2_succeeded_by_timestamp_then_failed r display operations
    (Hreach : reachesQuery r display = true)
    (Hq : GetDeploymentResourceOperations r = Ok operations) :
  exists succeeded,
    let failed :=
      List.filter (newIn (displayedResources display) ProvisioningStateFailed)
        operations in
    Permutation
      (List.filter (newIn (displayedResources display) ProvisioningStateSucceeded)
         operations) succeeded
    /\ StronglySorted
         (fun a b => Properties_Timestamp a <= Properties_Timestamp b) succeeded
    /\ tickResources r display = succeeded ++ failed
    /\ List.filter aboutResource (eventsOf r display) =
       flat_map (resourceEvents r) (succeeded ++ failed)
    /\ uxResourceNames (eventsOf r display) =
       map nameOf (List.filter (hasDisplayName r) (succeeded ++ failed)).
Proof.
  eexists. cbv zeta.
  split; [apply sort_Slice_perm|].
  split; [apply sorted_by_timestamp|].
  pose proof (tickResources_reached r display operations Hreach Hq) as Ht.
  split; [exact Ht|].
  split.
  - rewrite <- Ht. now apply eventsOf_about.
  - rewrite <- Ht. apply eventsOf_names.
Qed.

Lemma sorted_precedes (l : list DeploymentOperation) a b :
  StronglySorted (fun a b => Properties_Timestamp a <= Properties_Timestamp b) l ->
  In a l -> In b l -> Properties_Timestamp a < Properties_Timestamp b ->
  precedes a b l.
Proof.
  intros Hs Ha Hb Hlt.
  apply in_split in Ha as (l1 & l2 & ->).
  apply in_app_or in Hb as [Hb|Hb].
  - exfalso. apply StronglySorted_app in Hs as (Hcross & _ & _).
    specialize (Hcross b a). cbv beta in Hcross.
    assert (Properties_Timestamp b <= Properties_Timestamp a); [|lia].
    apply Hcross; apply list_elem_of_In; [exact Hb|now left].
  - destruct Hb as [->|Hb]; [lia|].
    apply in_split in Hb as (l3 & l4 & ->).
    now exists l1, l3, l4.
Qed.

(** ** Failures of the remote calls *)

(** C4 (as amended).  When [Deployment.Get] fails before
    [deploymentStarted] is set, the call logs the failure, returns no
    error and leaves the tracker as it was, so the next call tries again.
    When the query for the operations fails, the call returns that error
    to its caller: nothing is logged, no resource is reported, and
    [displayedResources] is unchanged. *)
Theorem C4_get_failure_swallowed_query_failure_returned r display err :
  (deploymentStarted display = false ->
   Deployment_Get r = Err err ->
   ReportProgress r display =
     (display, [LogPrintf ("error while reporting progress: " ++ err)%string], None))
  /\ (reachesQuery r display = true ->
      GetDeploymentResourceOperations r = Err err ->
      returned r display = Some err
      /\ List.filter aboutResource (eventsOf r display) = []
      /\ displayedResources (stateAfter r display) = displayedResources display).
Proof.
  split.
  - intros Hs Hget. rewrite tick_unfold, Hs, Hget. reflexivity.
  - intros Hreach Hq. split; [|split].
    + unfold returned. rewrite tick_unfold. unfold reachesQuery in Hreach.
      destruct (deploymentStarted display).
      * unfold reportOperations. now rewrite Hq.
      * destruct (Deployment_Get r); [|discriminate].
        destruct (Deployment_DeploymentUrl r); [|discriminate].
        cbv zeta. unfold reportOperations. now rewrite Hq.
    + rewrite eventsOf_about by exact Hreach.
      unfold tickResources, processedBy. now rewrite Hreach, Hq.
    + rewrite stateAfter_displayed.
      unfold tickResources, processedBy. now rewrite Hreach, Hq.
Qed.

(** ** The announcement *)

Lemma Sprintf_one_verb pre rest arg :
  noPercent pre = true ->
  Sprintf (pre ++ "%s" ++ rest)%string arg = (pre ++ arg ++ rest)%string.
Proof.
  induction pre as [|c pre IH]; intros Hp; [reflexivity|].
  simpl in Hp. apply andb_true_iff in Hp as [Hc Hp].
  apply negb_true_iff in Hc. specialize (IH Hp).
  change (String c pre ++ "%s" ++ rest)%string
    with (String c (pre ++ "%s" ++ rest))%string.
  change (String c pre ++ arg ++ rest)%string
    with (String c (pre ++ arg ++ rest))%string.
  rewrite <- IH. cbn [Sprintf].
  destruct (pre ++ "%s" ++ rest)%string eqn:E.
  - destruct pre; discriminate.
  - rewrite Hc. reflexivity.
Qed.

Lemma prefix_append s t : String.prefix s (s ++ t)%string = true.
Proof.
  induction s as [|c s IH]; simpl; [now destruct t|].
  destruct (ascii_dec c c); [exact IH|congruence].
Qed.

Lemma Contains_unfold s substr :
  Contains s substr =
  if String.prefix substr s then true
  else match s with
       | EmptyString => false
       | String _ rest => Contains rest substr
       end.
Proof. destruct s; reflexivity. Qed.

Lemma Contains_append pre s post : Contains (pre ++ s ++ post)%string s = true.
Proof.
  induction pre as [|c pre IH]; rewrite Contains_unfold.
  - change ("" ++ s ++ post)%string with (s ++ post)%string.
    now rewrite prefix_append.
  - destruct (String.prefix s (String c pre ++ s ++ post)); [reflexivity|exact IH].
Qed.

Lemma demoMode_spellings r :
  demoMode r = true <->
  In (Getenv_AZD_DEMO_MODE r) ["1"; "t"; "T"; "true"; "TRUE"; "True"].
Proof.
  unfold demoMode, ParseBool. generalize (Getenv_AZD_DEMO_MODE r). intros e.
  simpl. repeat case_decide; intuition (try discriminate; try congruence).
Qed.

(** C8 (as amended).  On the first call on which [Deployment.Get]
    succeeds the portal URL is asked for before [AZD_DEMO_MODE] is looked
    at.  When [DeploymentUrl] succeeds, the call starts with a blank line
    and the announcement: when [AZD_DEMO_MODE] parses as a true boolean
    the announcement is the prelude and an empty line, whatever the URL;
    otherwise it is the prelude and the link, which contains the URL.
    When [DeploymentUrl] fails, the call returns its error and shows
    nothing, in demo mode as well: no prelude, no URL.  The escape
    sequences around a link are assumed free of percent signs, so that
    the format has the one verb. *)
Theorem C8_demo_mode_hides_url r display
    (Hfirst : deploymentStarted display = false)
    (Hget : Deployment_Get r = Ok tt)
    (Hon : noPercent linkOn = true)
    (Hoff : noPercent linkOff = true) :
  (forall url,
     Deployment_DeploymentUrl r = Ok url ->
     exists prelude second rest,
       eventsOf r display =
         EnsureBlankLine :: MessageUxItem (MultilineMessage [prelude; second]) :: rest
       /\ String.prefix "You can view detailed progress in the Azure Portal" prelude
          = true
       /\ (demoMode r = true <->
           In (Getenv_AZD_DEMO_MODE r) ["1"; "t"; "T"; "true"; "TRUE"; "True"])
       /\ if demoMode r
          then prelude = "You can view detailed progress in the Azure Portal."
               /\ second = LF
          else prelude = "You can view detailed progress in the Azure Portal:"
               /\ second = (linkOn ++ url ++ LF ++ linkOff)%string
               /\ Contains second url = true)
  /\ (forall err,
        Deployment_DeploymentUrl r = Err err ->
        ReportProgress r display =
          ({| deploymentStarted := true;
              displayedResources := displayedResources display |}, [], Some err)).
Proof.
  split.
  - intros url Hurl.
    unfold eventsOf. rewrite tick_unfold, Hfirst, Hget, Hurl. cbv zeta.
    assert (Sprintf (WithLinkFormat ("%s" ++ LF)) url
            = (linkOn ++ url ++ LF ++ linkOff)%string) as Hlink.
    { unfold WithLinkFormat.
      change (linkOn ++ ("%s" ++ LF) ++ linkOff)%string
        with (linkOn ++ "%s" ++ (LF ++ linkOff))%string.
      now apply Sprintf_one_verb. }
    pose proof (demoMode_spellings r) as Hdemo.
    unfold announcementLines. rewrite Hlink. unfold demoMode in *.
    destruct (ParseBool (Getenv_AZD_DEMO_MODE r)) as [[|]|];
      do 3 eexists; (split; [simpl; reflexivity|]);
      (split; [reflexivity|]); (split; [exact Hdemo|]);
      repeat split; apply Contains_append.
  - intros err Hurl. rewrite tick_unfold, Hfirst, Hget, Hurl. reflexivity.
Qed.

(** ** Resources without a display name, operations in other states *)

(** The display name is empty when the dynamic lookup answers with the
    empty name, and when it fails and the static table has no entry. *)
Lemma resolveTypeDisplayName_empty r op :
  resolveTypeDisplayName r op = "" <->
  rm_GetResourceTypeDisplayName r (Deployment_SubscriptionId r)
    (ID (targetOf op)) (ResourceType (targetOf op)) = Ok ""
  \/ (exists e, rm_GetResourceTypeDisplayName r (Deployment_SubscriptionId r)
                  (ID (targetOf op)) (ResourceType (targetOf op)) = Err e)
     /\ azapi_GetResourceTypeDisplayName (ResourceType (targetOf op)) = "".
Proof.
  unfold resolveTypeDisplayName.
  destruct (rm_GetResourceTypeDisplayName r _ _ _) as [name|e].
  - split; [intros ->; now left|].
    intros [H|[[e H] _]]; [now injection H|discriminate].
  - split; [intros H; right; eauto|].
    intros [H|[_ H]]; [discriminate|exact H].
Qed.

(** C9.  A resource processed by a call whose resolved display name is
    empty gets its log line and no row; its name is put into
    [displayedResources] all the same, so no later call shows a row
    with that name. *)
Theorem C9_unnamed_type_logged_and_suppressed r display op
    (Hop : In op (tickResources r display))
    (Hempty : resolveTypeDisplayName r op = "") :
  (exists line, resourceEvents r op = [LogPrintf line])
  /\ List.filter aboutResource (eventsOf r display) =
     flat_map (resourceEvents r) (tickResources r display)
  /\ mapIndex (displayedResources (stateAfter r display)) (nameOf op) = true
  /\ forall worlds r2,
       let later := runTicks worlds (stateAfter r display) in
       mapIndex (displayedResources later) (nameOf op) = true
       /\ ~ In (nameOf op) (uxResourceNames (eventsOf r2 later)).
Proof.
  assert (In (nameOf op) (map nameOf (tickResources r display))) as Hname
    by now apply in_map.
  split; [|split; [|split]].
  - unfold resourceEvents, logResource. rewrite Hempty. simpl. eauto.
  - apply eventsOf_about. unfold tickResources in Hop.
    destruct (reachesQuery r display); [reflexivity|destruct Hop].
  - apply stateAfter_index. now right.
  - intros worlds r2 later.
    pose proof (processed_then_displayed r worlds display _ Hname) as Hd.
    split; [exact Hd|]. intros Hin. apply shown_then_processed in Hin.
    exact (displayed_never_processed r2 later _ Hd Hin).
Qed.

Lemma inProgressNames_withOperations r operations l :
  inProgressNames (withOperations r operations) l
  = inProgressNames r l.
Proof.
  induction l as [|op l IH]; simpl; [reflexivity|].
  now rewrite IH.
Qed.

Lemma newIn_other_state displayed state op :
  Properties_ProvisioningState op <> state -> newIn displayed state op = false.
Proof.
  intros H. unfold newIn, inState. rewrite bool_decide_eq_false_2 by exact H.
  apply andb_false_r.
Qed.

Lemma filter_drop_middle {X} (f : X -> bool) before x after :
  f x = false -> List.filter f (before ++ x :: after) = List.filter f (before ++ after).
Proof. intros H. rewrite !List.filter_app. simpl. now rewrite H. Qed.

Lemma report_withOperations r display before op after :
  Properties_ProvisioningState op <> ProvisioningStateSucceeded ->
  Properties_ProvisioningState op <> ProvisioningStateRunning ->
  Properties_ProvisioningState op <> ProvisioningStateFailed ->
  reportOperations (withOperations r (before ++ op :: after)) display
  = reportOperations (withOperations r (before ++ after)) display.
Proof.
  intros HS HR HF. rewrite !report_unfold. unfold processedBy. simpl.
  rewrite !inProgressNames_withOperations.
  rewrite !(filter_drop_middle _ before op after)
    by now apply newIn_other_state.
  reflexivity.
Qed.

(** C10.  An operation whose state is none of [Succeeded], [Running]
    and [Failed] has no effect on the call: the call returns the same
    tracker, the same events (rows, log lines, spinner) and the same
    result as it does without that operation.  The operation is in none
    of the three buckets, and where its name is not in
    [displayedResources] before the call and no processed resource
    carries that name, the name is not in the set after the call. *)
Theorem C10_other_states_ignored r display before op after
    (HS : Properties_ProvisioningState op <> ProvisioningStateSucceeded)
    (HR : Properties_ProvisioningState op <> ProvisioningStateRunning)
    (HF : Properties_ProvisioningState op <> ProvisioningStateFailed) :
  let r' := withOperations r (before ++ op :: after) in
  ReportProgress r' display = ReportProgress (withOperations r (before ++ after)) display
  /\ (let b := classify (displayedResources display) (before ++ op :: after) in
      b = classify (displayedResources display) (before ++ after))
  /\ ~ In op (tickResources r' display)
  /\ (mapIndex (displayedResources display) (nameOf op) = false ->
      ~ In (nameOf op) (map nameOf (tickResources r' display)) ->
      mapIndex (displayedResources (stateAfter r' display)) (nameOf op) = false).
Proof.
  intros r'. split; [|split; [|split]].
  - subst r'. rewrite !tick_unfold. simpl.
    rewrite !report_withOperations by assumption. reflexivity.
  - cbv zeta. rewrite !classify_filters.
    rewrite !(filter_drop_middle _ before op after)
      by now apply newIn_other_state.
    reflexivity.
  - unfold tickResources. destruct (reachesQuery r' display); [|intros []].
    unfold processedBy. subst r'. simpl. intros H.
    apply in_app_or in H as [H|H].
    + eapply Permutation_in in H; [|symmetry; apply sort_Slice_perm].
      apply filter_In in H as [_ H].
      now rewrite newIn_other_state in H.
    + apply filter_In in H as [_ H].
      now rewrite newIn_other_state in H.
  - intros Hd Hn. apply not_true_is_false. intros H.
    apply stateAfter_index in H as [H|H]; [congruence|contradiction].
Qed.

End TrackerProperties.

(** ** Order among the newly succeeded resources *)

Section SortOrder.

Context {ext : Externals} {sorter : SliceSorter} {contract : SliceContract sorter}.

Lemma names_precede r (a b : DeploymentOperation) succeeded failed :
  precedes a b succeeded ->
  hasDisplayName r a = true -> hasDisplayName r b = true ->
  precedes (nameOf a) (nameOf b)
    (map nameOf (List.filter (hasDisplayName r) (succeeded ++ failed))).
Proof.
  intros H Ha Hb. apply precedes_map. apply precedes_filter; [exact Ha|exact Hb|].
  now apply precedes_app_l.
Qed.

(** C3 (as amended).  The newly succeeded resources are put in order by
    [sort.Slice], which promises no stability.  For every sort that meets
    its contract, what the call shows for them is a rearrangement in
    which, of two resources with different timestamps, the earlier one
    comes first.  The [sort.Slice] of the Go library is an insertion sort
    up to twelve elements: when at most twelve resources newly succeeded,
    the call also shows resources with equal timestamps in the order of
    the query.  Above twelve the order of equal timestamps is left to the
    sort. *)
Theorem C3_succeeded_sorted_by_timestamp r display operations
    (Hreach : reachesQuery r display = true)
    (Hq : GetDeploymentResourceOperations r = Ok operations) :
  let news :=
    List.filter (newIn (displayedResources display) ProvisioningStateSucceeded)
      operations in
  let failed :=
    List.filter (newIn (displayedResources display) ProvisioningStateFailed)
      operations in
  (exists succeeded,
     List.filter aboutResource (eventsOf r display)
     = flat_map (resourceEvents r) (succeeded ++ failed)
     /\ uxResourceNames (eventsOf r display)
        = map nameOf (List.filter (hasDisplayName r) (succeeded ++ failed))
     /\ Permutation news succeeded
     /\ forall a b,
          In a news -> In b news ->
          Properties_Timestamp a < Properties_Timestamp b ->
          precedes a b succeeded
          /\ (hasDisplayName r a = true -> hasDisplayName r b = true ->
              precedes (nameOf a) (nameOf b) (uxResourceNames (eventsOf r display))))
  /\ ((length news <= 12)%nat ->
      exists succeeded,
        List.filter aboutResource (eventsOf (sorter := goSorter) r display)
        = flat_map (resourceEvents r) (succeeded ++ failed)
        /\ uxResourceNames (eventsOf (sorter := goSorter) r display)
           = map nameOf (List.filter (hasDisplayName r) (succeeded ++ failed))
        /\ Permutation news succeeded
        /\ StronglySorted
             (fun a b => Properties_Timestamp a <= Properties_Timestamp b) succeeded
        /\ forall a b,
             precedes a b news ->
             Properties_Timestamp a = Properties_Timestamp b ->
             precedes a b succeeded
             /\ (hasDisplayName r a = true -> hasDisplayName r b = true ->
                 precedes (nameOf a) (nameOf b)
                   (uxResourceNames (eventsOf (sorter := goSorter) r display)))).
Proof.
  intros news failed. split.
  - exists (sort_Slice timestampBefore news).
    pose proof (tickResources_reached r display operations Hreach Hq) as Ht.
    fold news failed in Ht.
    assert (uxResourceNames (eventsOf r display)
            = map nameOf (List.filter (hasDisplayName r)
                            (sort_Slice timestampBefore news ++ failed))) as Hn.
    { rewrite <- Ht. apply eventsOf_names. }
    split; [rewrite <- Ht; now apply eventsOf_about|].
    split; [exact Hn|]. split; [apply sort_Slice_perm|].
    intros a b Ha Hb Hlt.
    assert (precedes a b (sort_Slice timestampBefore news)) as Hp.
    { apply sorted_precedes; [apply sorted_by_timestamp| | |exact Hlt];
        (eapply Permutation_in; [apply sort_Slice_perm|assumption]). }
    split; [exact Hp|]. intros Hda Hdb. rewrite Hn. now apply names_precede.
  - intros Hshort. exists (insertionSort timestampBefore news).
    pose proof (tickResources_reached (sorter := goSorter) r display operations
                  Hreach Hq) as Ht.
    fold news failed in Ht. cbn [sort_Slice goSorter] in Ht.
    rewrite (Slice_short timestampBefore news Hshort) in Ht.
    assert (uxResourceNames (eventsOf (sorter := goSorter) r display)
            = map nameOf (List.filter (hasDisplayName r)
                            (insertionSort timestampBefore news ++ failed))) as Hn.
    { rewrite <- Ht. apply eventsOf_names. }
    split; [rewrite <- Ht; now apply eventsOf_about|].
    split; [exact Hn|]. split; [apply insertionSort_perm|].
    split; [exact (sorted_by_timestamp (sorter := insertionSorter) news)|].
    intros a b Hp Heq.
    assert (precedes a b (insertionSort timestampBefore news)) as Hs.
    { apply insertionSort_stable; [exact Hp|].
      unfold timestampBefore. apply Z.ltb_ge. lia. }
    split; [exact Hs|]. intros Hda Hdb. rewrite Hn. now apply names_precede.
Qed.

End SortOrder.

(** ** Concrete worlds *)

Example sampleTick_siteAndPlan :
  snd (fst (sampleTick (sampleWorld (Ok siteAndPlan)) NewProvisioningProgressDisplay)) =
  [ EnsureBlankLine;
    MessageUxItem (MultilineMessage
      [ "You can view detailed progress in the Azure Portal:";
        ("https://portal.azure.com/d1" ++ LF)%string ]);
    MessageUxItem (DisplayedResource "App Service plan" "app" "Succeeded" 1500000000);
    LogPrintf "2024-05-01 10:00:01 - Succeeded App Service plan: app";
    MessageUxItem (DisplayedResource "App Service" "app" "Succeeded" 1500000000);
    LogPrintf "2024-05-01 10:00:02 - Succeeded App Service: app";
    ShowSpinner "Creating/Updating resources" ].
Proof. vm_compute. reflexivity. Qed.

(** C1 as stated fails: two operations of one query that carry the same
    resource name are both new in that call, and both are shown. *)
Lemma C1_counterexample_same_name_in_one_call :
  let r := sampleWorld (Ok siteAndPlan) in
  let first := sampleEvents r NewProvisioningProgressDisplay in
  let second :=
    sampleEvents r (sampleStateAfter r NewProvisioningProgressDisplay) in
  uxResourceNames first ++ uxResourceNames second = ["app"; "app"]
  /\ ~ NoDup (uxResourceNames first ++ uxResourceNames second).
Proof.
  split; [vm_compute; reflexivity|].
  intros H. apply NoDup_ListNoDup in H. vm_compute in H.
  inversion H as [|x l Hx _]. apply Hx. now left.
Qed.

Lemma C1_witness :
  let r1 := sampleWorld (Ok siteAndFailedPlan) in
  let r2 := sampleWorld (Ok (sampleOperation "db" "Microsoft.Sql/servers" "Succeeded" 3
                             :: siteAndFailedPlan)) in
  NoDup (uxResourceNames (sampleEvents r1 NewProvisioningProgressDisplay)
         ++ uxResourceNames
              (sampleEvents r2
                 (runTicks (ext := sampleExternals)
                    [] (sampleStateAfter r1 NewProvisioningProgressDisplay)))).
Proof.
  intros r1 r2.
  apply (proj2 (proj1 (proj2 (C1_name_shown_at_most_once (ext := sampleExternals)
                                r1 [] r2 NewProvisioningProgressDisplay)))).
  split; apply (bool_decide_eq_true_1 _); vm_compute; reflexivity.
Defined.

Lemma C2_witness :
  let operations :=
    [ sampleOperation "web" "Microsoft.Web/sites" "Succeeded" 3;
      sampleOperation "plan" "Microsoft.Web/serverFarms" "Failed" 1;
      sampleOperation "db" "Microsoft.Sql/servers" "Succeeded" 2;
      sampleOperation "cache" "Microsoft.Cache/redis" "Running" 1 ] in
  let r := sampleWorld (Ok operations) in
  reachesQuery r NewProvisioningProgressDisplay = true
  /\ GetDeploymentResourceOperations r = Ok operations
  /\ exists succeeded,
       StronglySorted (fun a b => Properties_Timestamp a <= Properties_Timestamp b)
         succeeded
       /\ tickResources r NewProvisioningProgressDisplay =
          succeeded ++ [sampleOperation "plan" "Microsoft.Web/serverFarms" "Failed" 1].
Proof.
  intros operations r.
  split; [reflexivity|]. split; [reflexivity|].
  destruct (C2_succeeded_by_timestamp_then_failed (ext := sampleExternals)
              r NewProvisioningProgressDisplay operations eq_refl eq_refl)
    as (succeeded & _ & Hsorted & Hres & _).
  exists succeeded. split; [exact Hsorted|exact Hres].
Defined.

Example sampleTick_order :
  uxResourceNames
    (sampleEvents
       (sampleWorld
          (Ok [ sampleOperation "web" "Microsoft.Web/sites" "Succeeded" 3;
                sampleOperation "plan" "Microsoft.Web/serverFarms" "Failed" 1;
                sampleOperation "db" "Microsoft.Sql/servers" "Succeeded" 2;
                sampleOperation "app" "Microsoft.Web/sites" "Succeeded" 1 ]))
       NewProvisioningProgressDisplay)
  = ["app"; "web"; "plan"].
Proof. vm_compute. reflexivity. Qed.

(** Two resources that succeeded at the same instant are shown in the
    order of the query. *)
Example sampleTick_sameInstant :
  uxResourceNames
    (@sampleEvents goSorter (sampleWorld (Ok sameInstant))
       NewProvisioningProgressDisplay) = ["plan"; "web"].
Proof. vm_compute. reflexivity. Qed.

(** C3 as stated fails on the sort the tracker calls.  Thirteen resources
    newly succeeded, the last one of the query before the others; the
    [sort.Slice] of the Go library partitions the slice around [site06],
    and the twelve resources with equal timestamps do not come out in the
    order of the query: [site06] is shown before [site00]. *)
Lemma C3_counterexample_thirteen_ties :
  let events :=
    @sampleEvents goSorter (sampleWorld (Ok thirteenSites))
      NewProvisioningProgressDisplay in
  uxResourceNames events
  = [ "site12"; "site06"; "site02"; "site03"; "site04"; "site05"; "site00";
      "site07"; "site08"; "site09"; "site10"; "site11"; "site01" ]
  /\ Properties_Timestamp (succeededSite "site00" 2)
     = Properties_Timestamp (succeededSite "site06" 2)
  /\ precedes (succeededSite "site00" 2) (succeededSite "site06" 2) thirteenSites
  /\ precedes "site06" "site00" (uxResourceNames events)
  /\ ~ precedes "site00" "site06" (uxResourceNames events).
Proof.
  intros events.
  assert (uxResourceNames events
          = [ "site12"; "site06"; "site02"; "site03"; "site04"; "site05"; "site00";
              "site07"; "site08"; "site09"; "site10"; "site11"; "site01" ]) as Hn.
  { vm_compute. reflexivity. }
  assert (precedes "site06" "site00" (uxResourceNames events)) as Hp.
  { rewrite Hn.
    now exists ["site12"], ["site02"; "site03"; "site04"; "site05"],
      ["site07"; "site08"; "site09"; "site10"; "site11"; "site01"]. }
  split; [exact Hn|]. split; [reflexivity|].
  split.
  { now exists [],
      [ succeededSite "site01" 2; succeededSite "site02" 2; succeededSite "site03" 2;
        succeededSite "site04" 2; succeededSite "site05" 2 ],
      [ succeededSite "site07" 2; succeededSite "site08" 2; succeededSite "site09" 2;
        succeededSite "site10" 2; succeededSite "site11" 2; succeededSite "site12" 1 ]. }
  split; [exact Hp|].
  intros H. revert Hp. apply precedes_asym; [|exact H].
  rewrite Hn. apply (bool_decide_eq_true_1 _). vm_compute. reflexivity.
Qed.

(** The rounds given to the sort do not run out on the thirteen
    resources: more rounds give the same order. *)
Example thirteenSites_rounds extra :
  pdqsort_func timestampBefore (3 + extra) thirteenSites 0 13 4 true true
  = Slice timestampBefore thirteenSites.
Proof. vm_compute. reflexivity. Qed.

Lemma C3_witness :
  let operations :=
    [ sampleOperation "web" "Microsoft.Web/sites" "Succeeded" 3;
      sampleOperation "plan" "Microsoft.Web/serverFarms" "Succeeded" 1 ] in
  let r := sampleWorld (Ok operations) in
  reachesQuery r NewProvisioningProgressDisplay = true
  /\ GetDeploymentResourceOperations r = Ok operations
  /\ exists succeeded,
       Permutation (List.filter (newIn ∅ ProvisioningStateSucceeded) operations)
         succeeded
       /\ uxResourceNames (sampleEvents r NewProvisioningProgressDisplay)
          = map nameOf
              (List.filter (hasDisplayName (ext := sampleExternals) r)
                 (succeeded
                  ++ List.filter (newIn ∅ ProvisioningStateFailed) operations)).
Proof.
  intros operations r.
  split; [reflexivity|]. split; [reflexivity|].
  destruct (proj1 (C3_succeeded_sorted_by_timestamp (ext := sampleExternals)
                     r NewProvisioningProgressDisplay operations eq_refl eq_refl))
    as (succeeded & _ & Hnames & Hperm & _).
  exists succeeded. split; [exact Hperm|exact Hnames].
Defined.

(** C4 as stated fails for the query: its error is returned to the caller
    and nothing is logged. *)
Lemma C4_counterexample_query_error_returned :
  sampleTick (sampleWorld (Err "operations: request timed out")) startedDisplay
  = (startedDisplay, [], Some "operations: request timed out").
Proof. vm_compute. reflexivity. Qed.

Lemma C4_witness :
  let unreachable :=
    {| Deployment_Get := Err "deployment not found";
       Deployment_DeploymentUrl := Ok "https://portal.azure.com/d1";
       Deployment_SubscriptionId := "s";
       Getenv_AZD_DEMO_MODE := "";
       GetDeploymentResourceOperations := Ok [];
       rm_GetResourceTypeDisplayName := fun _ _ _ => Err "lookup failed";
       IsSpinnerInteractive := true |} in
  sampleTick unreachable NewProvisioningProgressDisplay
  = (NewProvisioningProgressDisplay,
     [LogPrintf "error while reporting progress: deployment not found"], None).
Proof.
  intros unreachable.
  exact (proj1 (C4_get_failure_swallowed_query_failure_returned
                  (ext := sampleExternals) unreachable
                  NewProvisioningProgressDisplay "deployment not found")
           eq_refl eq_refl).
Defined.

Example sampleTick_demo :
  sampleEvents (sampleDemoWorld "1") NewProvisioningProgressDisplay
  = [ EnsureBlankLine;
      MessageUxItem (MultilineMessage
        [ "You can view detailed progress in the Azure Portal."; LF ]) ].
Proof. vm_compute. reflexivity. Qed.

Example sampleTick_no_demo :
  sampleEvents (sampleDemoWorld "yes") NewProvisioningProgressDisplay
  = [ EnsureBlankLine;
      MessageUxItem (MultilineMessage
        [ "You can view detailed progress in the Azure Portal:";
          ("https://portal.azure.com/d1" ++ LF)%string ]) ].
Proof. vm_compute. reflexivity. Qed.

(** C8 as stated fails: [Deployment.Get] succeeds and demo mode is on, but
    the deployment has no portal link.  The call returns the error of
    [DeploymentUrl] and shows no announcement, so the prelude does not
    remain; the tracker has started, and the next call, for which the
    link is there, shows no announcement either. *)
Lemma C8_counterexample_no_url_no_prelude :
  let r := sampleNoUrlDemoWorld in
  deploymentStarted NewProvisioningProgressDisplay = false
  /\ Deployment_Get r = Ok tt
  /\ ParseBool (Getenv_AZD_DEMO_MODE r) = Ok true
  /\ sampleTick r NewProvisioningProgressDisplay
     = (startedDisplay, [], Some "no portal link")
  /\ runEvents (ext := sampleExternals) [r; sampleDemoWorld "1"]
       NewProvisioningProgressDisplay = [].
Proof. repeat split; vm_compute; reflexivity. Qed.

Lemma C8_witness :
  deploymentStarted NewProvisioningProgressDisplay = false
  /\ Deployment_Get (sampleDemoWorld "TRUE") = Ok tt
  /\ noPercent (@linkOn sampleExternals) = true
  /\ noPercent (@linkOff sampleExternals) = true
  /\ Deployment_DeploymentUrl (sampleDemoWorld "TRUE") = Ok "https://portal.azure.com/d1"
  /\ exists prelude second rest,
       sampleEvents (sampleDemoWorld "TRUE") NewProvisioningProgressDisplay
       = EnsureBlankLine :: MessageUxItem (MultilineMessage [prelude; second]) :: rest.
Proof.
  repeat (split; [reflexivity|]).
  destruct (proj1 (C8_demo_mode_hides_url (ext := sampleExternals)
                     (sampleDemoWorld "TRUE") NewProvisioningProgressDisplay
                     eq_refl eq_refl eq_refl eq_refl)
              "https://portal.azure.com/d1" eq_refl)
    as (prelude & second & rest & H & _).
  exists prelude, second, rest. exact H.
Defined.

Lemma C9_witness :
  let db := sampleOperation "db" "Microsoft.Sql/servers" "Succeeded" 2 in
  let r := sampleWorld (Ok [ sampleOperation "web" "Microsoft.Web/sites" "Succeeded" 3; db ]) in
  In db (tickResources r NewProvisioningProgressDisplay)
  /\ resolveTypeDisplayName (ext := sampleExternals) r db = ""
  /\ forall r2,
       ~ In "db" (uxResourceNames
                    (sampleEvents r2 (sampleStateAfter r NewProvisioningProgressDisplay))).
Proof.
  intros db r.
  assert (In db (tickResources r NewProvisioningProgressDisplay)) as Hin.
  { vm_compute. left. reflexivity. }
  split; [exact Hin|]. split; [reflexivity|].
  intros r2.
  exact (proj2 (proj2 (proj2 (proj2
    (C9_unnamed_type_logged_and_suppressed (ext := sampleExternals)
       r NewProvisioningProgressDisplay db Hin eq_refl)))
    [] r2)).
Defined.

Lemma C10_witness :
  let canceled := sampleOperation "db" "Microsoft.Sql/servers" "Canceled" 2 in
  let web := sampleOperation "web" "Microsoft.Web/sites" "Succeeded" 3 in
  let r := sampleWorld (Ok []) in
  Properties_ProvisioningState canceled <> ProvisioningStateSucceeded
  /\ Properties_ProvisioningState canceled <> ProvisioningStateRunning
  /\ Properties_ProvisioningState canceled <> ProvisioningStateFailed
  /\ sampleTick (withOperations r ([web] ++ canceled :: [])) NewProvisioningProgressDisplay
     = sampleTick (withOperations r ([web] ++ [])) NewProvisioningProgressDisplay.
Proof.
  intros canceled web r.
  assert (Properties_ProvisioningState canceled <> ProvisioningStateSucceeded) as HS
    by discriminate.
  assert (Properties_ProvisioningState canceled <> ProvisioningStateRunning) as HR
    by discriminate.
  assert (Properties_ProvisioningState canceled <> ProvisioningStateFailed) as HF
    by discriminate.
  repeat (split; [assumption|]).
  exact (proj1 (C10_other_states_ignored (ext := sampleExternals)
                  r NewProvisioningProgressDisplay [web] canceled [] HS HR HF)).
Defined.

(** ** More of the tracker: layout of a call, spinner, announcement *)

Section TrackerCoverage.

Context {ext : Externals} {sorter : SliceSorter} {contract : SliceContract sorter}.

Lemma inProgressNames_filter r l :
  inProgressNames r l =
  List.filter (fun name => negb (String.eqb name "")) (map (resolveTypeDisplayName r) l).
Proof.
  induction l as [|op l IH]; simpl; [reflexivity|].
  rewrite IH. now destruct (negb (String.eqb (resolveTypeDisplayName r op) "")).
Qed.

Lemma report_events r display :
  snd (fst (reportOperations r display)) = reportEvents r (displayedResources display).
Proof.
  rewrite report_unfold. unfold reportEvents, runningNames.
  destruct (GetDeploymentResourceOperations r); [|reflexivity].
  simpl. now rewrite inProgressNames_filter.
Qed.

(** The events of a call, case by case. *)
Lemma eventsOf_cases r display :
  eventsOf r display =
  if deploymentStarted display then reportEvents r (displayedResources display)
  else match Deployment_Get r with
       | Err err => [LogPrintf ("error while reporting progress: " ++ err)%string]
       | Ok _ =>
           match Deployment_DeploymentUrl r with
           | Err _ => []
           | Ok deploymentUrl =>
               [EnsureBlankLine;
                MessageUxItem (MultilineMessage (announcementLines r deploymentUrl))]
               ++ reportEvents r (displayedResources display)
           end
       end.
Proof.
  unfold eventsOf. rewrite tick_unfold.
  destruct (deploymentStarted display); [apply report_events|].
  destruct (Deployment_Get r); [|reflexivity].
  destruct (Deployment_DeploymentUrl r); [|reflexivity].
  cbv zeta. cbn [fst snd]. now rewrite report_events.
Qed.

Lemma stateAfter_started r display :
  deploymentStarted (stateAfter r display) =
  if deploymentStarted display then true
  else match Deployment_Get r with
       | Ok _ => true
       | Err _ => false
       end.
Proof.
  unfold stateAfter. rewrite tick_unfold.
  destruct (deploymentStarted display) eqn:Hs.
  - rewrite report_unfold.
    destruct (GetDeploymentResourceOperations r); simpl; assumption.
  - destruct (Deployment_Get r); [|simpl; assumption].
    destruct (Deployment_DeploymentUrl r); [|reflexivity].
    cbv zeta. cbn [fst]. rewrite report_unfold.
    destruct (GetDeploymentResourceOperations r); reflexivity.
Qed.

Lemma spinnerTitles_app evs1 evs2 :
  spinnerTitles (evs1 ++ evs2) = spinnerTitles evs1 ++ spinnerTitles evs2.
Proof. apply flat_map_app. Qed.

Lemma logLines_app evs1 evs2 : logLines (evs1 ++ evs2) = logLines evs1 ++ logLines evs2.
Proof. apply flat_map_app. Qed.

Lemma uxRows_app evs1 evs2 : uxRows (evs1 ++ evs2) = uxRows evs1 ++ uxRows evs2.
Proof. apply flat_map_app. Qed.

Lemma announcements_app evs1 evs2 :
  announcements (evs1 ++ evs2) = announcements evs1 ++ announcements evs2.
Proof. apply flat_map_app. Qed.

Lemma resourceEvents_shape r op :
  resourceEvents r op =
  (if hasDisplayName r op then [MessageUxItem (rowOf r op)] else [])
  ++ [LogPrintf (logLineOf r op)].
Proof.
  unfold resourceEvents, logResource, hasDisplayName, rowOf, logLineOf, nameOf,
    hasDisplayName.
  destruct (negb (String.eqb (resolveTypeDisplayName r op) "")); reflexivity.
Qed.

Lemma spinner_shape r names :
  spinner r names =
  if IsSpinnerInteractive r then [ShowSpinner (spinnerTitle names)] else [].
Proof.
  unfold spinner, spinnerTitle.
  destruct (IsSpinnerInteractive r); [|reflexivity].
  now destruct names.
Qed.

Lemma flat_map_resourceEvents_spinnerTitles r l :
  spinnerTitles (flat_map (resourceEvents r) l) = [].
Proof.
  induction l as [|op l IH]; [reflexivity|]. simpl.
  rewrite spinnerTitles_app, IH, resourceEvents_shape.
  now destruct (hasDisplayName r op).
Qed.

Lemma flat_map_resourceEvents_announcements r l :
  announcements (flat_map (resourceEvents r) l) = [].
Proof.
  induction l as [|op l IH]; [reflexivity|]. simpl.
  rewrite announcements_app, IH, resourceEvents_shape. unfold rowOf.
  now destruct (hasDisplayName r op).
Qed.

Lemma flat_map_resourceEvents_logLines r l :
  logLines (flat_map (resourceEvents r) l) = map (logLineOf r) l.
Proof.
  induction l as [|op l IH]; [reflexivity|]. simpl.
  rewrite logLines_app, IH, resourceEvents_shape. unfold rowOf.
  now destruct (hasDisplayName r op).
Qed.

Lemma flat_map_resourceEvents_uxRows r l :
  uxRows (flat_map (resourceEvents r) l)
  = map (rowOf r) (List.filter (hasDisplayName r) l).
Proof.
  induction l as [|op l IH]; [reflexivity|]. simpl.
  rewrite uxRows_app, IH, resourceEvents_shape. unfold rowOf.
  now destruct (hasDisplayName r op).
Qed.

Lemma reportEvents_spinnerTitles r displayed :
  spinnerTitles (reportEvents r displayed) =
  match GetDeploymentResourceOperations r with
  | Ok _ => if IsSpinnerInteractive r
            then [spinnerTitle (runningNames r displayed)] else []
  | Err _ => []
  end.
Proof.
  unfold reportEvents.
  destruct (GetDeploymentResourceOperations r); [|reflexivity].
  rewrite spinnerTitles_app, flat_map_resourceEvents_spinnerTitles, spinner_shape.
  now destruct (IsSpinnerInteractive r).
Qed.

Lemma reportEvents_announcements r displayed :
  announcements (reportEvents r displayed) = [].
Proof.
  unfold reportEvents.
  destruct (GetDeploymentResourceOperations r); [|reflexivity].
  rewrite announcements_app, flat_map_resourceEvents_announcements, spinner_shape.
  now destruct (IsSpinnerInteractive r).
Qed.

(** X1.  The spinner.  A call shows at most one spinner title.  It shows
    one exactly when it gets the operations and the console is
    interactive: the plain title when no new running operation has a
    display name, otherwise the title with the display names of the new
    running operations in brackets, in the order of the query, with
    repetitions kept.  The title is then the last event of the call. *)
Theorem X1_spinner_title r display :
  spinnerTitles (eventsOf r display) =
    (if reachesQuery r display then
       match GetDeploymentResourceOperations r with
       | Ok _ =>
           if IsSpinnerInteractive r
           then [spinnerTitle (runningNames r (displayedResources display))]
           else []
       | Err _ => []
       end
     else [])
  /\ (forall title, In title (spinnerTitles (eventsOf r display)) ->
        exists before, eventsOf r display = before ++ [ShowSpinner title]).
Proof.
  assert (spinnerTitles (eventsOf r display) =
          if reachesQuery r display then
            match GetDeploymentResourceOperations r with
            | Ok _ =>
                if IsSpinnerInteractive r
                then [spinnerTitle (runningNames r (displayedResources display))]
                else []
            | Err _ => []
            end
          else []) as Htitles.
  { rewrite eventsOf_cases. unfold reachesQuery.
    destruct (deploymentStarted display); [apply reportEvents_spinnerTitles|].
    destruct (Deployment_Get r); [|reflexivity].
    destruct (Deployment_DeploymentUrl r); [|reflexivity].
    rewrite spinnerTitles_app. apply reportEvents_spinnerTitles. }
  split; [exact Htitles|].
  intros title Hin. rewrite Htitles in Hin.
  rewrite eventsOf_cases. unfold reachesQuery in Hin. unfold reportEvents in *.
  destruct (deploymentStarted display).
  - destruct (GetDeploymentResourceOperations r); [|destruct Hin].
    rewrite spinner_shape. destruct (IsSpinnerInteractive r); [|destruct Hin].
    destruct Hin as [<-|[]]. eauto.
  - destruct (Deployment_Get r); [|destruct Hin].
    destruct (Deployment_DeploymentUrl r); [|destruct Hin].
    destruct (GetDeploymentResourceOperations r); [|destruct Hin].
    rewrite spinner_shape. destruct (IsSpinnerInteractive r); [|destruct Hin].
    destruct Hin as [<-|[]]. eexists. rewrite !app_assoc. reflexivity.
Qed.

Lemma announcements_eventsOf r display :
  announcements (eventsOf r display) = announcementOf r display.
Proof.
  rewrite eventsOf_cases. unfold announcementOf.
  destruct (deploymentStarted display); [apply reportEvents_announcements|].
  destruct (Deployment_Get r); [|reflexivity].
  destruct (Deployment_DeploymentUrl r); [|reflexivity].
  rewrite announcements_app, reportEvents_announcements. reflexivity.
Qed.

Lemma run_started_silent worlds display :
  deploymentStarted display = true ->
  announcements (runEvents worlds display) = [].
Proof.
  revert display. induction worlds as [|r rest IH]; intros display Hs;
    [reflexivity|].
  simpl. rewrite announcements_app, announcements_eventsOf.
  unfold announcementOf. rewrite Hs. simpl.
  apply IH. rewrite stateAfter_started. now rewrite Hs.
Qed.

Lemma run_announces_once worlds display :
  (length (announcements (runEvents worlds display)) <= 1)%nat.
Proof.
  revert display. induction worlds as [|r rest IH]; intros display; simpl;
    [lia|].
  rewrite announcements_app, announcements_eventsOf, length_app.
  pose proof (stateAfter_started r display) as Hs.
  unfold announcementOf.
  destruct (deploymentStarted display).
  - rewrite run_started_silent by exact Hs. simpl. lia.
  - destruct (Deployment_Get r).
    + rewrite run_started_silent by exact Hs.
      destruct (Deployment_DeploymentUrl r); simpl; lia.
    + simpl. apply IH.
Qed.

(** X2.  The announcement.  A call shows the announcement exactly when
    the tracker has not started and both [Deployment.Get] and
    [DeploymentUrl] succeed, whatever the query for the operations
    answers; it is then preceded by a blank line and comes before
    everything else the call shows.  Over any run of calls on one
    tracker the announcement is shown at most once, and never once
    [deploymentStarted] is set. *)
Theorem X2_announcement_at_most_once worlds display :
  (forall r, announcements (eventsOf r display) = announcementOf r display)
  /\ (forall r lines, announcementOf r display = [lines] ->
        exists rest,
          eventsOf r display =
          EnsureBlankLine :: MessageUxItem (MultilineMessage lines) :: rest)
  /\ (length (announcements (runEvents worlds display)) <= 1)%nat
  /\ (deploymentStarted display = true ->
      announcements (runEvents worlds display) = []).
Proof.
  split; [intros r; apply announcements_eventsOf|].
  split; [|split; [apply run_announces_once|apply run_started_silent]].
  intros r lines H. rewrite eventsOf_cases. unfold announcementOf in H.
  destruct (deploymentStarted display); [discriminate|].
  destruct (Deployment_Get r); [|discriminate].
  destruct (Deployment_DeploymentUrl r); [|discriminate].
  injection H as <-. simpl. eauto.
Qed.

(** X3.  A failure of [DeploymentUrl].  When the tracker has not started,
    [Deployment.Get] succeeds and [DeploymentUrl] fails, the call returns
    that error and shows nothing, not even the operations; it leaves
    [deploymentStarted] set, so that no later call on the tracker shows
    the announcement. *)
Theorem X3_url_failure_loses_announcement r display err worlds
    (Hnew : deploymentStarted display = false)
    (Hget : Deployment_Get r = Ok tt)
    (Hurl : Deployment_DeploymentUrl r = Err err) :
  ReportProgress r display =
    ({| deploymentStarted := true;
        displayedResources := displayedResources display |}, [], Some err)
  /\ announcements (runEvents worlds (stateAfter r display)) = [].
Proof.
  assert (ReportProgress r display =
          ({| deploymentStarted := true;
              displayedResources := displayedResources display |}, [], Some err))
    as Hcall.
  { rewrite tick_unfold, Hnew, Hget, Hurl. reflexivity. }
  split; [exact Hcall|].
  apply run_started_silent. unfold stateAfter. now rewrite Hcall.
Qed.

(** X4.  The error a call returns.  [ReportProgress] returns an error in
    two cases only, and then that very error: [DeploymentUrl] fails on a
    tracker that has not started and whose [Deployment.Get] succeeded, or
    the call reaches the query for the operations and the query fails.
    A failure of [Deployment.Get], of the lookup of a display name or of
    the parsing of a duration is never returned. *)
Theorem X4_returned_error r display e :
  returned r display = Some e <->
  (deploymentStarted display = false
   /\ (exists v, Deployment_Get r = Ok v)
   /\ Deployment_DeploymentUrl r = Err e)
  \/ (reachesQuery r display = true
      /\ GetDeploymentResourceOperations r = Err e).
Proof.
  unfold returned, reachesQuery. rewrite tick_unfold.
  destruct (deploymentStarted display).
  - rewrite report_unfold.
    destruct (GetDeploymentResourceOperations r) as [ops|e']; simpl.
    + split; [discriminate|]. intros [(H & _)|(_ & H)]; discriminate.
    + split; [intros [= ->]; now right|].
      intros [(H & _)|(_ & H)]; [discriminate|now injection H as ->].
  - destruct (Deployment_Get r) as [v|eg]; simpl.
    + destruct (Deployment_DeploymentUrl r) as [url|eu]; simpl.
      * rewrite report_unfold.
        destruct (GetDeploymentResourceOperations r) as [ops|e']; simpl.
        -- split; [discriminate|]. intros [(_ & _ & H)|(_ & H)]; discriminate.
        -- split; [intros [= ->]; now right|].
           intros [(_ & _ & H)|(_ & H)]; [discriminate|now injection H as ->].
      * split; [intros [= ->]; left; eauto|].
        intros [(_ & _ & H)|(H & _)]; [now injection H as ->|discriminate].
    + split; [discriminate|].
      intros [(_ & [v H] & _)|(H & _)]; discriminate.
Qed.

(** ** More of the tracker: what enters the set and what is shown again *)




Lemma reachesQuery_stateAfter r display :
  reachesQuery r display = true -> deploymentStarted (stateAfter r display) = true.
Proof.
  unfold reachesQuery. rewrite stateAfter_started.
  destruct (deploymentStarted display); [reflexivity|].
  now destruct (Deployment_Get r).
Qed.




Lemma inProgressNames_same r r' l :
  Deployment_SubscriptionId r = Deployment_SubscriptionId r' ->
  (forall subscription id type,
      rm_GetResourceTypeDisplayName r subscription id type
      = rm_GetResourceTypeDisplayName r' subscription id type) ->
  inProgressNames r l = inProgressNames r' l.
Proof.
  intros Hsub Hrm. induction l as [|op l IH]; simpl; [reflexivity|].
  unfold resolveTypeDisplayName. now rewrite IH, Hsub, Hrm.
Qed.

Lemma logResources_same r r' displayed l :
  Deployment_SubscriptionId r = Deployment_SubscriptionId r' ->
  (forall subscription id type,
      rm_GetResourceTypeDisplayName r subscription id type
      = rm_GetResourceTypeDisplayName r' subscription id type) ->
  logResources r displayed l = logResources r' displayed l.
Proof.
  intros Hsub Hrm. revert displayed.
  induction l as [|op l IH]; intros displayed; simpl; [reflexivity|].
  assert (logResource r displayed op = logResource r' displayed op) as ->.
  { unfold logResource, resolveTypeDisplayName. now rewrite Hsub, Hrm. }
  destruct (logResource r' displayed op) as [ev displayed'].
  now rewrite IH.
Qed.

Lemma reportOperations_same r r' display :
  sameProgress r r' -> reportOperations r display = reportOperations r' display.
Proof.
  intros (Hq & Hsub & Hint & Hrm).
  unfold reportOperations, logNewlyCreatedResources, spinner.
  rewrite Hq, Hint.
  destruct (GetDeploymentResourceOperations r') as [operations|]; [|reflexivity].
  cbv zeta.
  rewrite (logResources_same r r') by assumption.
  now rewrite (inProgressNames_same r r') by assumption.
Qed.

(** X6.  Once started, the deployment handle is left alone.  On a tracker
    whose [deploymentStarted] is set, [ReportProgress] does not depend on
    [Deployment.Get], on [DeploymentUrl] or on [AZD_DEMO_MODE]: two
    worlds that agree on the query, the lookups, the subscription and the
    console give the same tracker, events and result. *)
Theorem X6_started_ignores_deployment r r' display
    (Hstarted : deploymentStarted display = true)
    (Hsame : sameProgress r r') :
  ReportProgress r display = ReportProgress r' display.
Proof.
  unfold ReportProgress. rewrite Hstarted. simpl.
  now apply reportOperations_same.
Qed.

Lemma report_drop_operation r display before op after :
  (forall state, newIn (displayedResources display) state op = false) ->
  reportOperations (withOperations r (before ++ op :: after)) display
  = reportOperations (withOperations r (before ++ after)) display.
Proof.
  intros Hop. rewrite !report_unfold. unfold processedBy. simpl.
  rewrite !inProgressNames_withOperations.
  rewrite !(filter_drop_middle _ before op after) by apply Hop.
  reflexivity.
Qed.

(** X7.  Operations the classification skips.  An operation without a
    target resource, and an operation whose resource name is in
    [displayedResources] already, have no effect on the call, whatever
    their state: the call returns the same tracker, events and result as
    it does without that operation. *)
Theorem X7_untargeted_or_displayed_ignored r display before op after
    (Hskip : Properties_TargetResource op = None
             \/ exists target, Properties_TargetResource op = Some target
                               /\ mapIndex (displayedResources display)
                                    (ResourceName target) = true) :
  ReportProgress (withOperations r (before ++ op :: after)) display
  = ReportProgress (withOperations r (before ++ after)) display.
Proof.
  assert (forall displayed,
             displayedResources display = displayed ->
             forall state, newIn displayed state op = false) as Hnot.
  { intros displayed <- state. unfold newIn, isNew.
    destruct Hskip as [->|(target & -> & ->)]; reflexivity. }
  rewrite !tick_unfold. simpl.
  rewrite !report_drop_operation by (apply Hnot; reflexivity).
  reflexivity.
Qed.

Lemma tickResources_iff r display op :
  In op (tickResources r display) <->
  reachesQuery r display = true
  /\ exists operations,
       GetDeploymentResourceOperations r = Ok operations
       /\ In op operations
       /\ isNew (displayedResources display) op = true
       /\ (Properties_ProvisioningState op = ProvisioningStateSucceeded
           \/ Properties_ProvisioningState op = ProvisioningStateFailed).
Proof.
  unfold tickResources, processedBy.
  destruct (reachesQuery r display); [|split; [intros []|intros [? _]; discriminate]].
  destruct (GetDeploymentResourceOperations r) as [operations|e].
  - rewrite in_app_iff, !filter_In.
    assert (In op (sort_Slice timestampBefore
                     (List.filter (newIn (displayedResources display)
                                     ProvisioningStateSucceeded) operations))
            <-> In op operations
                /\ newIn (displayedResources display) ProvisioningStateSucceeded op
                   = true) as ->.
    { rewrite <- filter_In. split; apply Permutation_in;
        [symmetry|]; apply sort_Slice_perm. }
    unfold newIn, inState. rewrite !andb_true_iff, !bool_decide_eq_true.
    split.
    + intros H. split; [reflexivity|]. exists operations. tauto.
    + intros (_ & ops & [= <-] & H). tauto.
  - split; [intros []|]. intros (_ & ops & H & _). discriminate.
Qed.

Lemma uxRows_eventsOf r display :
  uxRows (eventsOf r display)
  = map (rowOf r) (List.filter (hasDisplayName r) (tickResources r display)).
Proof.
  rewrite eventsOf_cases. unfold tickResources, reachesQuery, reportEvents, processedBy.
  destruct (deploymentStarted display).
  - destruct (GetDeploymentResourceOperations r); [|reflexivity].
    rewrite uxRows_app, flat_map_resourceEvents_uxRows, spinner_shape.
    destruct (IsSpinnerInteractive r); simpl; now rewrite app_nil_r.
  - destruct (Deployment_Get r); [|reflexivity].
    destruct (Deployment_DeploymentUrl r); [|reflexivity].
    destruct (GetDeploymentResourceOperations r); [|reflexivity].
    rewrite !uxRows_app, flat_map_resourceEvents_uxRows, spinner_shape.
    destruct (IsSpinnerInteractive r); simpl; now rewrite app_nil_r.
Qed.

(** X8.  A resource that completes later.  Only processed resources enter
    [displayedResources]: a resource whose operations are all running (or
    in another state that is not final) in one call leaves the set as it
    is.  So when its name is not in the set before that call, and the
    query of the next call reports it as succeeded or failed, the next
    call processes it, and shows its row if it has a display name. *)
Theorem X8_running_then_completed r1 r2 display done operations2
    (Hfresh : mapIndex (displayedResources display) (nameOf done) = false)
    (Hrunning : forall operations1 op,
        GetDeploymentResourceOperations r1 = Ok operations1 ->
        In op operations1 -> nameOf op = nameOf done ->
        Properties_ProvisioningState op <> ProvisioningStateSucceeded
        /\ Properties_ProvisioningState op <> ProvisioningStateFailed)
    (Hreach2 : reachesQuery r2 (stateAfter r1 display) = true)
    (Hq2 : GetDeploymentResourceOperations r2 = Ok operations2)
    (Hin : In done operations2)
    (Htarget : hasTarget done = true)
    (Hdone : Properties_ProvisioningState done = ProvisioningStateSucceeded
             \/ Properties_ProvisioningState done = ProvisioningStateFailed) :
  let after := stateAfter r1 display in
  mapIndex (displayedResources after) (nameOf done) = false
  /\ In done (tickResources r2 after)
  /\ (hasDisplayName r2 done = true -> In (rowOf r2 done) (uxRows (eventsOf r2 after)))
  /\ mapIndex (displayedResources (stateAfter r2 after)) (nameOf done) = true.
Proof.
  intros after.
  assert (mapIndex (displayedResources after) (nameOf done) = false) as Hstill.
  { apply not_true_is_false. intros H.
    apply stateAfter_index in H as [H|H]; [congruence|].
    apply in_map_iff in H as (op & Hname & Hop).
    apply tickResources_iff in Hop as (_ & ops1 & Hq1 & Hop & _ & Hst).
    destruct (Hrunning ops1 op Hq1 Hop Hname) as [HS HF]. tauto. }
  assert (In done (tickResources r2 after)) as Hproc.
  { apply tickResources_iff. split; [exact Hreach2|].
    exists operations2. repeat split; try assumption.
    unfold isNew. unfold hasTarget in Htarget. unfold nameOf, targetOf in Hstill.
    destruct (Properties_TargetResource done); [|discriminate].
    simpl in Hstill. now rewrite Hstill. }
  split; [exact Hstill|]. split; [exact Hproc|]. split.
  - intros Hname. rewrite uxRows_eventsOf. apply in_map.
    apply filter_In. now split.
  - apply stateAfter_index. right. now apply in_map.
Qed.

Lemma fold_insert_dom l (m : gmap string bool) :
  dom (fold_left (fun m op => <[nameOf op := true]> m) l m)
  = dom m ∪ list_to_set (map nameOf l).
Proof.
  clear contract. revert m. induction l as [|op l IH]; intros m; simpl.
  - set_solver.
  - rewrite IH, dom_insert_L. set_solver.
Qed.

Lemma fold_insert_onlyTrue l (m : gmap string bool) :
  onlyTrue m -> onlyTrue (fold_left (fun m op => <[nameOf op := true]> m) l m).
Proof.
  revert m. induction l as [|op l IH]; intros m Hm; simpl; [exact Hm|].
  apply IH. intros key value H.
  destruct (decide (nameOf op = key)) as [E|Hne].
  - rewrite E, lookup_insert_eq in H. congruence.
  - rewrite lookup_insert_ne in H by exact Hne. eauto.
Qed.

Lemma runTicks_dom worlds display :
  dom (displayedResources display) ⊆ dom (displayedResources (runTicks worlds display)).
Proof.
  clear contract. revert display.
  induction worlds as [|r rest IH]; intros display; simpl; [set_solver|].
  etransitivity; [|apply IH].
  rewrite stateAfter_displayed, fold_insert_dom. set_solver.
Qed.

Lemma runTicks_onlyTrue worlds display :
  onlyTrue (displayedResources display) ->
  onlyTrue (displayedResources (runTicks worlds display)).
Proof.
  revert display. induction worlds as [|r rest IH]; intros display H; simpl;
    [exact H|].
  apply IH. rewrite stateAfter_displayed. now apply fold_insert_onlyTrue.
Qed.

(** X9.  The set of displayed resources.  A call adds to the keys of
    [displayedResources] exactly the names of the resources it processes,
    and removes none, so over a run of calls the set only grows.  It
    records every key as [true]: on a tracker made by
    [NewProvisioningProgressDisplay] and after any run of calls on it, a
    name reads as [true] exactly when it is a key. *)
Theorem X9_displayed_set_grows_by_processed r worlds display :
  dom (displayedResources (stateAfter r display))
    = dom (displayedResources display)
      ∪ list_to_set (map nameOf (tickResources r display))
  /\ dom (displayedResources display)
       ⊆ dom (displayedResources (runTicks worlds display))
  /\ (onlyTrue (displayedResources display) ->
      onlyTrue (displayedResources (runTicks worlds display)))
  /\ forall name,
       let final := displayedResources (runTicks worlds NewProvisioningProgressDisplay) in
       mapIndex final name = true <-> name ∈ dom final.
Proof.
  split; [rewrite stateAfter_displayed; apply fold_insert_dom|].
  split; [apply runTicks_dom|]. split; [apply runTicks_onlyTrue|].
  intros name final.
  assert (onlyTrue final) as Hfinal.
  { apply runTicks_onlyTrue. intros key value H. simpl in H.
    rewrite lookup_empty in H. discriminate. }
  unfold mapIndex. rewrite elem_of_dom. split.
  - destruct (final !! name) eqn:E; [eauto|discriminate].
  - intros [value E]. rewrite E. simpl. exact (Hfinal name value E).
Qed.

(** ** More of the tracker: log lines and rows *)

Lemma reportEvents_logLines r displayed :
  logLines (reportEvents r displayed) = map (logLineOf r) (processedBy r displayed).
Proof.
  unfold reportEvents, processedBy.
  destruct (GetDeploymentResourceOperations r); [|reflexivity].
  rewrite logLines_app, flat_map_resourceEvents_logLines, spinner_shape.
  destruct (IsSpinnerInteractive r); simpl; now rewrite app_nil_r.
Qed.

(** X10.  The log.  A call writes one log line for every resource it
    processes, in the order in which it processes them, with the local
    time of the operation, its state, the display name of its type (the
    resource type itself when there is no display name) and the resource
    name.  The only other line it can write reports a failure of
    [Deployment.Get] on a tracker that has not started; the failures it
    returns to the caller are not logged. *)
Theorem X10_log_lines r display :
  logLines (eventsOf r display) =
    (if deploymentStarted display then []
     else match Deployment_Get r with
          | Err err => [("error while reporting progress: " ++ err)%string]
          | Ok _ => []
          end)
    ++ map (logLineOf r) (tickResources r display)
  /\ forall op,
       logLineOf r op =
       (formatLocal (Properties_Timestamp op) ++ " - "
        ++ Properties_ProvisioningState op ++ " "
        ++ (if String.eqb (resolveTypeDisplayName r op) ""
            then ResourceType (targetOf op) else resolveTypeDisplayName r op)
        ++ ": " ++ ResourceName (targetOf op))%string.
Proof.
  split.
  - rewrite eventsOf_cases. unfold tickResources, reachesQuery.
    destruct (deploymentStarted display); [apply reportEvents_logLines|].
    destruct (Deployment_Get r); [|reflexivity].
    destruct (Deployment_DeploymentUrl r); [|reflexivity].
    rewrite logLines_app. apply reportEvents_logLines.
  - intros op. unfold logLineOf, hasDisplayName, nameOf.
    now destruct (String.eqb (resolveTypeDisplayName r op) "").
Qed.

Lemma TruncateMillisecond_whole d :
  Z.rem (TruncateMillisecond d) 1000000 = 0
  /\ Z.abs (TruncateMillisecond d) <= Z.abs d
  /\ Z.abs (d - TruncateMillisecond d) < 1000000.
Proof.
  unfold TruncateMillisecond.
  pose proof (Z.quot_rem' d 1000000) as Hd.
  split.
  - replace (d - Z.rem d 1000000) with (Z.quot d 1000000 * 1000000) by lia.
    apply Z.rem_mul; lia.
  - assert ((0 <= d /\ 0 <= Z.rem d 1000000 < 1000000)
            \/ (d < 0 /\ - 1000000 < Z.rem d 1000000 <= 0)) as Hb.
    { destruct (Z_le_gt_dec 0 d) as [Hpos|Hneg].
      - left. split; [exact Hpos|]. apply Z.rem_bound_pos; lia.
      - right. split; [lia|].
        pose proof (Z.rem_bound_pos (- d) 1000000 ltac:(lia) ltac:(lia)) as Hr.
        rewrite Z.rem_opp_l in Hr by lia. lia. }
    revert Hd Hb. generalize (Z.quot d 1000000) (Z.rem d 1000000).
    intros q m Hd Hb. lia.
Qed.

(** X11.  The rows.  The rows of a call are those of the processed
    resources that have a display name, in the order in which they are
    processed; a row carries the display name, the resource name and the
    state of the operation.  Its type is never empty.  Its duration is the
    parsed duration of the operation cut down to a whole number of
    milliseconds, towards zero and by less than a millisecond, and is
    zero when the duration does not parse. *)
Theorem X11_rows r display :
  uxRows (eventsOf r display)
    = map (rowOf r) (List.filter (hasDisplayName r) (tickResources r display))
  /\ Forall wellFormedRow (uxRows (eventsOf r display))
  /\ (forall op d,
        convert_ParseDuration (Properties_Duration op) = Ok d ->
        exists t,
          rowOf r op = DisplayedResource (resolveTypeDisplayName r op)
                         (ResourceName (targetOf op))
                         (Properties_ProvisioningState op) t
          /\ Z.rem t 1000000 = 0 /\ Z.abs t <= Z.abs d /\ Z.abs (d - t) < 1000000)
  /\ (forall op e,
        convert_ParseDuration (Properties_Duration op) = Err e ->
        rowOf r op = DisplayedResource (resolveTypeDisplayName r op)
                       (ResourceName (targetOf op))
                       (Properties_ProvisioningState op) 0).
Proof.
  split; [apply uxRows_eventsOf|]. split; [|split].
  - rewrite uxRows_eventsOf. apply Forall_forall. intros item Hitem.
    apply list_elem_of_In, in_map_iff in Hitem as (op & <- & Hop).
    apply filter_In in Hop as [_ Hname]. unfold hasDisplayName in Hname.
    simpl. split.
    + intros E. rewrite E in Hname. discriminate.
    + apply TruncateMillisecond_whole.
  - intros op d Hd. unfold rowOf. rewrite Hd. eexists.
    split; [reflexivity|]. apply TruncateMillisecond_whole.
  - intros op e He. unfold rowOf. now rewrite He.
Qed.

(** The resources a call processes are, up to their order, the
    operations of the query that pass the guards and have succeeded or
    failed. *)
Lemma tickResources_perm r display operations :
  reachesQuery r display = true ->
  GetDeploymentResourceOperations r = Ok operations ->
  Permutation (tickResources r display)
    (List.filter
       (fun op => newIn (displayedResources display) ProvisioningStateSucceeded op
                  || newIn (displayedResources display) ProvisioningStateFailed op)
       operations).
Proof.
  intros Hreach Hq. rewrite (tickResources_reached r display operations Hreach Hq).
  rewrite <- sort_Slice_perm. clear Hreach Hq.
  induction operations as [|op ops IH]; simpl; [reflexivity|].
  destruct (newIn (displayedResources display) ProvisioningStateSucceeded op) eqn:HS.
  - rewrite (newIn_one_state _ _ HS). simpl. now apply perm_skip.
  - destruct (newIn (displayedResources display) ProvisioningStateFailed op);
      simpl; [|exact IH].
    rewrite <- Permutation_middle. now apply perm_skip.
Qed.

Lemma filter_both {X} (f g : X -> bool) l :
  List.filter g (List.filter f l) = List.filter (fun x => f x && g x) l.
Proof.
  induction l as [|x l IH]; simpl; [reflexivity|].
  destruct (f x); simpl; [|exact IH]. destruct (g x); now rewrite IH.
Qed.

Lemma newIn_nothing_displayed state op :
  newIn ∅ state op = hasTarget op && inState state op.
Proof.
  unfold newIn, isNew, hasTarget, mapIndex.
  destruct (Properties_TargetResource op); [|reflexivity].
  now rewrite lookup_empty.
Qed.

(** X12.  The first call on a new tracker.  When [Deployment.Get],
    [DeploymentUrl] and the query for the operations succeed, the first
    call on a tracker made by [NewProvisioningProgressDisplay] returns no
    error, starts with the blank line and the announcement and leaves a
    started tracker.  Nothing has been displayed yet, so no operation is
    filtered out: the call writes a log line for every operation of the
    query that has a target resource and has succeeded or failed, and for
    no other; it shows a row for those of them that have a display name;
    and the names it records in [displayedResources] are exactly
    theirs. *)
Theorem X12_new_tracker_first_call r v url operations
    (Hget : Deployment_Get r = Ok v)
    (Hurl : Deployment_DeploymentUrl r = Ok url)
    (Hq : GetDeploymentResourceOperations r = Ok operations) :
  let final op :=
    hasTarget op
    && (inState ProvisioningStateSucceeded op || inState ProvisioningStateFailed op) in
  returned r NewProvisioningProgressDisplay = None
  /\ deploymentStarted (stateAfter r NewProvisioningProgressDisplay) = true
  /\ (exists rest,
        eventsOf r NewProvisioningProgressDisplay
        = EnsureBlankLine
          :: MessageUxItem (MultilineMessage (announcementLines r url)) :: rest)
  /\ Permutation (logLines (eventsOf r NewProvisioningProgressDisplay))
       (map (logLineOf r) (List.filter final operations))
  /\ Permutation (uxRows (eventsOf r NewProvisioningProgressDisplay))
       (map (rowOf r)
          (List.filter (fun op => final op && hasDisplayName r op) operations))
  /\ dom (displayedResources (stateAfter r NewProvisioningProgressDisplay))
     = list_to_set (map nameOf (List.filter final operations)).
Proof.
  intros final.
  assert (reachesQuery r NewProvisioningProgressDisplay = true) as Hreach.
  { unfold reachesQuery. simpl. now rewrite Hget, Hurl. }
  assert (Permutation (tickResources r NewProvisioningProgressDisplay)
            (List.filter final operations)) as Hperm.
  { rewrite (tickResources_perm r _ operations Hreach Hq).
    erewrite List.filter_ext; [reflexivity|]. intros op. simpl.
    rewrite !newIn_nothing_displayed. unfold final.
    now destruct (hasTarget op). }
  split.
  { unfold returned. rewrite tick_unfold. simpl. rewrite Hget, Hurl. cbv zeta.
    now rewrite report_unfold, Hq. }
  split; [now apply reachesQuery_stateAfter|].
  split.
  { rewrite eventsOf_cases. simpl. rewrite Hget, Hurl. eexists. reflexivity. }
  split.
  { assert (logLines (eventsOf r NewProvisioningProgressDisplay)
            = map (logLineOf r) (tickResources r NewProvisioningProgressDisplay))
      as ->.
    { rewrite eventsOf_cases. unfold tickResources. rewrite Hreach.
      change (deploymentStarted NewProvisioningProgressDisplay) with false.
      cbv iota. rewrite Hget, Hurl, logLines_app. apply reportEvents_logLines. }
    now apply Permutation_map. }
  split.
  { rewrite uxRows_eventsOf, <- filter_both.
    now apply Permutation_map, filter_Permutation. }
  rewrite stateAfter_displayed, fold_insert_dom. simpl.
  rewrite dom_empty_L, (list_to_set_perm_L _ _ (Permutation_map nameOf Hperm)).
  set_solver.
Qed.

End TrackerCoverage.

(** Two web sites and a database still running, next to a site that is
    done. *)
Example sampleTick_spinner :
  spinnerTitles
    (sampleEvents
       (sampleWorld
          (Ok [ sampleOperation "web1" "Microsoft.Web/sites" "Running" 1;
                sampleOperation "db" "Microsoft.Sql/servers" "Running" 1;
                sampleOperation "web2" "Microsoft.Web/sites" "Running" 2;
                sampleOperation "web3" "Microsoft.Web/sites" "Succeeded" 2 ]))
       NewProvisioningProgressDisplay)
  = ["Creating/Updating resources (App Service, App Service)"].
Proof. vm_compute. reflexivity. Qed.

Lemma X12_witness :
  Deployment_Get (sampleWorld (Ok siteAndFailedPlan)) = Ok tt
  /\ Deployment_DeploymentUrl (sampleWorld (Ok siteAndFailedPlan))
     = Ok "https://portal.azure.com/d1"
  /\ GetDeploymentResourceOperations (sampleWorld (Ok siteAndFailedPlan))
     = Ok siteAndFailedPlan
  /\ returned (ext := sampleExternals) (sampleWorld (Ok siteAndFailedPlan))
       NewProvisioningProgressDisplay = None.
Proof.
  repeat (split; [reflexivity|]).
  exact (proj1 (X12_new_tracker_first_call (ext := sampleExternals)
                  (sampleWorld (Ok siteAndFailedPlan)) tt
                  "https://portal.azure.com/d1" siteAndFailedPlan
                  eq_refl eq_refl eq_refl)).
Defined.

Lemma X3_witness :
  deploymentStarted NewProvisioningProgressDisplay = false
  /\ Deployment_Get sampleNoUrlWorld = Ok tt
  /\ Deployment_DeploymentUrl sampleNoUrlWorld = Err "no portal link"
  /\ sampleTick sampleNoUrlWorld NewProvisioningProgressDisplay
     = (startedDisplay, [], Some "no portal link").
Proof.
  repeat (split; [reflexivity|]).
  exact (proj1 (X3_url_failure_loses_announcement (ext := sampleExternals)
                  sampleNoUrlWorld NewProvisioningProgressDisplay
                  "no portal link" [] eq_refl eq_refl eq_refl)).
Defined.


Lemma X6_witness :
  let r := sampleWorld (Ok siteAndFailedPlan) in
  deploymentStarted startedDisplay = true
  /\ sameProgress r (sampleUnreachableWorld siteAndFailedPlan)
  /\ sampleTick r startedDisplay
     = sampleTick (sampleUnreachableWorld siteAndFailedPlan) startedDisplay.
Proof.
  intros r.
  assert (sameProgress r (sampleUnreachableWorld siteAndFailedPlan)) as Hsame.
  { repeat split. }
  split; [reflexivity|]. split; [exact Hsame|].
  exact (X6_started_ignores_deployment (ext := sampleExternals)
           r (sampleUnreachableWorld siteAndFailedPlan) startedDisplay
           eq_refl Hsame).
Defined.

Lemma X7_witness :
  let r := sampleWorld (Ok []) in
  Properties_TargetResource sampleNestedDeployment = None
  /\ sampleTick (withOperations r (siteAndFailedPlan ++ sampleNestedDeployment :: []))
       NewProvisioningProgressDisplay
     = sampleTick (withOperations r (siteAndFailedPlan ++ []))
         NewProvisioningProgressDisplay.
Proof.
  intros r. split; [reflexivity|].
  exact (X7_untargeted_or_displayed_ignored (ext := sampleExternals)
           r NewProvisioningProgressDisplay siteAndFailedPlan
           sampleNestedDeployment [] (or_introl eq_refl)).
Defined.

Lemma X8_witness :
  let done := sampleOperation "web" "Microsoft.Web/sites" "Succeeded" 3 in
  let r1 := sampleWorld (Ok [sampleOperation "web" "Microsoft.Web/sites" "Running" 1]) in
  let r2 := sampleWorld (Ok [done]) in
  mapIndex (displayedResources NewProvisioningProgressDisplay) (nameOf done) = false
  /\ reachesQuery r2 (sampleStateAfter r1 NewProvisioningProgressDisplay) = true
  /\ GetDeploymentResourceOperations r2 = Ok [done]
  /\ In done [done]
  /\ hasTarget done = true
  /\ Properties_ProvisioningState done = ProvisioningStateSucceeded
  /\ In done (tickResources r2 (sampleStateAfter r1 NewProvisioningProgressDisplay)).
Proof.
  intros done r1 r2.
  assert (In done [done]) as Hin by (left; reflexivity).
  split; [reflexivity|]. split; [reflexivity|]. split; [reflexivity|].
  split; [exact Hin|]. split; [reflexivity|]. split; [reflexivity|].
  refine (proj1 (proj2 (X8_running_then_completed (ext := sampleExternals)
                   r1 r2 NewProvisioningProgressDisplay done [done]
                   eq_refl _ eq_refl eq_refl Hin eq_refl (or_introl eq_refl)))).
  intros operations1 op Hq Hop _.
  injection Hq as <-. destruct Hop as [<-|[]]. split; discriminate.
Defined.

(** ** The parameter prompter *)

Module PrompterProperties.
Import Prompter.

Section Prompting.

Variable json_Unmarshal : string -> option Json.
Variable Locations : list string.

Lemma validate_out_of_range answer :
  outOfRange answer ->
  exists text, validate json_Unmarshal rangeValue AsInt answer = inr text.
Proof.
  intros (n & Hn & Hr). unfold validate. rewrite Hn. simpl.
  destruct (n <? 1) eqn:E1; [eauto|].
  destruct (10 <? n) eqn:E2; [eauto|].
  apply Z.ltb_ge in E1, E2. lia.
Qed.

Lemma promptLoop_rangeValue_retries message default bad :
  Forall outOfRange bad ->
  exists trace,
    promptLoop json_Unmarshal rangeValue AsInt message default (bad ++ ["5"])
    = (Ok (JNumber 5), trace, [])
    /\ interactions trace = S (length bad)
    /\ length (Output trace) = length bad.
Proof.
  induction 1 as [|answer bad Hbad _ IH].
  - eexists. split; [reflexivity|]. split; reflexivity.
  - destruct (validate_out_of_range answer Hbad) as (text & Htext).
    destruct IH as (trace & Hloop & Hi & Ho).
    rewrite <- app_comm_cons. cbn [promptLoop]. rewrite Htext, Hloop.
    eexists. split; [reflexivity|]. unfold interactions, Output in *. simpl.
    now rewrite Hi, Ho.
Qed.

Example outOfRange_answers : outOfRange "0" /\ outOfRange "11" /\ ~ outOfRange "5".
Proof.
  split; [exists 0; split; [reflexivity|lia]|].
  split; [exists 11; split; [reflexivity|lia]|].
  intros (n & Hn & Hr). vm_compute in Hn. injection Hn as <-. lia.
Qed.

(** C5.  For the definition [{type:int, minValue:1, maxValue:10}] and the
    answers ["0"], ["11"], ["5"] the prompter asks three times, says
    ["at least '1'"] after the first answer and ["at most '10'"] after the
    second, and returns 5 without an error.  There is no cap on the
    retries: after any number of answers out of range, the answer ["5"]
    is still asked for and returned. *)
Theorem C5_int_bounds_reprompt :
  let message := promptMessage "testParam" in
  let trace :=
    [ Prompted message None; Message "at least '1'";
      Prompted message None; Message "at most '10'";
      Prompted message None ] in
  PromptForParameter json_Unmarshal Locations "testParam" rangeValue
    (answering ["0"; "11"; "5"])
    = (Ok (JNumber 5), trace, answering [])
  /\ interactions trace = 3%nat
  /\ outputContains trace "at least '1'" = true
  /\ outputContains trace "at most '10'" = true
  /\ forall bad, Forall outOfRange bad ->
       exists retries,
         PromptForParameter json_Unmarshal Locations "testParam" rangeValue
           (answering (bad ++ ["5"]))
         = (Ok (JNumber 5), retries, answering [])
         /\ interactions retries = S (length bad)
         /\ length (Output retries) = length bad.
Proof.
  intros message trace.
  split; [reflexivity|]. split; [reflexivity|].
  split; [vm_compute; reflexivity|]. split; [vm_compute; reflexivity|].
  intros bad Hbad.
  destruct (promptLoop_rangeValue_retries message None bad Hbad)
    as (retries & Hloop & Hi & Ho).
  exists retries. split; [|split; assumption].
  unfold PromptForParameter. simpl. fold message. now rewrite Hloop.
Qed.

(** C6.  A definition of type [int] whose [metadata.azd.default] is a
    string, numeric-looking or not, makes the prompter fail at once: an
    error is returned and nothing happens on the console.  A number is
    accepted as the default: the prompt is issued with it, and with the
    default 33 and the answer ["33"] the value is 33. *)
Theorem C6_int_default_must_be_number name definition console s azdType
    (Htype : Type_ definition = ParamInt)
    (Hdefault : Metadata_azd definition =
                Some {| azd_default := Some (JString s); azd_type := azdType |}) :
  (exists e, PromptForParameter json_Unmarshal Locations name definition console
               = (Err e, [], console))
  /\ (forall n, resolveDefault (intWithDefault (JNumber n)) = Ok (Some (JNumber n)))
  /\ PromptForParameter json_Unmarshal Locations "testParam"
       (intWithDefault (JNumber 33)) (answering ["33"])
     = (Ok (JNumber 33),
        [Prompted (promptMessage "testParam") (Some (JNumber 33))], answering []).
Proof.
  split; [|split; [reflexivity|reflexivity]].
  unfold PromptForParameter, resolveDefault. rewrite Hdefault, Htype. simpl.
  destruct (AllowedValues definition) as [[|a values]|]; eauto.
Qed.

(** C7.  When [allowedValues] is present and empty the prompter returns
    an error at once: no prompt and no select are issued, and the console
    is left as it was. *)
Theorem C7_empty_allowed_values_error name definition console
    (Hempty : AllowedValues definition = Some []) :
  exists e, PromptForParameter json_Unmarshal Locations name definition console
              = (Err e, [], console).
Proof. unfold PromptForParameter. rewrite Hempty. eauto. Qed.

(** *** The retry loop and the select styles *)

Lemma validate_sound definition kind answer v :
  validate json_Unmarshal definition kind answer = inl v ->
  withinBounds definition kind v
  /\ forall values, AllowedValues definition = Some values ->
                    memberOf v values = true.
Proof.
  unfold validate, withinBounds. intros H.
  assert (forall w : Json,
             match AllowedValues definition with
             | Some values => if memberOf w values then inl w
                              else inr "the value is not one of the allowed values"
             | None => inl w
             end = inl v ->
             w = v /\ forall values, AllowedValues definition = Some values ->
                                     memberOf v values = true) as Hallowed.
  { intros w Hw. destruct (AllowedValues definition) as [values|].
    - destruct (memberOf w values) eqn:E; [|discriminate].
      injection Hw as <-. split; [reflexivity|]. now intros ? [= <-].
    - injection Hw as <-. split; [reflexivity|]. discriminate. }
  destruct kind.
  - destruct (MinLength definition) as [lo|], (MaxLength definition) as [hi|];
      repeat match type of H with
             | context [if ?c then _ else _] => destruct c eqn:?
             end; try discriminate;
      apply Hallowed in H as [<- Hm]; (split; [|exact Hm]);
      split; intros ? [= <-]; lia.
  - destruct (parseInt answer) as [n|]; [|discriminate].
    destruct (MinValue definition) as [lo|], (MaxValue definition) as [hi|];
      repeat match type of H with
             | context [if ?c then _ else _] => destruct c eqn:?
             end; try discriminate;
      apply Hallowed in H as [<- Hm]; (split; [|exact Hm]);
      split; intros ? [= <-]; lia.
  - destruct (json_Unmarshal answer) as [[| | | |items|]|]; try discriminate.
    apply Hallowed in H as [<- Hm]. now split.
  - destruct (json_Unmarshal answer) as [[| | | | |fields]|]; try discriminate.
    apply Hallowed in H as [<- Hm]. now split.
Qed.

Lemma promptLoop_outcome definition kind message default answers :
  match promptLoop json_Unmarshal definition kind message default answers with
  | (Ok v, trace, rest) =>
      exists bad good,
        answers = bad ++ good :: rest
        /\ Forall (fun answer =>
                     exists text,
                       validate json_Unmarshal definition kind answer = inr text) bad
        /\ validate json_Unmarshal definition kind good = inl v
        /\ interactions trace = S (length bad)
        /\ length (Output trace) = length bad
  | (Err _, trace, rest) =>
      rest = []
      /\ Forall (fun answer =>
                   exists text,
                     validate json_Unmarshal definition kind answer = inr text)
           answers
      /\ interactions trace = S (length answers)
      /\ length (Output trace) = length answers
  end.
Proof.
  induction answers as [|answer answers IH]; cbn [promptLoop].
  - repeat split. constructor.
  - destruct (validate json_Unmarshal definition kind answer) as [v|text] eqn:Hv.
    + exists [], answer. repeat split; [constructor|exact Hv].
    + destruct (promptLoop json_Unmarshal definition kind message default answers)
        as [[[v|e] trace] rest].
      * destruct IH as (bad & good & -> & Hbad & Hgood & Hi & Ho).
        exists (answer :: bad), good.
        split; [reflexivity|]. split; [constructor; eauto|].
        split; [exact Hgood|]. unfold interactions, Output in *. simpl.
        now rewrite Hi, Ho.
      * destruct IH as (-> & Hbad & Hi & Ho).
        split; [reflexivity|]. split; [constructor; eauto|].
        unfold interactions, Output in *. simpl. now rewrite Hi, Ho.
Qed.

Lemma promptLoop_trace definition kind message default answers :
  Forall (fun i => i = Prompted message default \/ exists text, i = Message text)
    (snd (fst (promptLoop json_Unmarshal definition kind message default answers))).
Proof.
  induction answers as [|answer answers IH]; cbn [promptLoop].
  - repeat constructor.
  - destruct (validate json_Unmarshal definition kind answer) as [v|text].
    + repeat constructor.
    + destruct (promptLoop json_Unmarshal definition kind message default answers)
        as [[res trace] rest]. simpl in *.
      constructor; [now left|]. constructor; [right; eauto|exact IH].
Qed.

Lemma promptStyle_cases definition :
  promptStyle Locations definition
  = if isLocation definition && hasStringType definition
    then SelectFrom
           (List.filter
              (fun region => match AllowedValues definition with
                             | Some values => memberOf region values
                             | None => true
                             end)
              (map JString Locations))
    else match AllowedValues definition with
         | Some (a :: values) => SelectFrom (a :: values)
         | _ =>
             match Type_ definition with
             | ParamBool => SelectBool
             | ParamInt => FreeText AsInt
             | ParamArray => FreeText AsArray
             | ParamObject | ParamSecureObject => FreeText AsObject
             | ParamString | ParamSecureString => FreeText AsString
             end
         end.
Proof. reflexivity. Qed.

Lemma selectOne_outcome message choices default pick console res trace console' :
  selectOne message choices default pick console = (res, trace, console') ->
  trace = [Selected message choices default]
  /\ promptAnswers console' = promptAnswers console
  /\ (length (selectAnswers console') <= length (selectAnswers console))%nat
  /\ forall v, res = Ok v -> exists choice, In choice choices /\ v = pick choice.
Proof.
  unfold selectOne. destruct (selectAnswers console) as [|index rest] eqn:Hs.
  - intros [= <- <- <-]. rewrite Hs. repeat split; [simpl; lia|discriminate].
  - destruct (nth_error choices index) as [choice|] eqn:Hn;
      intros [= <- <- <-]; (repeat split; [simpl; lia|]).
    + intros v [= <-]. exists choice. split; [|reflexivity].
      eapply nth_error_In, Hn.
    + discriminate.
Qed.

Lemma Json_eqb_string s v : Json_eqb (JString s) v = true -> v = JString s.
Proof.
  destruct v; simpl; try discriminate. intros H.
  apply String.eqb_eq in H. now subst.
Qed.

Lemma memberOf_string s values :
  memberOf (JString s) values = true -> In (JString s) values.
Proof.
  unfold memberOf. intros H. apply existsb_exists in H as (v & Hin & Hv).
  apply Json_eqb_string in Hv. now subst.
Qed.

Lemma filter_regions (f : Json -> bool) (regions : list string) :
  List.filter f (map JString regions)
  = map JString (List.filter (fun region => f (JString region)) regions).
Proof.
  induction regions as [|region regions IH]; [reflexivity|]. simpl.
  destruct (f (JString region)); simpl; now rewrite IH.
Qed.

Lemma resolveDefault_allowed definition a values default d :
  AllowedValues definition = Some (a :: values) ->
  resolveDefault definition = Ok default ->
  default = Some d -> memberOf d (a :: values) = true.
Proof.
  unfold resolveDefault. intros Ha.
  destruct (Metadata_azd definition) as [[[w|] azdType]|]; try discriminate.
  - destruct (defaultOfType (Type_ definition) w) as [d'|]; [|discriminate].
    rewrite Ha. destruct (memberOf d' (a :: values)) eqn:E; [|discriminate].
    intros [= <-] [= <-]. exact E.
  - now intros [= <-].
  - now intros [= <-].
Qed.

(** X13.  (The model of [promptForParameter]; the cases of
    [TestPromptForParameterValidation] are instances.)  Take a parameter
    without allowed values that is asked for as free text and whose
    default resolves.  It is asked for again after every answer that
    fails validation, with one message per failed answer, and nothing
    else happens on the console: the prompts all carry the message of
    the parameter and the resolved default, and no [Select] is consumed.
    When a value is returned it is the validated form of the first
    answer that passes, the answers before it were all rejected, the
    answers after it are left on the console, and the value keeps the
    bounds of the definition ([minValue]/[maxValue] for an int,
    [minLength]/[maxLength] for a string).  The prompter gives up only
    when the console has no answer left, having rejected every one of
    them. *)
Theorem X13_free_text_returns_validated name definition kind default console
    res trace console'
    (Hnone : AllowedValues definition = None)
    (Hdefault : resolveDefault definition = Ok default)
    (Hstyle : promptStyle Locations definition = FreeText kind)
    (Hrun : PromptForParameter json_Unmarshal Locations name definition console
            = (res, trace, console')) :
  selectAnswers console' = selectAnswers console
  /\ Forall (fun i => i = Prompted (promptMessage name) default
                      \/ exists text, i = Message text) trace
  /\ match res with
     | Ok v =>
         exists bad good,
           promptAnswers console = bad ++ good :: promptAnswers console'
           /\ Forall (fun answer =>
                        exists text,
                          validate json_Unmarshal definition kind answer = inr text)
                bad
           /\ validate json_Unmarshal definition kind good = inl v
           /\ withinBounds definition kind v
           /\ interactions trace = S (length bad)
           /\ length (Output trace) = length bad
     | Err _ =>
         promptAnswers console' = []
         /\ Forall (fun answer =>
                      exists text,
                        validate json_Unmarshal definition kind answer = inr text)
              (promptAnswers console)
         /\ interactions trace = S (length (promptAnswers console))
         /\ length (Output trace) = length (promptAnswers console)
     end.
Proof.
  unfold PromptForParameter in Hrun. rewrite Hnone, Hdefault, Hstyle in Hrun.
  pose proof (promptLoop_outcome definition kind (promptMessage name) default
                (promptAnswers console)) as Hout.
  pose proof (promptLoop_trace definition kind (promptMessage name) default
                (promptAnswers console)) as Htrace.
  destruct (promptLoop json_Unmarshal definition kind (promptMessage name) default
              (promptAnswers console)) as [[res0 trace0] rest].
  injection Hrun as <- <- <-. simpl in *.
  split; [reflexivity|]. split; [exact Htrace|].
  destruct res0 as [v|e]; [|exact Hout].
  destruct Hout as (bad & good & Hans & Hbad & Hgood & Hi & Ho).
  exists bad, good. destruct (validate_sound _ _ _ _ Hgood) as [Hb _].
  repeat split; assumption.
Qed.

(** X14.  (The model of [promptForParameter]; the cases of
    [TestPromptForParameterAllowedValues],
    [TestPromptForParameterOverrideDefault] and
    [TestPromptForParameterOverrideDefaultError] are instances.)  A
    parameter with a non-empty [allowedValues] is never asked for as free
    text: whatever its type and metadata, the console sees at most one
    [Select] and no prompt, its prompt answers are untouched, and a value
    that is returned is one of the allowed values.  When the parameter is
    not a location and its default resolves, the choices offered are the
    allowed values in their order and the default offered is one of them;
    a default of the right type that is not an allowed value is an error
    before anything is asked. *)
Theorem X14_allowed_values_select name definition a values console
    res trace console'
    (Hallowed : AllowedValues definition = Some (a :: values))
    (Hrun : PromptForParameter json_Unmarshal Locations name definition console
            = (res, trace, console')) :
  promptAnswers console' = promptAnswers console
  /\ (trace = [] \/ exists choices default,
                      trace = [Selected (promptMessage name) choices default])
  /\ (forall v, res = Ok v -> In v (a :: values))
  /\ (forall default,
        isLocation definition = false ->
        resolveDefault definition = Ok default ->
        (res, trace, console')
        = selectOne (promptMessage name) (a :: values) default (fun choice => choice)
            console
        /\ forall d, default = Some d -> memberOf d (a :: values) = true)
  /\ (forall w d azdType,
        Metadata_azd definition
        = Some {| azd_default := Some w; azd_type := azdType |} ->
        defaultOfType (Type_ definition) w = Some d ->
        memberOf d (a :: values) = false ->
        exists e, (res, trace, console') = (Err e, [], console)).
Proof.
  unfold PromptForParameter in Hrun. rewrite Hallowed in Hrun.
  rewrite promptStyle_cases, Hallowed in Hrun.
  destruct (resolveDefault definition) as [default|e] eqn:Hd.
  - destruct (isLocation definition && hasStringType definition) eqn:Hpicker.
    + destruct (selectOne_outcome _ _ _ _ _ _ _ _ Hrun) as (-> & Hp & _ & Hv).
      split; [exact Hp|]. split; [right; eauto|].
      split; [|split].
      * intros v Hres. destruct (Hv v Hres) as (choice & Hin & ->).
        apply filter_In in Hin as [Hin Hm].
        apply in_map_iff in Hin as (region & <- & _).
        now apply memberOf_string.
      * intros default' Hloc. rewrite Hloc in Hpicker. discriminate.
      * intros w d azdType Hmeta Htype Hnot. exfalso.
        unfold resolveDefault in Hd. rewrite Hmeta, Htype, Hallowed, Hnot in Hd.
        discriminate.
    + destruct (selectOne_outcome _ _ _ _ _ _ _ _ Hrun) as (-> & Hp & _ & Hv).
      split; [exact Hp|]. split; [right; eauto|].
      split; [|split].
      * intros v Hres. now destruct (Hv v Hres) as (choice & Hin & ->).
      * intros default' _ [= <-]. split; [now rewrite <- Hrun|].
        intros d. now apply (resolveDefault_allowed definition a values default d).
      * intros w d azdType Hmeta Htype Hnot. exfalso.
        unfold resolveDefault in Hd. rewrite Hmeta, Htype, Hallowed, Hnot in Hd.
        discriminate.
  - injection Hrun as <- <- <-.
    split; [reflexivity|]. split; [now left|].
    split; [discriminate|]. split; [discriminate|]. eauto.
Qed.

(** X15.  (The model of [promptForParameter]; the bool cases of
    [TestPromptForParameter], [TestPromptForParameterBoolDefaultType]
    and [TestPromptForParameterBoolDefaultStringType] are instances.)  A
    bool parameter without allowed values whose default resolves is
    asked for with one [Select] between ["False"] and ["True"], in that
    order, whatever its metadata: index 0 gives [false], index 1 gives
    [true], and one answer is consumed.  Its resolved default is a bool
    or absent; a string default counts when it reads [true] or [false]
    in any case, and the default is offered as ["True"] or ["False"]. *)
Theorem X15_bool_select name definition default console
    (Htype : Type_ definition = ParamBool)
    (Hallowed : AllowedValues definition = None)
    (Hdefault : resolveDefault definition = Ok default) :
  (default = None \/ exists b, default = Some (JBool b))
  /\ (forall s azdType,
        Metadata_azd definition
        = Some {| azd_default := Some (JString s); azd_type := azdType |} ->
        (ToLower s = "true" /\ default = Some (JBool true))
        \/ (ToLower s = "false" /\ default = Some (JBool false)))
  /\ exists shown,
       (default = None -> shown = None)
       /\ (forall b, default = Some (JBool b) ->
                     shown = Some (JString (if b then "True" else "False")))
       /\ forall index rest,
            selectAnswers console = index :: rest ->
            PromptForParameter json_Unmarshal Locations name definition console
            = (match index with
               | O => Ok (JBool false)
               | S O => Ok (JBool true)
               | _ => Err "console: no such choice"
               end,
               [Selected (promptMessage name) [JString "False"; JString "True"]
                  shown],
               {| promptAnswers := promptAnswers console; selectAnswers := rest |}).
Proof.
  assert (default = None \/ exists b, default = Some (JBool b)) as Hbool.
  { unfold resolveDefault in Hdefault. rewrite Htype, Hallowed in Hdefault.
    destruct (Metadata_azd definition) as [[[w|] azdType]|];
      try (injection Hdefault as <-; now left).
    destruct w; simpl in Hdefault; try discriminate.
    - injection Hdefault as <-. right. eauto.
    - destruct (String.eqb (ToLower s) "true");
        [injection Hdefault as <-; right; eauto|].
      destruct (String.eqb (ToLower s) "false"); [|discriminate].
      injection Hdefault as <-. right. eauto. }
  split; [exact Hbool|]. split.
  - intros s azdType Hmeta.
    unfold resolveDefault in Hdefault.
    rewrite Hmeta, Htype, Hallowed in Hdefault. simpl in Hdefault.
    destruct (String.eqb (ToLower s) "true") eqn:Et.
    + injection Hdefault as <-. apply String.eqb_eq in Et. now left.
    + destruct (String.eqb (ToLower s) "false") eqn:Ef; [|discriminate].
      injection Hdefault as <-. apply String.eqb_eq in Ef. now right.
  - exists (match default with
            | Some (JBool true) => Some (JString "True")
            | Some (JBool false) => Some (JString "False")
            | _ => None
            end).
    split; [now intros ->|]. split; [intros [|] ->; reflexivity|].
    intros index rest Hs. unfold PromptForParameter.
    rewrite Hallowed, Hdefault, promptStyle_cases.
    unfold hasStringType. rewrite Htype, andb_false_r, Hallowed.
    unfold selectOne. rewrite Hs.
    destruct index as [|[|index]]; [reflexivity|reflexivity|].
    simpl. now destruct index.
Qed.

(** X16.  (The model of [promptForParameter]; the two cases of
    [TestPromptForParametersLocation] are instances.)  Take a parameter
    of type string whose [azd] metadata gives it the type [location],
    whose allowed values are absent or not empty, and whose default
    resolves.  It is asked for with one [Select] among the regions of
    the subscription, in their order: all of them when there are no
    allowed values, and only those among the allowed values otherwise.
    The value returned is the name of one of the regions offered. *)
Theorem X16_location_select name definition default console
    (Htype : Type_ definition = ParamString)
    (Hlocation : isLocation definition = true)
    (Hallowed : AllowedValues definition <> Some [])
    (Hdefault : resolveDefault definition = Ok default) :
  let regions :=
    List.filter (fun region => match AllowedValues definition with
                               | Some values => memberOf (JString region) values
                               | None => true
                               end) Locations in
  PromptForParameter json_Unmarshal Locations name definition console
  = selectOne (promptMessage name) (map JString regions) default
      (fun choice => choice) console
  /\ (AllowedValues definition = None -> regions = Locations)
  /\ (forall region, In region regions <->
        In region Locations
        /\ forall values, AllowedValues definition = Some values ->
                          In (JString region) values)
  /\ forall v,
       fst (fst (PromptForParameter json_Unmarshal Locations name definition
                   console)) = Ok v ->
       exists region, v = JString region /\ In region regions.
Proof.
  intros regions.
  assert (PromptForParameter json_Unmarshal Locations name definition console
          = selectOne (promptMessage name) (map JString regions) default
              (fun choice => choice) console) as Heq.
  { unfold PromptForParameter.
    rewrite Hdefault, promptStyle_cases, Hlocation. unfold hasStringType.
    rewrite Htype. cbn [andb]. rewrite filter_regions.
    destruct (AllowedValues definition) as [[|a values]|];
      [now contradict Hallowed|reflexivity|reflexivity]. }
  split; [exact Heq|]. split; [|split].
  - intros Hnone. unfold regions. rewrite Hnone.
    clear. induction Locations as [|region rest IH]; [reflexivity|].
    simpl. now rewrite IH.
  - intros region. unfold regions. rewrite filter_In. split.
    + intros [Hin Hm]. split; [exact Hin|]. intros values Hv.
      rewrite Hv in Hm. now apply memberOf_string.
    + intros [Hin Hm]. split; [exact Hin|].
      destruct (AllowedValues definition) as [values|]; [|reflexivity].
      unfold memberOf. apply existsb_exists. exists (JString region).
      split; [now apply Hm|]. simpl. apply String.eqb_refl.
  - intros v Hv. rewrite Heq in Hv.
    destruct (selectOne (promptMessage name) (map JString regions) default
                (fun choice => choice) console) as [[res trace] console'] eqn:Hs.
    destruct (selectOne_outcome _ _ _ _ _ _ _ _ Hs) as (_ & _ & _ & Hpick).
    destruct (Hpick v Hv) as (choice & Hin & ->).
    apply in_map_iff in Hin as (region & <- & Hin). eauto.
Qed.

End Prompting.

Example prompt_default_from_string :
  samplePrompt "testParam" (intWithDefault (JString "33")) (answering ["33"])
  = (Err "the default value in the metadata does not match the parameter type",
     [], answering ["33"]).
Proof. reflexivity. Qed.

Example prompt_bad_int :
  samplePrompt "testParam" (ofType ParamInt) (answering ["bad"; "100"])
  = (Ok (JNumber 100),
     [ Prompted (promptMessage "testParam") None;
       Message "failed to convert 'bad' to an integer";
       Prompted (promptMessage "testParam") None ],
     answering []).
Proof. vm_compute. reflexivity. Qed.

Example prompt_bad_array :
  samplePrompt "testParam" (ofType ParamArray) (answering ["{}"; "[]"])
  = (Ok (JArray []),
     [ Prompted (promptMessage "testParam") None;
       Message "failed to parse value as a JSON array";
       Prompted (promptMessage "testParam") None ],
     answering []).
Proof. vm_compute. reflexivity. Qed.

Lemma C6_witness :
  Type_ (intWithDefault (JString "33")) = ParamInt
  /\ Metadata_azd (intWithDefault (JString "33")) =
     Some {| azd_default := Some (JString "33"); azd_type := None |}
  /\ exists e, samplePrompt "testParam" (intWithDefault (JString "33"))
                 (answering ["33"]) = (Err e, [], answering ["33"]).
Proof.
  split; [reflexivity|]. split; [reflexivity|].
  exact (proj1 (C6_int_default_must_be_number sampleUnmarshal
                  ["eastus"; "eastus2"; "westus"] "testParam"
                  (intWithDefault (JString "33")) (answering ["33"]) "33" None
                  eq_refl eq_refl)).
Defined.

Lemma C7_witness :
  AllowedValues emptyAllowedValues = Some []
  /\ exists e, samplePrompt "testParam" emptyAllowedValues
                 {| promptAnswers := ["x"]; selectAnswers := [0%nat] |}
               = (Err e, [], {| promptAnswers := ["x"]; selectAnswers := [0%nat] |}).
Proof.
  split; [reflexivity|].
  exact (C7_empty_allowed_values_error sampleUnmarshal
           ["eastus"; "eastus2"; "westus"] "testParam" emptyAllowedValues
           {| promptAnswers := ["x"]; selectAnswers := [0%nat] |} eq_refl).
Defined.

Lemma X13_witness :
  AllowedValues rangeValue = None
  /\ resolveDefault rangeValue = Ok None
  /\ promptStyle sampleLocations rangeValue = FreeText AsInt
  /\ PromptForParameter sampleUnmarshal sampleLocations "testParam" rangeValue
       (answering ["0"; "11"; "5"])
     = (Ok (JNumber 5),
        [ Prompted (promptMessage "testParam") None; Message "at least '1'";
          Prompted (promptMessage "testParam") None; Message "at most '10'";
          Prompted (promptMessage "testParam") None ],
        answering [])
  /\ selectAnswers (answering []) = selectAnswers (answering ["0"; "11"; "5"]).
Proof.
  repeat (split; [reflexivity|]).
  exact (proj1 (X13_free_text_returns_validated sampleUnmarshal sampleLocations
                  "testParam" rangeValue AsInt None (answering ["0"; "11"; "5"])
                  (Ok (JNumber 5))
                  [ Prompted (promptMessage "testParam") None;
                    Message "at least '1'";
                    Prompted (promptMessage "testParam") None;
                    Message "at most '10'";
                    Prompted (promptMessage "testParam") None ]
                  (answering []) eq_refl eq_refl eq_refl eq_refl)).
Defined.

Lemma X14_witness :
  AllowedValues (threeChoices "good")
  = Some [JString "three"; JString "good"; JString "choices"]
  /\ PromptForParameter sampleUnmarshal sampleLocations "testParam"
       (threeChoices "good") (selecting 1)
     = (Ok (JString "good"),
        [Selected (promptMessage "testParam")
           [JString "three"; JString "good"; JString "choices"]
           (Some (JString "good"))],
        {| promptAnswers := []; selectAnswers := [] |})
  /\ In (JString "good") [JString "three"; JString "good"; JString "choices"].
Proof.
  split; [reflexivity|]. split; [reflexivity|].
  exact (proj1 (proj2 (proj2
           (X14_allowed_values_select sampleUnmarshal sampleLocations "testParam"
              (threeChoices "good") (JString "three")
              [JString "good"; JString "choices"] (selecting 1)
              (Ok (JString "good"))
              [Selected (promptMessage "testParam")
                 [JString "three"; JString "good"; JString "choices"]
                 (Some (JString "good"))]
              {| promptAnswers := []; selectAnswers := [] |}
              eq_refl eq_refl))) (JString "good") eq_refl).
Defined.

Lemma X15_witness :
  Type_ (boolWithDefault (JString "false")) = ParamBool
  /\ AllowedValues (boolWithDefault (JString "false")) = None
  /\ resolveDefault (boolWithDefault (JString "false")) = Ok (Some (JBool false))
  /\ (Some (JBool false) = None \/ exists b, Some (JBool false) = Some (JBool b)).
Proof.
  repeat (split; [reflexivity|]).
  exact (proj1 (X15_bool_select sampleUnmarshal sampleLocations "testParam"
                  (boolWithDefault (JString "false")) (Some (JBool false))
                  (selecting 0) eq_refl eq_refl eq_refl)).
Defined.

Lemma X16_witness :
  Type_ (locationParameter (Some [JString "westus"])) = ParamString
  /\ isLocation (locationParameter (Some [JString "westus"])) = true
  /\ AllowedValues (locationParameter (Some [JString "westus"])) <> Some []
  /\ resolveDefault (locationParameter (Some [JString "westus"])) = Ok None
  /\ PromptForParameter sampleUnmarshal sampleLocations "filteredLocation"
       (locationParameter (Some [JString "westus"])) (selecting 0)
     = selectOne (promptMessage "filteredLocation") [JString "westus"] None
         (fun choice => choice) (selecting 0).
Proof.
  assert (AllowedValues (locationParameter (Some [JString "westus"])) <> Some [])
    as Hallowed by discriminate.
  split; [reflexivity|]. split; [reflexivity|]. split; [exact Hallowed|].
  split; [reflexivity|].
  exact (proj1 (X16_location_select sampleUnmarshal sampleLocations
                  "filteredLocation" (locationParameter (Some [JString "westus"]))
                  None (selecting 0) eq_refl eq_refl Hallowed eq_refl)).
Defined.

(** A bool parameter that carries the location type is still chosen
    between [False] and [True]. *)
Example select_bool_location :
  PromptForParameter sampleUnmarshal sampleLocations "testParam"
    {| Type_ := ParamBool; AllowedValues := None;
       MinValue := None; MaxValue := None; MinLength := None; MaxLength := None;
       Metadata_azd := Some {| azd_default := None; azd_type := Some "location" |} |}
    (selecting 1)
  = (Ok (JBool true),
     [Selected (promptMessage "testParam") [JString "False"; JString "True"] None],
     {| promptAnswers := []; selectAnswers := [] |}).
Proof. reflexivity. Qed.

(** The cases of the tests on the select styles. *)
Example select_allowed_values :
  PromptForParameter sampleUnmarshal sampleLocations "testParam"
    {| Type_ := ParamInt;
       AllowedValues := Some [JNumber 10; JNumber 20; JNumber 30];
       MinValue := None; MaxValue := None; MinLength := None; MaxLength := None;
       Metadata_azd := None |} (selecting 1)
  = (Ok (JNumber 20),
     [Selected (promptMessage "testParam") [JNumber 10; JNumber 20; JNumber 30]
        None],
     {| promptAnswers := []; selectAnswers := [] |}).
Proof. reflexivity. Qed.

Example select_default_not_allowed :
  PromptForParameter sampleUnmarshal sampleLocations "testParam"
    (threeChoices "other") (selecting 1)
  = (Err "the default value in the metadata is not an allowed value", [],
     selecting 1).
Proof. reflexivity. Qed.

Example select_unfiltered_location :
  PromptForParameter sampleUnmarshal sampleLocations "unfilteredLocation"
    (locationParameter None) (selecting 1)
  = (Ok (JString "eastus2"),
     [Selected (promptMessage "unfilteredLocation")
        [JString "eastus"; JString "eastus2"; JString "westus"] None],
     {| promptAnswers := []; selectAnswers := [] |}).
Proof. reflexivity. Qed.

Example select_bool_default :
  PromptForParameter sampleUnmarshal sampleLocations "testParam"
    (boolWithDefault (JBool true)) (selecting 1)
  = (Ok (JBool true),
     [Selected (promptMessage "testParam") [JString "False"; JString "True"]
        (Some (JString "True"))],
     {| promptAnswers := []; selectAnswers := [] |}).
Proof. reflexivity. Qed.

End PrompterProperties.
